(** * MailMonkey: selection, tray planning, postage estimate and campaign ledger

    A shallow embedding of the core of the MailMonkey scripts
    ([BuildMasterCampaignList_v4_MAILZIPFirst.py], [generate_letters.py],
    [generate_envelopes_from_master.py], [finalize_or_rebuild.py]) together
    with the properties the specification states about them.

    Conventions of the embedding:
    - a Python [str] is a [string] of ASCII characters;
    - a Python [dict] is an association list in insertion order
      ([dict_get], [dict_set]), which is the order [dict.items()] iterates in;
    - a [collections.defaultdict(int)] that is only read and written by key
      is a [gmap string nat] read with default [0];
    - a Python [int] that counts pieces is a [nat]; campaign numbers and
      command line integers are [Z];
    - a CSV file is the list of rows [csv.DictReader] yields from it. *)

From stdpp Require Import gmap strings list fin_maps sorting pretty.
From Stdlib Require Import Ascii.
From Stdlib Require OrderedTypeEx.

Local Open Scope nat_scope.

#[local] Set Warnings "-clear-no-such-hyp".
#[local] Arguments Nat.div : simpl never.
#[local] Arguments Nat.modulo : simpl never.

(** ** Python dictionaries in insertion order *)

Section dict.
Context {K V : Type} `{EqDecision K}.

(** [d.get(k)] *)
Fixpoint dict_get (d : list (K * V)) (k : K) : option V :=
  match d with
  | [] => None
  | (k', v) :: d' => if decide (k' = k) then Some v else dict_get d' k
  end.

(** [d[k] = v]: an existing key keeps its position, a new key goes last. *)
Fixpoint dict_set (d : list (K * V)) (k : K) (v : V) : list (K * V) :=
  match d with
  | [] => [(k, v)]
  | (k', v') :: d' =>
      if decide (k' = k) then (k', v) :: d' else (k', v') :: dict_set d' k v
  end.
End dict.

(** [collections.Counter]: a dictionary of counts, a missing key reads [0]. *)
Definition counter_get {K} `{EqDecision K} (c : list (K * nat)) (k : K) : nat :=
  default 0 (dict_get c k).

(** [c[k] += n] *)
Definition counter_add {K} `{EqDecision K} (c : list (K * nat)) (k : K) (n : nat)
  : list (K * nat) :=
  dict_set c k (counter_get c k + n).

(** [Counter(iterable)] *)
Definition Counter {K} `{EqDecision K} (l : list K) : list (K * nat) :=
  foldl (λ c x, counter_add c x 1) [] l.

(** ** Rows and candidates *)

(** A row of a CSV file, [Dict[str,str]]. *)
Abbreviation row := (list (string * string)).

(** [r.get(k, "")] *)
Definition row_get (r : row) (k : string) : string := default "" (dict_get r k).

(** The dictionary [process_rows] builds for a kept lead: the keys
    ["PropertyAddress"], ["OwnerName"], ["ZIP5"] and ["_src_row"]. *)
Record candidate := Candidate {
  c_PropertyAddress : string;
  c_OwnerName : string;
  c_ZIP5 : string;
  c_src_row : row;
}.

Global Instance candidate_eq_dec : EqDecision candidate.
Proof. solve_decision. Defined.

(** [s[:n]] *)
Fixpoint str_take (n : nat) (s : string) : string :=
  match n, s with
  | S n', String a s' => String a (str_take n' s')
  | _, _ => ""
  end.

(** [(z5 or "")[:3]] *)
Definition zip3 (z5 : string) : string := str_take 3 z5.

(** ** Bin planner ([plan_bins_by_order], identical in [generate_letters.py]
    and [generate_envelopes_from_master.py]) *)

Inductive bin_type := T5digit | T3digit | Taadc.

Global Instance bin_type_eq_dec : EqDecision bin_type.
Proof. solve_decision. Defined.

(** A bin dictionary. [b_start] is whatever the start variable held when the
    bin was appended ([None] in Python if it was never set); [b_id] is absent
    until the final numbering. *)
Record bin := Bin {
  b_start : option nat;
  b_end : nat;
  b_type : bin_type;
  b_group : string;
  b_count : nat;
  b_id : option nat;
}.

(** The local variables of the planner's loop. *)
Record plan_state := PlanState {
  trays_assigned : gmap string nat;
  piece_in_current_tray : gmap string nat;
  bins : list bin;
  open_z3_start : option nat;
  open_z3_count : nat;
  open_z3_group : option string;
  current_5_start : option nat;
  current_5_z5 : option string;
}.

Definition plan_init : plan_state :=
  PlanState ∅ ∅ [] None 0 None None None.

(** [trays_total = {z5: counts_z5[z5] // 150 for z5 in counts_z5}] *)
Definition trays_total_of (zips : list string) : list (string * nat) :=
  (λ kv : string * nat, (kv.1, kv.2 / 150)) <$> Counter zips.

(** [trays_total[z5]]; the key is always present for a [z5] of the input
    (lemma [trays_total_present]), so the default is never used. *)
Definition trays_total_at (trays_total : list (string * nat)) (z5 : string) : nat :=
  default 0 (dict_get trays_total z5).

(** "If ZIP3 changed and we had an open Z3 bin, close it as AADC". *)
Definition close_changed_zip3 (i : nat) (z3 : string) (st : plan_state) : plan_state :=
  match open_z3_group st with
  | Some g =>
      if bool_decide (0 < open_z3_count st) && bool_decide (z3 ≠ g) then
        PlanState (trays_assigned st) (piece_in_current_tray st)
          (bins st ++ [Bin (open_z3_start st) (i - 1) Taadc g (open_z3_count st) None])
          None 0 None (current_5_start st) (current_5_z5 st)
      else st
  | None => st
  end.

(** The branch [trays_assigned[z5] < trays_total[z5]]. *)
Definition assign_5digit (i : nat) (z5 : string) (st : plan_state) : plan_state :=
  let restart :=
    bool_decide (current_5_start st = None) || bool_decide (current_5_z5 st ≠ Some z5) in
  let start := if restart then Some i else current_5_start st in
  let pieces :=
    (if restart then 0 else default 0 (piece_in_current_tray st !! z5)) + 1 in
  if bool_decide (pieces = 150) then
    PlanState (<[z5 := default 0 (trays_assigned st !! z5) + 1]> (trays_assigned st))
      (<[z5 := 0]> (piece_in_current_tray st))
      (bins st ++ [Bin start i T5digit z5 150 None])
      (open_z3_start st) (open_z3_count st) (open_z3_group st) None None
  else
    PlanState (trays_assigned st) (<[z5 := pieces]> (piece_in_current_tray st))
      (bins st) (open_z3_start st) (open_z3_count st) (open_z3_group st)
      start (Some z5).

(** The [else] branch: "Leftover contributes to ZIP3/AADC". *)
Definition assign_leftover (i : nat) (z3 : string) (st : plan_state) : plan_state :=
  let fresh := bool_decide (open_z3_count st = 0) in
  let start := if fresh then Some i else open_z3_start st in
  let group := if fresh then Some z3 else open_z3_group st in
  let count := open_z3_count st + 1 in
  if bool_decide (count = 150) then
    PlanState (trays_assigned st) (piece_in_current_tray st)
      (bins st ++ [Bin start i T3digit z3 150 None])
      None 0 None (current_5_start st) (current_5_z5 st)
  else
    PlanState (trays_assigned st) (piece_in_current_tray st) (bins st)
      start count group (current_5_start st) (current_5_z5 st).

(** One iteration of [for i, z5 in enumerate(zips, start=1)]. *)
Definition plan_step (trays_total : list (string * nat)) (i : nat) (z5 : string)
    (st : plan_state) : plan_state :=
  let z3 := zip3 z5 in
  let st := close_changed_zip3 i z3 st in
  if bool_decide (default 0 (trays_assigned st !! z5) < trays_total_at trays_total z5)
  then assign_5digit i z5 st
  else assign_leftover i z3 st.

(** The loop, from index [i]. *)
Fixpoint plan_loop (trays_total : list (string * nat)) (i : nat) (zips : list string)
    (st : plan_state) : plan_state :=
  match zips with
  | [] => st
  | z5 :: zips' => plan_loop trays_total (S i) zips' (plan_step trays_total i z5 st)
  end.

(** "Close any open z3 bin as AADC". *)
Definition close_final (n : nat) (st : plan_state) : list bin :=
  match open_z3_group st with
  | Some g =>
      if bool_decide (0 < open_z3_count st) then
        bins st ++ [Bin (open_z3_start st) n Taadc g (open_z3_count st) None]
      else bins st
  | None => bins st
  end.

(** [for idx, b in enumerate(bins, start=1): b["id"] = idx] *)
Definition assign_ids (bs : list bin) : list bin :=
  imap (λ idx b, Bin (b_start b) (b_end b) (b_type b) (b_group b) (b_count b)
                   (Some (S idx))) bs.

Definition plan_bins_by_order (zips : list string) : list bin :=
  let n := length zips in
  let trays_total := trays_total_of zips in
  assign_ids (close_final n (plan_loop trays_total 1 zips plan_init)).

(** Total pieces of the bins of one type, and of all bins. *)
Definition pieces_of_type (t : bin_type) (bs : list bin) : nat :=
  sum_list_with b_count (filter (λ b, b_type b = t) bs).

Definition pieces_total (bs : list bin) : nat := sum_list_with b_count bs.

(** ** Postage estimator ([estimate_postage]) *)

(** The three tier counts of the result; the costs are floating point
    products of these counts with the rates and are not modelled. *)
Record tiers := Tiers {
  five_digit : nat;
  three_digit : nat;
  aadc : nat;
}.

(** First loop: [for z5, c in by_zip5.items()]. *)
Definition estimate_zip5_step (acc : nat * list (string * nat)) (kv : string * nat)
  : nat * list (string * nat) :=
  let '(five, leftovers_by_zip3) := acc in
  let '(z5, c) := kv in
  let trays := c / 150 in
  let rem := c - trays * 150 in
  (five + trays * 150, counter_add leftovers_by_zip3 (zip3 z5) rem).

(** Second loop: [for z3, total in leftovers_by_zip3.items()]. *)
Definition estimate_zip3_step (acc : nat * nat) (kv : string * nat) : nat * nat :=
  let '(three, a) := acc in
  let '(_, total) := kv in
  let trays := total / 150 in
  (three + trays * 150, a + (total - trays * 150)).

Definition estimate_tiers (zips : list string) : tiers :=
  let by_zip5 := Counter zips in
  let '(five, leftovers_by_zip3) := foldl estimate_zip5_step (0, []) by_zip5 in
  let '(three, a) := foldl estimate_zip3_step (0, 0) leftovers_by_zip3 in
  Tiers five three a.

Definition estimate_postage (chosen : list candidate) : tiers :=
  estimate_tiers (c_ZIP5 <$> chosen).

(** The tier counts of a bin plan. *)
Definition tiers_of_bins (bs : list bin) : tiers :=
  Tiers (pieces_of_type T5digit bs) (pieces_of_type T3digit bs) (pieces_of_type Taadc bs).

(** A list in which equal elements are adjacent: every element equals its
    successor or does not occur again (the shape a sorted list has). *)
Fixpoint contiguous {A} `{EqDecision A} (l : list A) : bool :=
  match l with
  | [] => true
  | x :: l' =>
      match l' with
      | [] => true
      | y :: _ => bool_decide (x = y) || bool_decide (x ∉ l')
      end && contiguous l'
  end.

(** ** Strings as Python sees them (ASCII) *)

(** [c.isspace()] and the regular expression class [\s]. *)
Definition is_space (a : ascii) : bool :=
  match a with
  | "009" | "010" | "011" | "012" | "013" | "028" | "029" | "030" | "031" | " " => true
  | _ => false
  end%char.

(** The regular expression class [\d]: the characters 0 to 9. *)
Definition is_digit (a : ascii) : bool :=
  bool_decide (48 ≤ nat_of_ascii a ≤ 57).

Definition digit_value (a : ascii) : option Z :=
  if is_digit a then Some (Z.of_nat (nat_of_ascii a - 48)) else None.

Definition upper_char (a : ascii) : ascii :=
  let n := nat_of_ascii a in
  if bool_decide (97 ≤ n ≤ 122) then ascii_of_nat (n - 32) else a.

Definition lower_char (a : ascii) : ascii :=
  let n := nat_of_ascii a in
  if bool_decide (65 ≤ n ≤ 90) then ascii_of_nat (n + 32) else a.

Fixpoint str_map (f : ascii → ascii) (s : string) : string :=
  match s with
  | "" => ""
  | String a s' => String (f a) (str_map f s')
  end.

(** [s.upper()] and [s.lower()] *)
Definition str_upper : string → string := str_map upper_char.
Definition str_lower : string → string := str_map lower_char.

(** Truth value of a string: [if s]. *)
Definition truthy (s : string) : bool := negb (bool_decide (s = "")).

(** [a or b] on strings. *)
Definition str_or (a b : string) : string := if truthy a then a else b.

Fixpoint lstrip (s : string) : string :=
  match s with
  | "" => ""
  | String a s' => if is_space a then lstrip s' else s
  end.

(** [s.rstrip()]: a character is dropped when it is white space and nothing
    is left of what follows it. *)
Fixpoint rstrip (s : string) : string :=
  match s with
  | "" => ""
  | String a s' =>
      match rstrip s' with
      | "" => if is_space a then "" else String a ""
      | r => String a r
      end
  end.

(** [s.strip()] *)
Definition strip (s : string) : string := rstrip (lstrip s).

(** [re.sub(r"\s+", " ", s)]: [in_run] tells that the previous character was
    white space, already replaced. *)
Fixpoint collapse_spaces (in_run : bool) (s : string) : string :=
  match s with
  | "" => ""
  | String a s' =>
      if is_space a then
        if in_run then collapse_spaces true s' else String " " (collapse_spaces true s')
      else String a (collapse_spaces false s')
  end.

(** [norm_space], the same in the builder and in finalize. *)
Definition norm_space (s : string) : string := collapse_spaces false (strip s).

(** [norm_key], the same in the builder and in finalize. *)
Definition norm_key (addr owner : string) : string * string :=
  (str_upper (norm_space addr), str_upper (norm_space owner)).

(** [n] digits at the head of [s], and what follows them. *)
Fixpoint take_digits (n : nat) (s : string) : option string :=
  match n with
  | 0 => Some s
  | S n' =>
      match s with
      | String a s' => if is_digit a then take_digits n' s' else None
      | "" => None
      end
  end.

(** Where [$] matches: at the end, or before a final newline. *)
Definition at_end (s : string) : bool :=
  bool_decide (s = "") || bool_decide (s = String "010" "").

(** [(\d{5})(?:-\d{4})?$] matched at the head of [s]. *)
Definition zip_match_here (s : string) : bool :=
  match take_digits 5 s with
  | Some rest =>
      match rest with
      | String "-" r =>
          match take_digits 4 r with
          | Some rest' => at_end rest' || at_end rest
          | None => at_end rest
          end
      | _ => at_end rest
      end
  | None => false
  end.

(** [re.search(r"(\d{5})(?:-\d{4})?$", s)]: group 1 of the leftmost match. *)
Fixpoint zip_search (s : string) : option string :=
  if zip_match_here s then Some (str_take 5 s)
  else match s with
       | "" => None
       | String _ s' => zip_search s'
       end.

(** [re.sub(r"\.0$", "", s)] on a stripped string. *)
Fixpoint drop_dot_zero (s : string) : string :=
  match s with
  | "" => ""
  | String a s' =>
      if bool_decide (s = ".0") then "" else String a (drop_dot_zero s')
  end.

(** [get_zip5_from_text] of the builder. *)
Definition get_zip5_from_text (s : string) : string :=
  if truthy s then default "" (zip_search (drop_dot_zero (strip s))) else "".

(** [_zip_from_text] of finalize. *)
Definition _zip_from_text (s : string) : string :=
  if truthy s then default "" (zip_search (strip s)) else "".

(** Digits with single underscores between them, as [int()] accepts. *)
Fixpoint parse_digits (after_digit : bool) (acc : Z) (s : string) : option Z :=
  match s with
  | "" => if after_digit then Some acc else None
  | String a s' =>
      match digit_value a with
      | Some d => parse_digits true (10 * acc + d)%Z s'
      | None =>
          if bool_decide (a = "_"%char) && after_digit then parse_digits false acc s'
          else None
      end
  end.

(** [int(s)] for a string [s]; [None] stands for [ValueError]. *)
Definition py_int (s : string) : option Z :=
  match strip s with
  | String "+" r => parse_digits false 0%Z r
  | String "-" r => Z.opp <$> parse_digits false 0%Z r
  | r => parse_digits false 0%Z r
  end.

(** [re.split(r"[|,]\s*", s)]: [cur] is the current piece, reversed, and
    [skipping] tells that a delimiter's white space is being consumed. *)
Fixpoint split_bar_comma (skipping : bool) (cur : string) (s : string) : list string :=
  match s with
  | "" => [String.rev cur]
  | String a s' =>
      if skipping && is_space a then split_bar_comma true cur s'
      else if bool_decide (a = "|"%char) || bool_decide (a = ","%char)
      then String.rev cur :: split_bar_comma true "" s'
      else split_bar_comma false (String a cur) s'
  end.

(** ** Python's stable sort *)

(** [before x y]: [x] has to come before [y]. Each element is inserted, in
    the order of the input, in front of the first element it has to come
    before, so elements that compare equal keep their order. *)
Fixpoint insert_sorted {A} (before : A → A → bool) (x : A) (l : list A) : list A :=
  match l with
  | [] => [x]
  | y :: l' => if before x y then x :: l else y :: insert_sorted before x l'
  end.

Definition py_sorted {A} (before : A → A → bool) (l : list A) : list A :=
  foldl (λ acc x, insert_sorted before x acc) [] l.

(** ** History filter ([parse_last_campaign_number], [passes_prior_rules]) *)

(** The integers [parse_last_campaign_number] collects from
    ["CampaignNumbers"]. *)
Definition campaign_ints (nums : string) : list Z :=
  omap py_int (split_bar_comma false "" nums).

Definition parse_last_campaign_number (info : row) : Z :=
  let nums := strip (str_or (row_get info "CampaignNumbers") "") in
  let fallback :=
    (* int((info.get("LastCampaignNumber") or "0").strip() or 0) *)
    let s := strip (str_or (row_get info "LastCampaignNumber") "0") in
    if truthy s then default 0%Z (py_int s) else 0%Z in
  if truthy nums then
    match last (campaign_ints nums) with
    | Some n => n
    | None => fallback
    end
  else fallback.

(** [int((info.get("CampaignCount") or "0").strip() or 0)], [0] on error. *)
Definition parse_campaign_count (info : row) : Z :=
  let s := strip (str_or (row_get info "CampaignCount") "0") in
  if truthy s then default 0%Z (py_int s) else 0%Z.

Definition passes_prior_rules (k : string * string)
    (tracker : list ((string * string) * row))
    (prior_exact prior_max : option Z) (min_gap current_campaign_number : Z) : bool :=
  match dict_get tracker k with
  | None | Some [] =>
      match prior_exact with
      | Some e => bool_decide (e = 0%Z)
      | None =>
          match prior_max with
          | Some m => bool_decide (0 ≤ m)%Z
          | None => true
          end
      end
  | Some info =>
      let cnt := parse_campaign_count info in
      let last := parse_last_campaign_number info in
      if match prior_exact with Some e => bool_decide (cnt ≠ e) | None => false end
      then false
      else if match prior_max with Some m => bool_decide (m < cnt)%Z | None => false end
      then false
      else if bool_decide (0 < min_gap)%Z && bool_decide (0 < last)%Z
              && bool_decide (current_campaign_number - min_gap < last)%Z
      then false
      else true
  end.

(** ** Column detection and ZIP resolution of the builder *)

(** [for c in cols: if c in row and row[c].strip(): return row[c].strip()] *)
Fixpoint first_filled (cols : list string) (r : row) : string :=
  match cols with
  | [] => ""
  | c :: cols' =>
      if truthy (strip (row_get r c)) then strip (row_get r c) else first_filled cols' r
  end.

(** [{k.lower(): k for k in row}] *)
Definition lower_map (r : row) : list (string * string) :=
  foldl (λ d kv, dict_set d (str_lower kv.1) kv.1) [] r.

(** The first/last name pairs tried when no owner column is filled. *)
Fixpoint first_last_name (pairs : list (string * string)) (r : row) : string :=
  match pairs with
  | [] => ""
  | (fkey, lkey) :: pairs' =>
      let f := strip (str_or (row_get r fkey) "") in
      let l := strip (str_or (row_get r lkey) "") in
      if truthy f || truthy l then norm_space (f +:+ " " +:+ l)
      else first_last_name pairs' r
  end.

Definition addr_candidates : list string :=
  ["PropertyAddress"; "PROPERTY ADDRESS"; "PROPERTY_ADDRESS";
   "SITUS ADDRESS"; "SITUS_ADDRESS"; "SITUS";
   "MAILING ADDRESS"; "MAILING_ADDRESS";
   "ADDRESS"; "ADDRESS 1"; "ADDRESS1"; "STREET ADDRESS";
   "Situs Address"; "Mailing Address"; "Property Address"].

Definition owner_candidates : list string :=
  ["OwnerName"; "OWNER NAME"; "OWNER"; "OWNER(S)"; "OWNER 1"; "OWNER1"; "OWNER NAME 1";
   "Primary Name"; "PRIMARY NAME"; "Mail Owner"; "OWNER NAME(S)"].

Definition name_pairs : list (string * string) :=
  [("Primary First", "Primary Last"); ("PRIMARY FIRST", "PRIMARY LAST");
   ("Owner First", "Owner Last"); ("OWNER FIRST", "OWNER LAST");
   ("First Name", "Last Name"); ("FIRST NAME", "LAST NAME")].

Definition detect_addr_owner_from_source_row (r : row) : string * string :=
  let lmap := lower_map r in
  let addr := first_filled addr_candidates r in
  let addr :=
    if negb (truthy addr) then
      match dict_get lmap "address" with
      | Some k => row_get r k
      | None => addr
      end
    else addr in
  let own := first_filled owner_candidates r in
  let own := if negb (truthy own) then first_last_name name_pairs r else own in
  let own :=
    if negb (truthy own) then
      match dict_get lmap "owner" with
      | Some k => strip (row_get r k)
      | None => own
      end
    else own in
  (addr, own).

(** [for c in cols: if c in row and row[c].strip(): z = extract(row[c]);
    if z: return z] *)
Fixpoint zip_from_columns (extract : string → string) (cols : list string) (r : row)
  : string :=
  match cols with
  | [] => ""
  | c :: cols' =>
      if truthy (strip (row_get r c)) && truthy (extract (row_get r c))
      then extract (row_get r c)
      else zip_from_columns extract cols' r
  end.

Definition mail_zip_cols : list string :=
  ["Mail ZIP"; "MAIL ZIP"; "Mail Zip"; "Mail Zip Code"; "MAIL ZIP CODE";
   "MAIL ZIP5"; "Mail ZIP5"; "MAILING ZIP"; "MAILING ZIP CODE"; "MAILING ZIP5";
   "Owner ZIP"; "OWNER ZIP"; "Owner Zip"; "OWNER ZIP5"; "Owner ZIP5"].

Definition mail_addr_cols : list string :=
  ["MAILING ADDRESS"; "Mailing Address"; "Mailing Address 1"; "Mailing Address1";
   "OWNER ADDRESS"; "Owner Address"; "OWNER MAILING ADDRESS"; "Owner Mailing Address"].

Definition generic_cols : list string :=
  ["ZIP5"; "Zip5"; "ZIP"; "Zip"; "Zip Code"; "ZIP CODE"; "ZIP CODE 5"].

Definition situs_cols : list string :=
  ["SITUS ZIP"; "SITUS ZIP CODE"; "SITUS ZIP CODE 5-DIGIT"; "SITUS ZIP5";
   "Situs ZIP"; "Situs Zip Code"].

(** [get_zip5_from_row]: mailing or owner ZIP first, the property last. *)
Definition get_zip5_from_row (r : row) (addr : string) : string :=
  let z := zip_from_columns get_zip5_from_text mail_zip_cols r in
  if truthy z then z else
  let z := zip_from_columns get_zip5_from_text mail_addr_cols r in
  if truthy z then z else
  let z := zip_from_columns get_zip5_from_text generic_cols r in
  if truthy z then z else
  let z := zip_from_columns get_zip5_from_text situs_cols r in
  if truthy z then z else
  get_zip5_from_text addr.

(** ** Ingestion ([process_rows] inside [main]) *)

Record stats := Stats {
  kept : nat;
  deduped : nat;
  dropped_prior : nat;
  missing_addr : nat;
  missing_owner : nat;
}.

Inductive bucket_name := MAND | POOL.

(** The variables [process_rows] closes over. *)
Record ingest_state := IngestState {
  seen_keys : gset (string * string);
  all_candidates : list candidate;
  stats_MAND : stats;
  stats_POOL : stats;
}.

Definition ingest_init : ingest_state :=
  IngestState ∅ [] (Stats 0 0 0 0 0) (Stats 0 0 0 0 0).

Definition stats_of (b : bucket_name) (st : ingest_state) : stats :=
  match b with MAND => stats_MAND st | POOL => stats_POOL st end.

(** [stats[bucket][...] += 1] *)
Definition bump (b : bucket_name) (f : stats → stats) (st : ingest_state) : ingest_state :=
  match b with
  | MAND => IngestState (seen_keys st) (all_candidates st) (f (stats_MAND st)) (stats_POOL st)
  | POOL => IngestState (seen_keys st) (all_candidates st) (stats_MAND st) (f (stats_POOL st))
  end.

(** The prior-contact policy of a run: [args.prior_exact], [args.prior_max],
    [args.min_gap], [args.campaign_number]. *)
Record policy := Policy {
  prior_exact : option Z;
  prior_max : option Z;
  min_gap : Z;
  campaign_number : Z;
}.

(** The body of [for r in rows] in [process_rows]. *)
Definition process_row (tracker : list ((string * string) * row)) (pol : policy)
    (b : bucket_name) (st : ingest_state) (r : row) : ingest_state :=
  let '(addr, own) := detect_addr_owner_from_source_row r in
  if negb (truthy addr) then
    bump b (λ s, Stats (kept s) (deduped s) (dropped_prior s) (missing_addr s + 1)
                   (missing_owner s)) st
  else if negb (truthy own) then
    bump b (λ s, Stats (kept s) (deduped s) (dropped_prior s) (missing_addr s)
                   (missing_owner s + 1)) st
  else
    let k := norm_key addr own in
    if bool_decide (k ∈ seen_keys st) then
      bump b (λ s, Stats (kept s) (deduped s + 1) (dropped_prior s) (missing_addr s)
                     (missing_owner s)) st
    else if negb (passes_prior_rules k tracker (prior_exact pol) (prior_max pol)
                    (min_gap pol) (campaign_number pol)) then
      bump b (λ s, Stats (kept s) (deduped s) (dropped_prior s + 1) (missing_addr s)
                     (missing_owner s)) st
    else
      let z5 := get_zip5_from_row r addr in
      let row := Candidate (norm_space addr) (norm_space own) z5 r in
      bump b (λ s, Stats (kept s + 1) (deduped s) (dropped_prior s) (missing_addr s)
                     (missing_owner s))
        (IngestState ({[k]} ∪ seen_keys st) (all_candidates st ++ [row])
           (stats_MAND st) (stats_POOL st)).

Definition process_rows (tracker : list ((string * string) * row)) (pol : policy)
    (rows : list row) (b : bucket_name) (st : ingest_state) : ingest_state :=
  foldl (process_row tracker pol b) st rows.

(** The dedup key under which [process_rows] kept a candidate: [norm_key] of
    the address and owner detected in its source row. *)
Definition cand_key (c : candidate) : string * string :=
  let '(addr, own) := detect_addr_owner_from_source_row (c_src_row c) in
  norm_key addr own.

(** ** Selection ([pick_optimized]) *)

(** [d[key(r)].append(r)] for a [defaultdict(list)]. *)
Definition group_by {A K} `{EqDecision K} (key : A → K) (rows : list A)
  : list (K * list A) :=
  foldl (λ d r, dict_set d (key r) (default [] (dict_get d (key r)) ++ [r])) [] rows.

(** Sort key [(len(kv[1]), kv[0] != "")] with [reverse=True]: [x] comes
    before [y] when its key is greater. *)
Definition bucket_before (x y : string * list candidate) : bool :=
  bool_decide (length y.2 < length x.2)
  || (bool_decide (length x.2 = length y.2) && truthy x.1 && negb (truthy y.1)).

(** Sort key [len(kv[1])] with [reverse=True]. *)
Definition size_before (x y : string * list candidate) : bool :=
  bool_decide (length y.2 < length x.2).

(** Number of rows of ZIP5 [z]. *)
Definition count_zip5 (z : string) (rows : list candidate) : nat :=
  length (filter (λ r, c_ZIP5 r = z) rows).

Section selector.
Context {rng : Type}.

(** [random.shuffle]: the shuffled list and the generator's next state. *)
Variable shuffle : rng → list candidate → list candidate * rng.

(** The first loop under [if strict_150]. The state is the generator,
    [chosen] and [by_zip5]; the shuffle is in place, so the dictionary sees
    it also when the loop continues without taking anything. *)
Fixpoint strict_pass (target : nat) (buckets : list (string * list candidate))
    (st : rng * list candidate * list (string * list candidate))
  : rng * list candidate * list (string * list candidate) :=
  match buckets with
  | [] => st
  | (z5, bucket) :: buckets' =>
      let '(g, chosen, by_zip5) := st in
      if bool_decide (target ≤ length chosen) then st
      else
        let '(bucket, g) := shuffle g bucket in
        let by_zip5 := dict_set by_zip5 z5 bucket in
        let take_n := length bucket / 150 * 150 in
        if bool_decide (take_n = 0) then strict_pass target buckets' (g, chosen, by_zip5)
        else
          strict_pass target buckets'
            (g, chosen ++ take (take_n `min` (target - length chosen)) bucket,
             dict_set by_zip5 z5 (drop (take_n `min` length bucket) bucket))
  end.

(** The loops that append single rows until [target] is reached. *)
Fixpoint fill_pass (target : nat) (buckets : list (string * list candidate))
    (st : rng * list candidate) : rng * list candidate :=
  match buckets with
  | [] => st
  | (_, bucket) :: buckets' =>
      let '(g, chosen) := st in
      if bool_decide (target ≤ length chosen) then st
      else
        let '(bucket, g) := shuffle g bucket in
        fill_pass target buckets' (g, chosen ++ take (target - length chosen) bucket)
  end.

(** [chosen] after the first pass of the strict mode. *)
Definition strict_first_pass (g : rng) (candidates : list candidate) (target : nat)
  : rng * list candidate * list (string * list candidate) :=
  let by_zip5 := group_by c_ZIP5 candidates in
  strict_pass target (py_sorted bucket_before by_zip5) (g, [], by_zip5).

Definition pick_optimized (g : rng) (candidates : list candidate) (target : Z)
    (strict_150 : bool) : list candidate * rng :=
  if bool_decide (target ≤ 0)%Z then ([], g)
  else
    let target := Z.to_nat target in
    let '(g, chosen) :=
      if strict_150 then
        let '(g, chosen, by_zip5) := strict_first_pass g candidates target in
        if bool_decide (length chosen < target)
        then fill_pass target (py_sorted size_before by_zip5) (g, chosen)
        else (g, chosen)
      else
        fill_pass target (py_sorted bucket_before (group_by c_ZIP5 candidates)) (g, [])
    in
    let '(g, chosen) :=
      if bool_decide (length chosen < target) then
        let remaining := filter (λ r, r ∉ chosen) candidates in
        let by_zip3 := group_by (λ r, zip3 (c_ZIP5 r)) remaining in
        fill_pass target (py_sorted size_before by_zip3) (g, chosen)
      else (g, chosen) in
    (take target chosen, g).

End selector.

(** ** The builder's [main] *)

(** The parsed command line, without the postage rates and the debug flag. *)
Record build_args := BuildArgs {
  a_campaign_name : string;
  a_campaign_number : Z;
  a_target_size : Z;
  a_mandatory : list string;
  a_optional : list string;
  a_prior_exact : option Z;
  a_prior_max : option Z;
  a_min_gap : Z;
  a_strict_150 : bool;
}.

(** What a run of the builder reads: the CSV files by path, the tracker
    file if there is one, and the month and year of the day ([%b%Y]). *)
Record build_world := BuildWorld {
  w_files : list (string * list row);
  w_tracker : option (list row);
  w_mo_yr : string;
}.

(** [{k: (v or "").strip() for k, v in row.items()}] for every row. *)
Definition strip_rows (rows : list row) : list row :=
  (λ r : row, (λ kv : string * string, (kv.1, strip kv.2)) <$> r) <$> rows.

(** [read_csv_rows]; [None] when [open] raises. *)
Definition read_csv_rows (w : build_world) (path : string) : option (list row) :=
  strip_rows <$> dict_get (w_files w) path.

(** [read_tracker]: later rows of the file overwrite earlier ones. *)
Definition read_tracker (w : build_world) : list ((string * string) * row) :=
  match w_tracker w with
  | None => []
  | Some rows =>
      foldl (λ d r, dict_set d (norm_key (row_get r "PropertyAddress")
                                   (row_get r "OwnerName")) r)
        [] (strip_rows rows)
  end.

(** [for p in paths: rows = read_csv_rows(p); process_rows(rows, bucket)] *)
Fixpoint ingest_files (tracker : list ((string * string) * row)) (pol : policy)
    (w : build_world) (b : bucket_name) (paths : list string) (st : ingest_state)
  : option ingest_state :=
  match paths with
  | [] => Some st
  | p :: paths' =>
      match read_csv_rows w p with
      | None => None
      | Some rows => ingest_files tracker pol w b paths' (process_rows tracker pol rows b st)
      end
  end.

(** How a run ends: normally, by [sys.exit(code)], or by an exception nobody
    catches (the interpreter then exits with status 1). *)
Inductive status := Completed | SysExit (code : Z) | Uncaught.

Definition exit_status (s : status) : Z :=
  match s with
  | Completed => 0
  | SysExit code => code
  | Uncaught => 1
  end.

(** The outcome of a run: how it ended, the files written by [write_csv] up
    to then, in order, and the selection in its final order. *)
Record run := Run {
  r_status : status;
  r_written : list string;
  r_selection : list candidate;
}.

(** [f"{campaign_name}_{campaign_number}_{mo_yr}"] *)
Definition campaign_folder (campaign_name : string) (campaign_number : Z)
    (mo_yr : string) : string :=
  campaign_name +:+ "_" +:+ pretty campaign_number +:+ "_" +:+ mo_yr.

(** [os.path.join] *)
Definition path_join (dir name : string) : string := dir +:+ "/" +:+ name.

(** The order of [chosen.sort]: by [(ZIP5 or "ZZZZZ", PropertyAddress,
    OwnerName)], ascending. *)
Definition chosen_before (x y : candidate) : bool :=
  let zx := str_or (c_ZIP5 x) "ZZZZZ" in
  let zy := str_or (c_ZIP5 y) "ZZZZZ" in
  String.ltb zx zy
  || (bool_decide (zx = zy)
      && (String.ltb (c_PropertyAddress x) (c_PropertyAddress y)
          || (bool_decide (c_PropertyAddress x = c_PropertyAddress y)
              && String.ltb (c_OwnerName x) (c_OwnerName y)))).

(** The number [stats["MAND"]["kept"]] after the mandatory sources, when
    they can all be read. *)
Definition mandatory_survivors (args : build_args) (w : build_world) : option nat :=
  let pol := Policy (a_prior_exact args) (a_prior_max args) (a_min_gap args)
               (a_campaign_number args) in
  (λ st, kept (stats_MAND st))
    <$> ingest_files (read_tracker w) pol w MAND (a_mandatory args) ingest_init.

Definition main {rng : Type} (shuffle : rng → list candidate → list candidate * rng)
    (g : rng) (args : build_args) (w : build_world) : run :=
  let written : list string := [] in
  if bool_decide (is_Some (a_prior_exact args) ∧ is_Some (a_prior_max args))
  then Run (SysExit 1) written []
  else if bool_decide (4 < length (a_mandatory args)) then Run (SysExit 1) written []
  else if bool_decide (2 < length (a_optional args)) then Run (SysExit 1) written []
  else
    let tracker := read_tracker w in
    let pol := Policy (a_prior_exact args) (a_prior_max args) (a_min_gap args)
                 (a_campaign_number args) in
    match ingest_files tracker pol w MAND (a_mandatory args) ingest_init with
    | None => Run Uncaught written []
    | Some st =>
        let mand_kept := kept (stats_MAND st) in
        if bool_decide (a_target_size args < Z.of_nat mand_kept)%Z
        then Run (SysExit 1) written []
        else
          match ingest_files tracker pol w POOL (a_optional args) st with
          | None => Run Uncaught written []
          | Some st =>
              let '(chosen, _) :=
                pick_optimized shuffle g (all_candidates st) (a_target_size args)
                  (a_strict_150 args) in
              let chosen := py_sorted chosen_before chosen in
              let camp_dir :=
                campaign_folder (a_campaign_name args) (a_campaign_number args)
                  (w_mo_yr w) in
              let written := written ++ [path_join camp_dir "presort_report.csv"] in
              let written := written ++ [path_join camp_dir "presort_zip3_summary.csv"] in
              let written := written ++ [path_join camp_dir "postage_estimate.csv"] in
              let written := written ++ [path_join camp_dir "campaign_master.csv"] in
              Run Completed written chosen
          end
    end.

(** ** The campaign ledger ([finalize_or_rebuild.py]) *)

(** [r.get(c1, "") or r.get(c2, "") or ...]: a string is false only when
    empty, so the value is empty when no column is filled. *)
Fixpoint get_first (r : row) (cols : list string) : string :=
  match cols with
  | [] => ""
  | c :: cols' => str_or (row_get r c) (get_first r cols')
  end.

(** [s.split(sep)] for a separator of one character. *)
Fixpoint split_on (sep : ascii) (s : string) : list string :=
  match s with
  | "" => [""]
  | String a s' =>
      if bool_decide (a = sep) then "" :: split_on sep s'
      else match split_on sep s' with
           | p :: ps => String a p :: ps
           | [] => [String a ""]
           end
  end.

(** [sep.join(l)] *)
Fixpoint str_join (sep : string) (l : list string) : string :=
  match l with
  | [] => ""
  | x :: l' =>
      match l' with
      | [] => x
      | _ => x +:+ sep +:+ str_join sep l'
      end
  end.

(** [[x for x in s.split("|") if x]] *)
Definition nonempty_parts (s : string) : list string :=
  filter (λ x, x ≠ "") (split_on "|" s).

(** [set(l)] of strings, as a list without repetitions. Python leaves the
    order of a set open; every use below sorts the set or asks its size. *)
Definition py_set (l : list string) : list string := remove_dups l.

(** [int(re.sub(r"[^0-9]", "", x) or "0")]: the number written by the
    digits of [x], [0] when there is none. *)
Fixpoint digits_to_N (acc : N) (s : string) : N :=
  match s with
  | "" => acc
  | String a s' =>
      if is_digit a then digits_to_N (10 * acc + N.of_nat (nat_of_ascii a - 48))%N s'
      else digits_to_N acc s'
  end.

Definition campaign_int (x : string) : N := digits_to_N 0 x.

(** The order of [sorted(cn_set, key=lambda x: int(...))]. *)
Definition cn_before (x y : string) : bool :=
  bool_decide (campaign_int x < campaign_int y)%N.

(** *** Folders and files *)

(** A campaign folder: [RefFiles/letters_mapping.csv], [letters_mapping.csv],
    [campaign_master.csv] and [executed_campaign_log.csv] where they exist,
    and the names of its other files (marker files, whose names are taken
    to differ from those four). *)
Record folder := Folder {
  f_mapping_ref : option (list row);
  f_mapping : option (list row);
  f_master : option (list row);
  f_log : option (list row);
  f_markers : list string;
}.

(** What the ledger scripts see of the disk: the folders under [--root] by
    path, the CSV files elsewhere that [--mapping] may name, the tracker at
    [--tracker-path] and the ZIP5 tally. *)
Record ledger_world := LedgerWorld {
  lw_folders : list (string * folder);
  lw_csv : list (string * list row);
  lw_tracker : option (list row);
  lw_tally : option (list row);
}.

(** The folder at a path; a path without a folder has none of the files. *)
Definition folder_at (w : ledger_world) (dir : string) : folder :=
  default (Folder None None None None []) (dict_get (lw_folders w) dir).

(** The parsed command line of [finalize_or_rebuild.py]; an option that was
    not given is the empty string, which Python's [or] treats like [None].
    [fa_rebuild_all] stands for [--rebuild-all] or [--reindex-all]. *)
Record ledger_args := LedgerArgs {
  fa_campaign_dir : string;
  fa_campaign_name : string;
  fa_campaign_number : string;
  fa_mapping : string;
  fa_force_recount : bool;
  fa_dry_run : bool;
  fa_write_marker : bool;
  fa_rebuild_all : bool;
  fa_marker_required : bool;
  fa_marker_name : string;
  fa_rebuild_templates : bool;
}.

(** [w.writerow(row)] of a [csv.DictWriter]: the row as the file will hold
    it, a missing column left empty. *)
Definition project_row (headers : list string) (r : row) : row :=
  (λ h, (h, row_get r h)) <$> headers.

(** [write_csv]: the rows of the file written; [None] is the [ValueError]
    [DictWriter] raises for a row with a key outside [headers]. *)
Definition write_csv (rows : list row) (headers : list string) : option (list row) :=
  if bool_decide (Forall (λ r : row, Forall (λ kv, kv.1 ∈ headers) r) rows)
  then Some (project_row headers <$> rows)
  else None.

(** *** Campaign name and number from the folder name *)

(** [os.path.basename] of a normalised path. *)
Definition basename (path : string) : string :=
  default "" (last (split_on "/" path)).

(** The longest run of digits at the head of [s], and what follows it. *)
Fixpoint span_digits (s : string) : string * string :=
  match s with
  | "" => ("", "")
  | String a s' =>
      if is_digit a then (String a (span_digits s').1, (span_digits s').2)
      else ("", s)
  end.

(** [_(?P<num>\d+)_] matched at the head of [s]. *)
Definition num_here (s : string) : option string :=
  match s with
  | String "_" s' =>
      match span_digits s' with
      | (String a d, String "_" _) => Some (String a d)
      | _ => None
      end
  | _ => None
  end.

(** [re.match(r"^(?P<name>.+?)_(?P<num>\d+)_", s)]: the shortest name, of
    one character at least and without a newline, that the rest follows. *)
Fixpoint infer_scan (s : string) : option (string * string) :=
  match s with
  | "" => None
  | String a s' =>
      if bool_decide (a = "010"%char) then None
      else match num_here s' with
           | Some num => Some (String a "", num)
           | None => (λ p, (String a p.1, p.2)) <$> infer_scan s'
           end
  end.

Definition infer_campaign_from_dir (campaign_dir : string) : string * option string :=
  let base := basename campaign_dir in
  match infer_scan base with
  | Some (name, num) => (name, Some num)
  | None => (base, None)
  end.

(** *** ZIP index of a campaign master *)

Definition property_text_cols : list string :=
  ["property_address"; "Property Address"; "PROPERTY ADDRESS"; "Address"; "ADDRESS";
   "Situs Address"; "SITUS ADDRESS"].

(** [get_zip_from_row_generic]: its five loops run one after the other, each
    returning the first ZIP it finds. *)
Definition get_zip_from_row_generic (r : row) : string :=
  zip_from_columns _zip_from_text
    (mail_zip_cols ++ mail_addr_cols ++ generic_cols ++ situs_cols ++ property_text_cols) r.

Definition master_addr_cols : list string :=
  ["Property Address"; "PROPERTY ADDRESS"; "Address"; "ADDRESS"; "Situs Address";
   "SITUS ADDRESS"; "PropertyAddress"; "SITUS"].

Definition master_owner_cols : list string :=
  ["Primary Name"; "PRIMARY NAME"; "OwnerName"; "OWNER NAME"; "Owner"; "OWNER"].

Definition master_first_cols : list string :=
  ["Primary First"; "PRIMARY FIRST"; "Owner First"; "OWNER FIRST"; "First Name"; "FIRST NAME"].

Definition master_last_cols : list string :=
  ["Primary Last"; "PRIMARY LAST"; "Owner Last"; "OWNER LAST"; "Last Name"; "LAST NAME"].

(** [for key in cols: if key in r and r[key].strip(): return r[key]] *)
Fixpoint first_present (cols : list string) (r : row) : string :=
  match cols with
  | [] => ""
  | c :: cols' =>
      if truthy (strip (row_get r c)) then row_get r c else first_present cols' r
  end.

Definition build_zip_index_from_master (dir : folder) : list ((string * string) * string) :=
  match f_master dir with
  | None => []
  | Some master =>
      let get_zip_from_row (r : row) :=
        let z := get_zip_from_row_generic r in
        if truthy z then z else zip_from_columns _zip_from_text master_addr_cols r in
      let get_addr (r : row) := first_present master_addr_cols r in
      let get_owner (r : row) :=
        let o := first_present master_owner_cols r in
        if truthy o then o
        else strip (first_present master_first_cols r +:+ " "
                    +:+ first_present master_last_cols r) in
      foldl (λ idx r,
               let z := get_zip_from_row r in
               let a := get_addr r in
               let o := get_owner r in
               if truthy a && truthy o && truthy z then dict_set idx (norm_key a o) z
               else idx)
        [] (strip_rows master)
  end.

(** *** Normal finalize ([append_executed_and_update_tracker]) *)

(** [args.mapping or find_file(RefFiles/letters_mapping.csv,
    letters_mapping.csv)], read when it is a file. *)
Definition find_mapping (args : ledger_args) (w : ledger_world) : option (list row) :=
  if truthy (fa_mapping args) then dict_get (lw_csv w) (fa_mapping args)
  else
    let dir := folder_at w (fa_campaign_dir args) in
    match f_mapping_ref dir with
    | Some m => Some m
    | None => f_mapping dir
    end.

(** [args.campaign_name or inferred_name] *)
Definition campaign_name_of (args : ledger_args) : string :=
  str_or (fa_campaign_name args) (infer_campaign_from_dir (fa_campaign_dir args)).1.

(** [args.campaign_number or inferred_num] *)
Definition campaign_number_of (args : ledger_args) : string :=
  str_or (fa_campaign_number args)
    (default "" (infer_campaign_from_dir (fa_campaign_dir args)).2).

(** The columns a row of the executed log is identified by. *)
Definition log_addr (r : row) : string :=
  get_first r ["PropertyAddress"; "property_address"; "Address"].
Definition log_owner (r : row) : string := get_first r ["OwnerName"; "owner"; "Owner"].
Definition log_ref (r : row) : string := get_first r ["RefCode"; "ref_code"].

(** The two sets built from the existing log. *)
Definition exist_pair_campaign (existing_log : list row)
  : gset ((string * string) * string) :=
  list_to_set
    ((λ r, (norm_key (log_addr r) (log_owner r), strip (row_get r "CampaignNumber")))
       <$> existing_log).

Definition exist_ref (existing_log : list row) : gset string :=
  list_to_set (filter (λ x, x ≠ "") (log_ref <$> existing_log)).

(** The columns read from a row of the mapping. *)
Definition mapping_owner (r : row) : string := get_first r ["owner"; "Owner"; "OwnerName"].
Definition mapping_addr (r : row) : string :=
  get_first r ["property_address"; "Property Address"; "PropertyAddress"; "Address"].
Definition mapping_ref (r : row) : string := get_first r ["ref_code"; "RefCode"].
Definition mapping_template (r : row) : string :=
  get_first r ["template_ref"; "template_id"; "TemplateId"; "Template"].

Definition mapping_zip5 (zip_idx : list ((string * string) * string)) (r : row) : string :=
  let z5 := str_or (row_get r "ZIP5") (get_zip_from_row_generic r) in
  if negb (truthy z5) && (truthy (mapping_addr r) && truthy (mapping_owner r))
  then default "" (dict_get zip_idx (norm_key (mapping_addr r) (mapping_owner r)))
  else z5.

(** [key in exist_pair_campaign or (refc and refc in exist_ref)] *)
Definition already_logged (pairs : gset ((string * string) * string)) (refs : gset string)
    (campaign_number : string) (r : row) : bool :=
  bool_decide ((norm_key (mapping_addr r) (mapping_owner r), strip campaign_number) ∈ pairs)
  || (truthy (mapping_ref r) && bool_decide (mapping_ref r ∈ refs)).

(** The dictionary appended to [to_add] for a mapping row. *)
Definition log_entry (today campaign_name campaign_number : string)
    (zip_idx : list ((string * string) * string)) (r : row) : row :=
  [("ExecutedDt", today);
   ("CampaignName", campaign_name);
   ("CampaignNumber", campaign_number);
   ("OwnerName", mapping_owner r);
   ("PropertyAddress", mapping_addr r);
   ("TemplateId", strip (mapping_template r));
   ("RefCode", strip (mapping_ref r));
   ("ZIP5", strip (mapping_zip5 zip_idx r))].

(** [to_add] after the loop over the mapping rows. *)
Definition rows_to_add (today campaign_name campaign_number : string) (force_recount : bool)
    (existing_log : list row) (zip_idx : list ((string * string) * string))
    (mapping_rows : list row) : list row :=
  let pairs := exist_pair_campaign existing_log in
  let refs := exist_ref existing_log in
  omap (λ r, if negb force_recount && already_logged pairs refs campaign_number r
             then None
             else Some (log_entry today campaign_name campaign_number zip_idx r))
    mapping_rows.

Definition log_pref : list string :=
  ["ExecutedDt"; "CampaignName"; "CampaignNumber"; "OwnerName"; "PropertyAddress";
   "TemplateId"; "RefCode"; "ZIP5"; "page"; "file_stub"; "single_pdf"; "template_source"].

(** The header of the executed log; the columns outside [log_pref] come out
    of a set, here in the order of their first occurrence. *)
Definition log_headers (all_rows : list row) : list string :=
  let headers := py_set (all_rows ≫= λ r : row, r.*1) in
  filter (λ h, h ∈ headers) log_pref ++ filter (λ h, h ∉ log_pref) headers.

Definition tracker_headers : list string :=
  ["PropertyAddress"; "OwnerName"; "ZIP5"; "CampaignCount"; "FirstSentDt"; "LastSentDt";
   "CampaignNumbers"; "TemplateIds"].

(** The dedup key of a tracker or log row. *)
Definition row_key (r : row) : string * string :=
  norm_key (row_get r "PropertyAddress") (row_get r "OwnerName").

(** [{norm_key(...): r for r in tracker_rows}] *)
Definition tracker_index (tracker_rows : list row) : list ((string * string) * row) :=
  foldl (λ idx r, dict_set idx (row_key r) r) [] tracker_rows.

(** The branch [if k in idx] of the tracker update: the record [tr] of a key
    that got [rows] added. *)
Definition update_record (today : string) (tr : row) (rows : list row) : row :=
  match rows with
  | [] => tr
  | r0 :: _ =>
      let addr := row_get r0 "PropertyAddress" in
      let owner := row_get r0 "OwnerName" in
      let z5 := row_get r0 "ZIP5" in
      let tr :=
        if negb (truthy (row_get tr "ZIP5")) && truthy z5 then dict_set tr "ZIP5" z5
        else tr in
      let existing_cns := nonempty_parts (row_get tr "CampaignNumbers") in
      let cn_set :=
        py_set (existing_cns ++ ((λ rr, row_get rr "CampaignNumber") <$> rows)) in
      let tr := dict_set tr "CampaignNumbers" (str_join "|" (py_sorted cn_before cn_set)) in
      let tr := dict_set tr "CampaignCount" (pretty (length cn_set)) in
      let existing_ts := nonempty_parts (row_get tr "TemplateIds") in
      let ts := existing_ts ++ filter (λ x, x ≠ "") ((λ rr, row_get rr "TemplateId") <$> rows) in
      let tr := dict_set tr "TemplateIds" (str_join "|" ts) in
      let tr := dict_set tr "FirstSentDt" (str_or (row_get tr "FirstSentDt") today) in
      let tr := dict_set tr "LastSentDt" today in
      let tr := dict_set tr "PropertyAddress" (str_or (row_get tr "PropertyAddress") addr) in
      dict_set tr "OwnerName" (str_or (row_get tr "OwnerName") owner)
  end.

(** The branch [else]: the record of a key seen for the first time. *)
Definition new_record (today : string) (rows : list row) : row :=
  match rows with
  | [] => []
  | r0 :: _ =>
      let cn_set := py_set [row_get r0 "CampaignNumber"] in
      let ts_seq := filter (λ x, x ≠ "") ((λ rr, row_get rr "TemplateId") <$> rows) in
      [("PropertyAddress", row_get r0 "PropertyAddress");
       ("OwnerName", row_get r0 "OwnerName");
       ("ZIP5", row_get r0 "ZIP5");
       ("CampaignCount", pretty (length cn_set));
       ("FirstSentDt", today);
       ("LastSentDt", today);
       ("CampaignNumbers", str_join "|" (py_sorted cn_before cn_set));
       ("TemplateIds", str_join "|" ts_seq)]
  end.

(** [for k, rows in by_pair_new.items()] *)
Definition update_tracker (today : string) (idx : list ((string * string) * row))
    (by_pair_new : list ((string * string) * list row)) : list ((string * string) * row) :=
  foldl (λ idx kr,
           match dict_get idx kr.1 with
           | Some tr => dict_set idx kr.1 (update_record today tr kr.2)
           | None => dict_set idx kr.1 (new_record today kr.2)
           end)
    idx by_pair_new.

(** The rows [final_rows] written to the tracker. *)
Definition tracker_after (today : string) (tracker_rows to_add : list row) : list row :=
  (update_tracker today (tracker_index tracker_rows) (group_by row_key to_add)).*2.

(** [headers + extra] of the tracker file. *)
Definition tracker_columns (final_rows : list row) : list string :=
  tracker_headers
  ++ filter (λ h, h ∉ tracker_headers)
       (match final_rows with r :: _ => r.*1 | [] => [] end).

(** [rebuild_zip5_tally]: every executed log under the root is counted; the
    rows have the two columns of the header. *)
Definition rebuild_zip5_tally (w : ledger_world) : ledger_world :=
  let rows := lw_folders w ≫= λ df, strip_rows (default [] (f_log df.2)) in
  let tally := Counter (filter (λ z, z ≠ "") ((λ r, strip (row_get r "ZIP5")) <$> rows)) in
  let rows_out :=
    (λ z, [("ZIP5", z); ("Count", pretty (counter_get tally z))])
      <$> py_sorted String.ltb tally.*1 in
  LedgerWorld (lw_folders w) (lw_csv w) (lw_tracker w) (Some rows_out).

(** The file [executed_campaign_log.csv] of a folder replaced. *)
Definition set_log (w : ledger_world) (dir : string) (rows : list row) : ledger_world :=
  let f := folder_at w dir in
  LedgerWorld
    (dict_set (lw_folders w) dir
       (Folder (f_mapping_ref f) (f_mapping f) (f_master f) (Some rows) (f_markers f)))
    (lw_csv w) (lw_tracker w) (lw_tally w).

Definition set_tracker (w : ledger_world) (rows : list row) : ledger_world :=
  LedgerWorld (lw_folders w) (lw_csv w) (Some rows) (lw_tally w).

(** The marker file written into an existing folder; [open] fails, and the
    script only warns, when the folder is not there. *)
Definition write_marker (w : ledger_world) (dir marker_name : string) : ledger_world :=
  match dict_get (lw_folders w) dir with
  | None => w
  | Some f =>
      LedgerWorld
        (dict_set (lw_folders w) dir
           (Folder (f_mapping_ref f) (f_mapping f) (f_master f) (f_log f)
              (if bool_decide (marker_name ∈ f_markers f) then f_markers f
               else f_markers f ++ [marker_name])))
        (lw_csv w) (lw_tracker w) (lw_tally w)
  end.

(** The rows of the executed log a run finds, and the rows it decides to
    add for the given rows of the mapping. *)
Definition existing_log (args : ledger_args) (w : ledger_world) : list row :=
  strip_rows (default [] (f_log (folder_at w (fa_campaign_dir args)))).

Definition to_add_of (today : string) (args : ledger_args) (w : ledger_world)
    (mapping_rows : list row) : list row :=
  rows_to_add today (campaign_name_of args) (campaign_number_of args)
    (fa_force_recount args) (existing_log args w)
    (build_zip_index_from_master (folder_at w (fa_campaign_dir args))) mapping_rows.

(** The writes of a finalize run that has [to_add] to record: the log when
    there is something to append, then the tracker, the tally, the marker.
    [None] stands for an exception nobody catches. *)
Definition commit_run (today : string) (args : ledger_args) (w : ledger_world)
    (to_add : list row) : option ledger_world :=
  let all_rows := existing_log args w ++ to_add in
  w ← (match to_add with
       | [] => Some w
       | _ => set_log w (fa_campaign_dir args) <$> write_csv all_rows (log_headers all_rows)
       end);
  let final_rows :=
    tracker_after today (strip_rows (default [] (lw_tracker w))) to_add in
  t ← write_csv final_rows (tracker_columns final_rows);
  let w := rebuild_zip5_tally (set_tracker w t) in
  Some (if fa_write_marker args
        then write_marker w (fa_campaign_dir args) (fa_marker_name args)
        else w).

Definition append_executed_and_update_tracker (today : string) (args : ledger_args)
    (w : ledger_world) : option ledger_world :=
  match find_mapping args w with
  | None => Some w
  | Some mapping =>
      if negb (truthy (campaign_number_of args)) then Some w
      else
        match strip_rows mapping with
        | [] => Some w
        | mapping_rows =>
            if fa_dry_run args then Some w
            else commit_run today args w (to_add_of today args w mapping_rows)
        end
  end.

(** *** Rebuild from all executed logs ([rebuild_tracker_from_all]) *)

Definition discover_campaign_folders (w : ledger_world) (marker_required : bool)
    (marker_name : string) : list string :=
  py_sorted String.ltb
    (filter (λ df : string * folder,
               is_Some (f_log df.2)
               ∧ (marker_required = true → marker_name ∈ f_markers df.2))
       (lw_folders w)).*1.

(** A date as [datetime] holds it: year, month, day. *)
Definition date : Type := nat * nat * nat.

Definition date_lt (a b : date) : bool :=
  let '(y1, m1, d1) := a in
  let '(y2, m2, d2) := b in
  bool_decide (y1 < y2)
  || (bool_decide (y1 = y2)
      && (bool_decide (m1 < m2) || (bool_decide (m1 = m2) && bool_decide (d1 < d2)))).

Definition fmt_mdy (dt : option date) : string :=
  match dt with
  | None => ""
  | Some (y, m, d) =>
      if bool_decide (y ≤ 1) then ""
      else pretty m +:+ "/" +:+ pretty d +:+ "/" +:+ pretty y
  end.

(** A record of [agg]. The set ["CampaignNumbers"] holds [str(cn)] for
    numbers [cn]; it is kept as the list of these numbers, without
    repetitions, so that [x != "0"] reads [cn ≠ 0] and [int(x)] reads [cn]. *)
Record agg_rec := AggRec {
  ag_PropertyAddress : string;
  ag_OwnerName : string;
  ag_ZIP5 : string;
  ag_CampaignNumbers : list N;
  ag_TemplateIds : list string;
  ag_FirstSentDt : option date;
  ag_LastSentDt : option date;
}.

(** [s.add(x)] *)
Definition set_add (x : N) (s : list N) : list N :=
  if bool_decide (x ∈ s) then s else s ++ [x].

(** The row of the rebuilt tracker for a record of [agg]. *)
Definition final_row (rec : agg_rec) : row :=
  let cns := py_sorted N.ltb (filter (λ x, x ≠ 0%N) (ag_CampaignNumbers rec)) in
  [("PropertyAddress", ag_PropertyAddress rec);
   ("OwnerName", ag_OwnerName rec);
   ("ZIP5", ag_ZIP5 rec);
   ("CampaignCount", pretty (length cns));
   ("FirstSentDt", fmt_mdy (ag_FirstSentDt rec));
   ("LastSentDt", fmt_mdy (ag_LastSentDt rec));
   ("CampaignNumbers", str_join "|" (pretty <$> cns));
   ("TemplateIds", str_join "|" (ag_TemplateIds rec))].

Section rebuild.

(** [try_parse_date]: what [datetime.strptime] makes of a string under the
    formats [%m/%d/%Y] and [%Y-%m-%d]. *)
Variable try_parse_date : string → option date.

(** The body of [for r in rows] for a row of an executed log. *)
Definition rebuild_row (zip_idx : list ((string * string) * string))
    (agg : list ((string * string) * agg_rec)) (r : row)
  : list ((string * string) * agg_rec) :=
  let addr := get_first r ["PropertyAddress"; "Address"; "property_address"] in
  let owner := get_first r ["OwnerName"; "Owner"; "owner"] in
  if negb (truthy addr) || negb (truthy owner) then agg
  else
    let key := norm_key addr owner in
    let z5 := strip (row_get r "ZIP5") in
    let z5 :=
      if truthy z5 then z5
      else str_or (get_zip_from_row_generic r) (default "" (dict_get zip_idx key)) in
    let cn := campaign_int (strip (row_get r "CampaignNumber")) in
    let dt := try_parse_date (row_get r "ExecutedDt") in
    let tid := strip (row_get r "TemplateId") in
    let rec := default (AggRec addr owner z5 [] [] None None) (dict_get agg key) in
    dict_set agg key
      (AggRec
         (str_or (ag_PropertyAddress rec) addr)
         (str_or (ag_OwnerName rec) owner)
         (if negb (truthy (ag_ZIP5 rec)) && truthy z5 then z5 else ag_ZIP5 rec)
         (set_add cn (ag_CampaignNumbers rec))
         (if truthy tid then ag_TemplateIds rec ++ [tid] else ag_TemplateIds rec)
         (match dt, ag_FirstSentDt rec with
          | Some d, Some f => if date_lt d f then Some d else Some f
          | Some d, None => Some d
          | None, f => f
          end)
         (match dt, ag_LastSentDt rec with
          | Some d, Some l => if date_lt l d then Some d else Some l
          | Some d, None => Some d
          | None, l => l
          end)).

(** [agg] after the logs of the given folders. *)
Definition aggregate (w : ledger_world) (folders : list string)
  : list ((string * string) * agg_rec) :=
  foldl (λ agg dir,
           let f := folder_at w dir in
           foldl (rebuild_row (build_zip_index_from_master f)) agg
             (strip_rows (default [] (f_log f))))
    [] folders.

Definition rebuild_tracker_from_all (args : ledger_args) (w : ledger_world)
  : option ledger_world :=
  match discover_campaign_folders w (fa_marker_required args) (fa_marker_name args) with
  | [] => Some w
  | folders =>
      let final_rows := final_row <$> (aggregate w folders).*2 in
      t ← write_csv final_rows tracker_headers;
      Some (rebuild_zip5_tally (set_tracker w t))
  end.

(** [main] of [finalize_or_rebuild.py]. *)
Definition finalize_main (today : string) (args : ledger_args) (w : ledger_world)
  : option ledger_world :=
  if fa_rebuild_all args then rebuild_tracker_from_all args w
  else if negb (truthy (fa_campaign_dir args)) then Some w
  else
    w ← append_executed_and_update_tracker today args w;
    if fa_rebuild_templates args then rebuild_tracker_from_all args w else Some w.

(** A sequence of runs of the script, each on its day. *)
Definition run_all (runs : list (string * ledger_args)) (w : ledger_world)
  : option ledger_world :=
  foldl (λ ow run, w ← ow; finalize_main run.1 run.2 w) (Some w) runs.

End rebuild.

(** *** Notions used to state the ledger's behaviour *)

(** The tracker as the next run reads it. *)
Definition read_ledger (w : ledger_world) : list row :=
  strip_rows (default [] (lw_tracker w)).

(** The ledger record of a dedup key. *)
Definition ledger_record (w : ledger_world) (k : string * string) : option row :=
  dict_get (tracker_index (read_ledger w)) k.

(** Number of rows of the executed log of a folder. *)
Definition log_count (w : ledger_world) (dir : string) : nat :=
  length (default [] (f_log (folder_at w dir))).

(** The campaign numbers a ledger record lists. *)
Definition campaign_numbers_of (r : row) : list string :=
  nonempty_parts (row_get r "CampaignNumbers").

(** [CampaignCount == |unique(CampaignNumbers)|] *)
Definition count_matches (r : row) : Prop :=
  row_get r "CampaignCount" = pretty (length (remove_dups (campaign_numbers_of r))).

(** Every character of [s] satisfies [p]. *)
Fixpoint str_all (p : ascii → bool) (s : string) : bool :=
  match s with
  | "" => true
  | String a s' => p a && str_all p s'
  end.

(** A string written with digits only. *)
Definition all_digits (s : string) : bool := str_all is_digit s.

(** A row as [read_csv] returns it. *)
Definition strip_row (r : row) : row := (λ kv : string * string, (kv.1, strip kv.2)) <$> r.

(** Two rows that read the same in every column. *)
Definition same_fields (r r' : row) : Prop := ∀ c, row_get r c = row_get r' c.

(** The [CampaignCount] the ledger holds for a dedup key. *)
Definition ledger_count (w : ledger_world) (k : string * string) : option string :=
  (λ r, row_get r "CampaignCount") <$> ledger_record w k.

(** The pair under which a row of the executed log is remembered. *)
Definition logged_pair (r : row) : (string * string) * string :=
  (norm_key (log_addr r) (log_owner r), strip (row_get r "CampaignNumber")).

(** The files a finalize run reads without ever writing them. *)
Definition same_sources (w w' : ledger_world) : Prop :=
  lw_csv w' = lw_csv w
  ∧ ∀ d, f_mapping_ref (folder_at w' d) = f_mapping_ref (folder_at w d)
         ∧ f_mapping (folder_at w' d) = f_mapping (folder_at w d)
         ∧ f_master (folder_at w' d) = f_master (folder_at w d).

(** A ledger record as the script writes it: its campaign numbers are
    distinct numerals joined by bars, and its count is their number. *)
Definition kept_record (r : row) : Prop :=
  NoDup (campaign_numbers_of r)
  ∧ Forall (λ x, all_digits x) (campaign_numbers_of r)
  ∧ row_get r "CampaignNumbers" = str_join "|" (campaign_numbers_of r)
  ∧ row_get r "CampaignCount" = pretty (length (campaign_numbers_of r)).

(** The [CampaignNumbers] the ledger holds for a dedup key. *)
Definition ledger_numbers (w : ledger_world) (k : string * string) : option string :=
  (λ r, row_get r "CampaignNumbers") <$> ledger_record w k.

(** A campaign number written as Python prints a positive integer. *)
Definition canonical (c : string) : Prop :=
  pretty (campaign_int c) = c ∧ campaign_int c ≠ 0%N.

(** A row is in the executed log of some folder, as [read_csv] returns it. *)
Definition logged (w : ledger_world) (x : row) : Prop :=
  ∃ dir, x ∈ strip_rows (default [] (f_log (folder_at w dir))).

(** The executed logs hold a row of key [k] and campaign number [c]. *)
Definition logged_number (w : ledger_world) (k : string * string) (c : string) : Prop :=
  ∃ x, logged w x ∧ row_key x = k ∧ row_get x "CampaignNumber" = c.

(** A row of an executed log with an address, an owner and a canonical
    campaign number. *)
Definition entry_row (x : row) : Prop :=
  row_get x "PropertyAddress" ≠ "" ∧ row_get x "OwnerName" ≠ ""
  ∧ canonical (row_get x "CampaignNumber").

(** The order of campaign numbers by value. *)
Definition cn_lt (a b : string) : Prop := (campaign_int a < campaign_int b)%N.

(** The record [r] lists, in ascending order, exactly the campaign numbers
    that satisfy [P], and counts them. *)
Definition lists_numbers (r : row) (P : string → Prop) : Prop :=
  ∃ l, row_get r "CampaignNumbers" = str_join "|" l
       ∧ row_get r "CampaignCount" = pretty (length l)
       ∧ StronglySorted cn_lt l
       ∧ ∀ c, c ∈ l ↔ P c.

(** The ledger has a record for exactly the keys that occur in the executed
    logs, and the record lists the campaign numbers logged for its key. *)
Definition ledger_follows_logs (w : ledger_world) : Prop :=
  ∀ k, match ledger_record w k with
       | None => ∀ c, ¬ logged_number w k c
       | Some r => (∃ c, logged_number w k c) ∧ lists_numbers r (logged_number w k)
       end.

(** Every row of every mapping a run may read names an address and an owner. *)
Definition mappings_complete (w : ledger_world) : Prop :=
  ∀ args mapping, find_mapping args w = Some mapping →
    Forall (λ r, mapping_addr r ≠ "" ∧ mapping_owner r ≠ "") (strip_rows mapping).

(** What [agg] holds after the rows [rows] of executed logs: a record for
    each key that occurs, filed under the key of its own address and owner,
    with the numbers of the campaigns logged for the key. *)
Definition agg_of (rows : list row) (agg : list ((string * string) * agg_rec)) : Prop :=
  NoDup agg.*1
  ∧ (∀ k, k ∈ agg.*1 ↔ ∃ x, x ∈ rows ∧ row_key x = k)
  ∧ ∀ k rec, dict_get agg k = Some rec →
      norm_key (ag_PropertyAddress rec) (ag_OwnerName rec) = k
      ∧ ∀ n, n ∈ ag_CampaignNumbers rec
             ↔ ∃ x, x ∈ rows ∧ row_key x = k
                    ∧ campaign_int (row_get x "CampaignNumber") = n.

(** The state the ledger scripts keep: the logs hold complete entries, the
    ledger follows the logs, and the mappings are complete. *)
Definition ledger_in_step (w : ledger_world) : Prop :=
  (∀ x, logged w x → entry_row x) ∧ ledger_follows_logs w ∧ mappings_complete w.

(** A run whose rebuild scans every folder and whose finalize, if any, has
    a canonical campaign number. *)
Definition plain_run (args : ledger_args) : Prop :=
  fa_marker_required args = false
  ∧ (fa_rebuild_all args = false → canonical (campaign_number_of args)).

(** Every row of a mapping names an address and an owner. *)
Definition complete_mapping (mapping : list row) : Prop :=
  Forall (λ r, mapping_addr r ≠ "" ∧ mapping_owner r ≠ "") (strip_rows mapping).

(** A disk before the first finalize run: no tracker, no executed log, and
    complete mappings only. *)
Definition fresh_world (w : ledger_world) : Prop :=
  lw_tracker w = None
  ∧ Forall (λ df : string * folder,
              f_log df.2 = None
              ∧ from_option complete_mapping True (f_mapping_ref df.2)
              ∧ from_option complete_mapping True (f_mapping df.2))
      (lw_folders w)
  ∧ Forall complete_mapping (lw_csv w).*2.

(** *** Notions used to state further properties *)

(** A resolved ZIP5: empty, or five digits. *)
Definition zip5_shaped (z : string) : Prop :=
  z = "" ∨ (String.length z = 5 ∧ all_digits z).

(** The rows a bucket's statistics account for. *)
Definition rows_counted (s : stats) : nat :=
  kept s + deduped s + dropped_prior s + missing_addr s + missing_owner s.

(** A bin of the plan is a full tray, unless it is an AADC bin, which is a
    started tray. *)
Definition tray_sized (b : bin) : Prop :=
  match b_type b with
  | Taadc => 0 < b_count b < 150
  | _ => b_count b = 150
  end.

(** The rows of every executed log under the root, as [read_csv] returns
    them. *)
Definition all_log_rows (w : ledger_world) : list row :=
  lw_folders w ≫= λ df, strip_rows (default [] (f_log df.2)).

(** The order of Python's [<=] on strings. *)
Definition str_le (a b : string) : Prop := String.ltb b a = false.

(** The first component of the key of [chosen.sort]: [ZIP5 or "ZZZZZ"]. *)
Definition zip_sort_key (c : candidate) : string := str_or (c_ZIP5 c) "ZZZZZ".

(** A bin with a start position, whose span lies within the pieces [1..n]
    and is at least as long as its count. *)
Definition bin_placed (n : nat) (b : bin) : Prop :=
  ∃ s, b_start b = Some s ∧ 1 ≤ s ∧ s ≤ b_end b ∧ b_end b ≤ n
       ∧ b_count b ≤ b_end b + 1 - s.

(** What the planner's loop keeps before the piece at position [i]: the
    bins closed so far are placed before [i] in the order of their ends, and
    the open ZIP3 run and the open ZIP5 tray started early enough to hold
    their pieces. *)
Definition plan_positions (i : nat) (st : plan_state) : Prop :=
  Forall (bin_placed (i - 1)) (bins st)
  ∧ StronglySorted le (b_end <$> bins st)
  ∧ (0 < open_z3_count st →
     ∃ s, open_z3_start st = Some s ∧ 1 ≤ s ∧ s + open_z3_count st ≤ i)
  ∧ ∀ s z, current_5_start st = Some s → current_5_z5 st = Some z →
      1 ≤ s ∧ s + default 0 (piece_in_current_tray st !! z) ≤ i.

(** The prior-contact policy, read against the campaign numbers [l] logged
    for a lead: [--prior-exact] is their number, [--prior-max] bounds it,
    and with a positive [--min-gap] every one of them lies at least the gap
    before the current campaign. *)
Definition history_allows (pol : policy) (l : list string) : Prop :=
  (∀ e, prior_exact pol = Some e → Z.of_nat (length l) = e)
  ∧ (∀ m, prior_max pol = Some m → (Z.of_nat (length l) ≤ m)%Z)
  ∧ ((0 < min_gap pol)%Z →
     ∀ cn, cn ∈ l → (Z.of_N (campaign_int cn) ≤ campaign_number pol - min_gap pol)%Z).

(** What ingestion maintains: the kept candidates have pairwise different
    dedup keys, all of them recorded in [seen_keys]. *)
Definition ingest_inv (st : ingest_state) : Prop :=
  NoDup (cand_key <$> all_candidates st) ∧
  ∀ c, c ∈ all_candidates st → cand_key c ∈ seen_keys st.

(** *** Notions used to state the planner's behaviour *)

(** Number of occurrences of [x] in [l]. *)
Definition occ {A} `{EqDecision A} (x : A) (l : list A) : nat :=
  length (filter (λ y, y = x) l).

(** A run-length description of a list: [(z, c)] stands for [c] copies of [z]. *)
Definition expand {A} (blocks : list (A * nat)) : list A :=
  mjoin ((λ b : A * nat, replicate b.2 b.1) <$> blocks).

(** [trays_assigned[z5]] read as the defaultdict does. *)
Definition ta_at (st : plan_state) (z5 : string) : nat :=
  default 0 (trays_assigned st !! z5).

(** No ZIP3 run of another prefix is open. *)
Definition settled (z3 : string) (st : plan_state) : Prop :=
  open_z3_count st = 0 ∨ open_z3_group st = Some z3.

(** The open ZIP3 run is shorter than a tray and has a group when non-empty. *)
Definition open_wf (st : plan_state) : Prop :=
  open_z3_count st < 150 ∧ (0 < open_z3_count st → is_Some (open_z3_group st)).

(* ================================================================== *)
(** * Proofs *)

Ltac divmod x :=
  pose proof (Nat.div_mod_eq x 150);
  pose proof (Nat.mod_upper_bound x 150 ltac:(lia)).

(** ** Dictionaries and counters *)

Section dict_facts.
Context {K : Type} `{EqDecision K}.

Lemma dict_values_set_sum (c : list (K * nat)) k v :
  sum_list_with snd (dict_set c k v) + default 0 (dict_get c k)
  = sum_list_with snd c + v.
Proof.
  induction c as [|[k' v'] c IH]; csimpl; [lia|].
  destruct (decide (k' = k)); csimpl; lia.
Qed.

Lemma counter_add_sum (c : list (K * nat)) k n :
  sum_list_with snd (counter_add c k n) = sum_list_with snd c + n.
Proof.
  unfold counter_add, counter_get.
  pose proof (dict_values_set_sum c k (default 0 (dict_get c k) + n)). lia.
Qed.

Lemma Counter_from_sum (l : list K) (c : list (K * nat)) :
  sum_list_with snd (foldl (λ c x, counter_add c x 1) c l)
  = sum_list_with snd c + length l.
Proof.
  revert c. induction l as [|x l IH]; intros c; simpl; [lia|].
  rewrite IH, counter_add_sum. lia.
Qed.

Lemma Counter_sum (l : list K) : sum_list_with snd (Counter l) = length l.
Proof. unfold Counter. rewrite Counter_from_sum. reflexivity. Qed.
End dict_facts.

(** ** The estimator accounts for every piece *)

Lemma estimate_zip5_loop_sum (d : list (string * nat)) five lo :
  let r := foldl estimate_zip5_step (five, lo) d in
  r.1 + sum_list_with snd r.2
  = five + sum_list_with snd lo + sum_list_with snd d.
Proof.
  revert five lo. induction d as [|[z5 c] d IH]; intros five lo.
  - cbn. lia.
  - cbn [foldl estimate_zip5_step]. cbv zeta in IH. rewrite IH, counter_add_sum.
    csimpl. divmod c. lia.
Qed.

Lemma estimate_zip3_loop_sum (d : list (string * nat)) three a :
  let r := foldl estimate_zip3_step (three, a) d in
  r.1 + r.2 = three + a + sum_list_with snd d.
Proof.
  revert three a. induction d as [|[z3 t] d IH]; intros three a.
  - cbn. lia.
  - cbn [foldl estimate_zip3_step]. cbv zeta in IH. rewrite IH.
    csimpl. divmod t. lia.
Qed.

(** C10. For every list of ZIP5 values, sorted or not, the estimator's three
    tier counts add up to the number of pieces: no piece is lost or counted
    twice. *)
Theorem estimate_postage_accounts_for_every_piece (chosen : list candidate) :
  five_digit (estimate_postage chosen) + three_digit (estimate_postage chosen)
    + aadc (estimate_postage chosen) = length chosen.
Proof.
  unfold estimate_postage, estimate_tiers.
  pose proof (estimate_zip5_loop_sum (Counter (c_ZIP5 <$> chosen)) 0 []) as H5.
  destruct (foldl estimate_zip5_step (0, []) (Counter (c_ZIP5 <$> chosen)))
    as [five lo] eqn:E5.
  pose proof (estimate_zip3_loop_sum lo 0 0) as H3.
  destruct (foldl estimate_zip3_step (0, 0) lo) as [three a] eqn:E3.
  cbn [fst snd five_digit three_digit aadc] in *.
  rewrite Counter_sum, length_fmap in H5. cbn in H5. lia.
Qed.

(** ** The bin planner, one step at a time *)

Lemma plan_loop_app tt l1 l2 i st :
  plan_loop tt i (l1 ++ l2) st = plan_loop tt (i + length l1) l2 (plan_loop tt i l1 st).
Proof.
  revert i st. induction l1 as [|z l1 IH]; intros i st; simpl.
  - f_equal. lia.
  - rewrite IH. f_equal. lia.
Qed.

Lemma close_changed_zip3_settled i z3 st :
  settled z3 st → close_changed_zip3 i z3 st = st.
Proof.
  intros [H0|Hg]; unfold close_changed_zip3.
  - destruct (open_z3_group st); [|done]. rewrite H0. done.
  - rewrite Hg. rewrite (bool_decide_eq_false_2 (z3 ≠ z3)) by congruence.
    by rewrite andb_false_r.
Qed.

Lemma close_changed_zip3_spec i z3 st :
  open_wf st →
  let st' := close_changed_zip3 i z3 st in
  settled z3 st' ∧ open_wf st' ∧
  trays_assigned st' = trays_assigned st ∧
  piece_in_current_tray st' = piece_in_current_tray st ∧
  current_5_start st' = current_5_start st ∧
  current_5_z5 st' = current_5_z5 st ∧
  pieces_of_type T5digit (bins st') = pieces_of_type T5digit (bins st) ∧
  pieces_of_type T3digit (bins st') = pieces_of_type T3digit (bins st) ∧
  pieces_of_type Taadc (bins st') + open_z3_count st'
    = pieces_of_type Taadc (bins st) + open_z3_count st ∧
  (settled z3 st ∨ open_z3_count st' = 0).
Proof.
  intros [Hlt Hgrp]. cbv zeta. destruct (decide (settled z3 st)) as [Hs|Hn].
  - rewrite close_changed_zip3_settled by done.
    unfold open_wf. repeat split; auto.
  - assert (0 < open_z3_count st) as Hpos.
    { destruct (open_z3_count st) eqn:E; [|lia]. destruct Hn. by left. }
    destruct (Hgrp Hpos) as [g Eg].
    assert (z3 ≠ g) as Hne.
    { intros ->. destruct Hn. by right. }
    unfold close_changed_zip3. rewrite Eg.
    rewrite !bool_decide_eq_true_2 by done. simpl.
    unfold settled, open_wf, pieces_of_type. simpl.
    rewrite !filter_app, !sum_list_with_app. simpl.
    repeat split; auto; lia.
Qed.

(** Filling an open 5-digit tray that does not become full. *)
Lemma fill_tray tt z k : ∀ i st p,
  settled (zip3 z) st →
  ta_at st z < trays_total_at tt z →
  is_Some (current_5_start st) →
  current_5_z5 st = Some z →
  default 0 (piece_in_current_tray st !! z) = p →
  p + k < 150 →
  ∃ pc, plan_loop tt i (replicate k z) st
        = PlanState (trays_assigned st) pc (bins st) (open_z3_start st)
            (open_z3_count st) (open_z3_group st) (current_5_start st) (Some z)
        ∧ default 0 (pc !! z) = p + k.
Proof.
  induction k as [|k IH]; intros i st p Hs Hta [s Hcs] Hcz Hp Hk; simpl.
  - exists (piece_in_current_tray st). destruct st; simpl in *. subst.
    split; [done|lia].
  - unfold plan_step. rewrite close_changed_zip3_settled by done.
    fold (ta_at st z). rewrite bool_decide_eq_true_2 by done.
    unfold assign_5digit. rewrite Hcs, Hcz.
    rewrite (bool_decide_eq_false_2 (Some s = None)) by done.
    rewrite (bool_decide_eq_false_2 (Some z ≠ Some z)) by congruence.
    simpl. rewrite (bool_decide_eq_false_2 (_ = 150)) by lia.
    edestruct (IH (S i) (PlanState (trays_assigned st)
                 (<[z:=default 0 (piece_in_current_tray st !! z) + 1]>
                    (piece_in_current_tray st))
                 (bins st) (open_z3_start st) (open_z3_count st) (open_z3_group st)
                 (Some s) (Some z)) (p + 1)) as (pc & E & Hpc); simpl; try done.
    + by rewrite lookup_insert_eq, Hp.
    + lia.
    + exists pc. simpl in E. rewrite E. split; [done|lia].
Qed.

(** A whole tray of one ZIP5, starting with no tray open. *)
Lemma full_tray tt z i st :
  settled (zip3 z) st →
  ta_at st z < trays_total_at tt z →
  current_5_start st = None →
  ∃ pc, plan_loop tt i (replicate 150 z) st
        = PlanState (<[z := ta_at st z + 1]> (trays_assigned st)) pc
            (bins st ++ [Bin (Some i) (i + 149) T5digit z 150 None])
            (open_z3_start st) (open_z3_count st) (open_z3_group st) None None.
Proof.
  intros Hs Hta Hc.
  change (replicate 150 z) with (z :: replicate 149 z).
  rewrite (replicate_S_end 148). cbn [plan_loop].
  rewrite plan_loop_app, length_replicate.
  set (st1 := plan_step tt i z st).
  assert (st1 = PlanState (trays_assigned st) (<[z := 1]> (piece_in_current_tray st))
                  (bins st) (open_z3_start st) (open_z3_count st) (open_z3_group st)
                  (Some i) (Some z)) as E1.
  { unfold st1, plan_step. rewrite close_changed_zip3_settled by done.
    fold (ta_at st z). rewrite bool_decide_eq_true_2 by done.
    unfold assign_5digit. rewrite Hc. rewrite (bool_decide_eq_true_2 (None = None)) by done.
    simpl. done. }
  destruct (fill_tray tt z 148 (S i) st1 1) as (pc & E & Hpc).
  { rewrite E1. exact Hs. }
  { rewrite E1. exact Hta. }
  { rewrite E1. cbn [current_5_start]. eauto. }
  { rewrite E1. reflexivity. }
  { rewrite E1. cbn [piece_in_current_tray]. by rewrite lookup_insert_eq. }
  { lia. }
  rewrite E, E1. cbn [plan_loop]. unfold plan_step.
  rewrite close_changed_zip3_settled by done. simpl.
  fold (ta_at st z). rewrite bool_decide_eq_true_2 by done.
  unfold assign_5digit. simpl.
  rewrite (bool_decide_eq_false_2 (Some z ≠ Some z)) by congruence.
  rewrite Hpc. simpl.
  eexists. fold (ta_at st z). repeat f_equal. lia.
Qed.

(** [m] whole trays of one ZIP5. *)
Lemma full_trays tt z m : ∀ i st,
  settled (zip3 z) st →
  ta_at st z + m ≤ trays_total_at tt z →
  current_5_start st = None →
  let st' := plan_loop tt i (replicate (m * 150) z) st in
  ta_at st' z = ta_at st z + m ∧
  (∀ z', z' ≠ z → ta_at st' z' = ta_at st z') ∧
  current_5_start st' = None ∧
  open_z3_count st' = open_z3_count st ∧
  open_z3_group st' = open_z3_group st ∧
  pieces_of_type T5digit (bins st') = pieces_of_type T5digit (bins st) + m * 150 ∧
  pieces_of_type T3digit (bins st') = pieces_of_type T3digit (bins st) ∧
  pieces_of_type Taadc (bins st') = pieces_of_type Taadc (bins st).
Proof.
  induction m as [|m IH]; intros i st Hs Hta Hc; cbv zeta.
  - simpl. repeat split; auto with lia.
  - rewrite Nat.mul_succ_l, (Nat.add_comm (m * 150)), replicate_add, plan_loop_app.
    destruct (full_tray tt z i st) as (pc & E); [done|lia|done|].
    rewrite E, length_replicate.
    match goal with |- context [plan_loop tt ?j _ ?s] =>
      destruct (IH j s) as (H1 & H2 & H3 & H4 & H5 & H6 & H7 & H8) end.
    + unfold settled in *. simpl. done.
    + unfold ta_at at 1. simpl. rewrite lookup_insert_eq. simpl. lia.
    + done.
    + cbv zeta in *. rewrite H1, H3, H4, H5, H6, H7, H8.
      unfold ta_at at 1. simpl. rewrite lookup_insert_eq. simpl.
      unfold pieces_of_type. rewrite !filter_app, !sum_list_with_app. simpl.
      repeat split; auto; try lia.
      intros z' Hz'. rewrite H2 by done. unfold ta_at. simpl.
      by rewrite lookup_insert_ne.
Qed.

(** Pieces of a ZIP5 whose trays are all assigned join the open ZIP3 run. *)
Lemma leftover_run tt z r : ∀ i st,
  settled (zip3 z) st →
  open_wf st →
  ¬ ta_at st z < trays_total_at tt z →
  let st' := plan_loop tt i (replicate r z) st in
  trays_assigned st' = trays_assigned st ∧
  current_5_start st' = current_5_start st ∧
  settled (zip3 z) st' ∧ open_wf st' ∧
  pieces_of_type T5digit (bins st') = pieces_of_type T5digit (bins st) ∧
  pieces_of_type T3digit (bins st')
    = pieces_of_type T3digit (bins st) + 150 * ((open_z3_count st + r) / 150) ∧
  pieces_of_type Taadc (bins st') = pieces_of_type Taadc (bins st) ∧
  open_z3_count st' = (open_z3_count st + r) mod 150.
Proof.
  induction r as [|r IH]; intros i st Hs [Hlt Hgrp] Hta; cbv zeta.
  - simpl. rewrite Nat.add_0_r. divmod (open_z3_count st).
    assert (open_z3_count st / 150 = 0) as -> by lia.
    unfold open_wf. repeat split; auto; lia.
  - cbn [replicate plan_loop].
    assert (plan_step tt i z st = assign_leftover i (zip3 z) st) as ->.
    { unfold plan_step. rewrite close_changed_zip3_settled by done.
      fold (ta_at st z). by rewrite bool_decide_eq_false_2. }
    unfold assign_leftover.
    destruct (decide (open_z3_count st + 1 = 150)) as [E150|N150].
    + rewrite (bool_decide_eq_true_2 _ E150).
      match goal with |- context [plan_loop tt ?j _ ?s] =>
        destruct (IH j s) as (H1 & H2 & H3 & H4 & H5 & H6 & H7 & H8) end.
      * left. done.
      * split; simpl; [lia|intros; lia].
      * done.
      * cbv zeta in *. rewrite H1, H2, H5, H6, H7, H8. simpl.
        unfold pieces_of_type. rewrite !filter_app, !sum_list_with_app. simpl.
        divmod r. divmod (open_z3_count st + S r).
        split_and!; try done; lia.
    + rewrite (bool_decide_eq_false_2 _ N150).
      match goal with |- context [plan_loop tt ?j _ ?s] =>
        destruct (IH j s) as (H1 & H2 & H3 & H4 & H5 & H6 & H7 & H8) end.
      * right. simpl. case_bool_decide; [done|].
        destruct Hs as [?|?]; [done|]. done.
      * split; simpl; [lia|]. intros _. case_bool_decide; [done|].
        apply Hgrp. lia.
      * done.
      * cbv zeta in *. rewrite H1, H2, H5, H6, H7, H8. simpl.
        replace (open_z3_count st + 1 + r) with (open_z3_count st + S r) by lia.
        split_and!; done.
Qed.

Lemma plan_loop_close_first tt z c i st :
  0 < c → open_wf st →
  plan_loop tt i (replicate c z) st
  = plan_loop tt i (replicate c z) (close_changed_zip3 i (zip3 z) st).
Proof.
  intros Hc Hwf. destruct c as [|c]; [lia|]. cbn [replicate plan_loop].
  f_equal. unfold plan_step.
  destruct (close_changed_zip3_spec i (zip3 z) st Hwf) as (Hs & _).
  by rewrite (close_changed_zip3_settled i (zip3 z) (close_changed_zip3 _ _ _)).
Qed.

(** All the pieces of one ZIP5, met for the first time with no tray open. *)
Lemma plan_block tt z c i st :
  0 < c →
  trays_total_at tt z = c / 150 →
  ta_at st z = 0 →
  current_5_start st = None →
  open_wf st →
  let st' := plan_loop tt i (replicate c z) st in
  let o := if decide (settled (zip3 z) st) then open_z3_count st else 0 in
  current_5_start st' = None ∧ open_wf st' ∧ settled (zip3 z) st' ∧
  (∀ z', z' ≠ z → ta_at st' z' = ta_at st z') ∧
  pieces_of_type T5digit (bins st')
    = pieces_of_type T5digit (bins st) + 150 * (c / 150) ∧
  pieces_of_type T3digit (bins st')
    = pieces_of_type T3digit (bins st) + 150 * ((o + c mod 150) / 150) ∧
  pieces_of_type Taadc (bins st')
    = pieces_of_type Taadc (bins st) + (open_z3_count st - o) ∧
  open_z3_count st' = (o + c mod 150) mod 150.
Proof.
  intros Hc Htt Hta Hcur Hwf. cbv zeta.
  rewrite plan_loop_close_first by done.
  destruct (close_changed_zip3_spec i (zip3 z) st Hwf)
    as (Hs0 & Hwf0 & Eta & _ & Ecs & _ & E5 & E3 & Ea & Hor).
  set (st0 := close_changed_zip3 i (zip3 z) st) in *.
  set (o := if decide (settled (zip3 z) st) then open_z3_count st else 0).
  assert (open_z3_count st0 = o ∧ o ≤ open_z3_count st) as [Eo Hole].
  { unfold o. destruct (decide (settled (zip3 z) st)) as [Hs|Hn].
    - unfold st0. rewrite close_changed_zip3_settled by done. done.
    - destruct Hor as [?|?]; [done|]. split; [done|lia]. }
  assert (ta_at st0 z = 0) as Hta0 by (unfold ta_at; rewrite Eta; exact Hta).
  assert (replicate c z = replicate (c / 150 * 150) z ++ replicate (c mod 150) z) as ->.
  { rewrite <- replicate_add. f_equal. divmod c. lia. }
  rewrite plan_loop_app.
  destruct (full_trays tt z (c / 150) i st0)
    as (F1 & F2 & F3 & F4 & F5 & F6 & F7 & F8); [done|lia|congruence|].
  set (st1 := plan_loop tt i (replicate (c / 150 * 150) z) st0) in *.
  assert (settled (zip3 z) st1) as Hs1.
  { unfold settled in *. rewrite F4, F5. done. }
  assert (open_wf st1) as Hwf1.
  { unfold open_wf in *. rewrite F4, F5. done. }
  match goal with |- context [plan_loop tt ?j _ st1] =>
    destruct (leftover_run tt z (c mod 150) j st1)
      as (L1 & L2 & L3 & L4 & L5 & L6 & L7 & L8) end; [done|done|lia|].
  cbv zeta in L1, L2, L3, L4, L5, L6, L7, L8.
  rewrite L2, L5, L6, L7, L8, F3, F4, F6, F7, F8, E5, E3, Eo.
  split_and!; try done; try lia.
  intros z' Hz'. unfold ta_at at 1. rewrite L1. fold (ta_at st1 z').
  rewrite F2 by done. unfold ta_at. by rewrite Eta.
Qed.

(** ** Counting with [Counter] *)

Section counter_facts.
Context {K : Type} `{EqDecision K}.

Lemma dict_get_set {V} (d : list (K * V)) k v k' :
  dict_get (dict_set d k v) k' = if decide (k = k') then Some v else dict_get d k'.
Proof.
  induction d as [|[k0 v0] d IH]; csimpl.
  - destruct (decide (k = k')); done.
  - destruct (decide (k0 = k)) as [->|Hne]; csimpl.
    + destruct (decide (k = k')); done.
    + rewrite IH. destruct (decide (k0 = k')) as [->|]; [|done].
      by rewrite decide_False.
Qed.

Lemma dict_get_is_Some {V} (d : list (K * V)) k :
  is_Some (dict_get d k) ↔ k ∈ d.*1.
Proof.
  induction d as [|[k0 v0] d IH]; csimpl.
  - split; [intros [? [=]]|intros ?%elem_of_nil; done].
  - rewrite elem_of_cons. destruct (decide (k0 = k)) as [->|Hne].
    + split; eauto.
    + rewrite IH. split; [auto|intros [?|?]; congruence].
Qed.

Lemma dict_set_keys_fresh {V} (d : list (K * V)) k v :
  k ∉ d.*1 → dict_set d k v = d ++ [(k, v)].
Proof.
  induction d as [|[k0 v0] d IH]; csimpl; [done|].
  rewrite not_elem_of_cons. intros [Hne Hni].
  rewrite decide_False by done. by rewrite IH.
Qed.

Lemma dict_set_keys_last {V} (d : list (K * V)) k v0 v :
  k ∉ d.*1 → dict_set (d ++ [(k, v0)]) k v = d ++ [(k, v)].
Proof.
  induction d as [|[k1 v1] d IH]; csimpl.
  - intros _. by rewrite decide_True.
  - rewrite not_elem_of_cons. intros [Hne Hni].
    rewrite decide_False by done. by rewrite IH.
Qed.

Lemma dict_get_fmap_values {V W} (f : V → W) (d : list (K * V)) k :
  dict_get ((λ kv : K * V, (kv.1, f kv.2)) <$> d) k = f <$> dict_get d k.
Proof.
  induction d as [|[k0 v0] d IH]; csimpl; [done|].
  destruct (decide (k0 = k)); done.
Qed.

Lemma occ_nil (x : K) : occ x [] = 0.
Proof. done. Qed.

Lemma occ_cons (x y : K) l :
  occ x (y :: l) = (if decide (y = x) then 1 else 0) + occ x l.
Proof.
  unfold occ. rewrite filter_cons. destruct (decide (y = x)); done.
Qed.

Lemma occ_app (x : K) l1 l2 : occ x (l1 ++ l2) = occ x l1 + occ x l2.
Proof. unfold occ. by rewrite filter_app, length_app. Qed.

Lemma occ_replicate (x y : K) n :
  occ x (replicate n y) = if decide (y = x) then n else 0.
Proof.
  induction n as [|n IH]; csimpl.
  - destruct (decide (y = x)); done.
  - rewrite occ_cons, IH. destruct (decide (y = x)); done.
Qed.

Lemma occ_pos (x : K) l : 0 < occ x l ↔ x ∈ l.
Proof.
  induction l as [|y l IH].
  - rewrite occ_nil, elem_of_nil. lia.
  - rewrite occ_cons, elem_of_cons. destruct (decide (y = x)) as [->|Hne].
    + split; [auto|lia].
    + rewrite Nat.add_0_l, IH. split; [auto|intros [?|?]; congruence].
Qed.

Lemma counter_get_add (c : list (K * nat)) k n k' :
  counter_get (counter_add c k n) k'
  = counter_get c k' + (if decide (k = k') then n else 0).
Proof.
  unfold counter_add, counter_get at 1. rewrite dict_get_set.
  destruct (decide (k = k')) as [->|]; csimpl; [done|].
  unfold counter_get. lia.
Qed.

Lemma counter_get_from (l : list K) (c : list (K * nat)) k :
  counter_get (foldl (λ c x, counter_add c x 1) c l) k = counter_get c k + occ k l.
Proof.
  revert c. induction l as [|x l IH]; intros c; csimpl.
  - rewrite occ_nil. lia.
  - rewrite IH, counter_get_add, occ_cons. lia.
Qed.

Lemma counter_get_Counter (l : list K) k : counter_get (Counter l) k = occ k l.
Proof. unfold Counter. by rewrite counter_get_from. Qed.

Lemma counter_add_keys (c : list (K * nat)) k n k' :
  k' ∈ (counter_add c k n).*1 ↔ k' = k ∨ k' ∈ c.*1.
Proof.
  unfold counter_add. rewrite <- !dict_get_is_Some, dict_get_set.
  destruct (decide (k = k')) as [->|Hne].
  - split; eauto.
  - split; [auto|intros [?|?]; congruence].
Qed.

Lemma Counter_from_keys (l : list K) (c : list (K * nat)) k :
  k ∈ (foldl (λ c x, counter_add c x 1) c l).*1 ↔ k ∈ l ∨ k ∈ c.*1.
Proof.
  revert c. induction l as [|x l IH]; intros c; csimpl.
  - rewrite elem_of_nil. tauto.
  - rewrite IH, counter_add_keys, elem_of_cons. tauto.
Qed.

Lemma Counter_keys (l : list K) k : k ∈ (Counter l).*1 ↔ k ∈ l.
Proof. unfold Counter. rewrite Counter_from_keys, elem_of_nil. tauto. Qed.
End counter_facts.

(** The lookup [trays_total[z5]] of the planner never misses. *)
Lemma trays_total_present (zips : list string) z5 :
  z5 ∈ zips → is_Some (dict_get (trays_total_of zips) z5).
Proof.
  intros Hin. unfold trays_total_of.
  rewrite (dict_get_fmap_values (λ c, c / 150)).
  apply fmap_is_Some, dict_get_is_Some, Counter_keys, Hin.
Qed.

Lemma trays_total_at_of (zips : list string) z5 :
  trays_total_at (trays_total_of zips) z5 = occ z5 zips / 150.
Proof.
  unfold trays_total_at, trays_total_of.
  rewrite (dict_get_fmap_values (λ c, c / 150)).
  rewrite <- counter_get_Counter. unfold counter_get.
  destruct (dict_get (Counter zips) z5); done.
Qed.

(** ** Run-length descriptions *)

Section expand_facts.
Context {A : Type} `{EqDecision A}.

Lemma expand_nil : expand ([] : list (A * nat)) = [].
Proof. done. Qed.

Lemma expand_cons (z : A) c bs : expand ((z, c) :: bs) = replicate c z ++ expand bs.
Proof. done. Qed.

Lemma expand_app (bs1 bs2 : list (A * nat)) : expand (bs1 ++ bs2) = expand bs1 ++ expand bs2.
Proof. unfold expand. by rewrite fmap_app, join_app. Qed.

Lemma expand_snoc (bs : list (A * nat)) z c :
  expand (bs ++ [(z, c)]) = expand bs ++ replicate c z.
Proof. rewrite expand_app, expand_cons, expand_nil, app_nil_r. done. Qed.

Lemma elem_of_expand (bs : list (A * nat)) x :
  x ∈ expand bs ↔ ∃ c, (x, c) ∈ bs ∧ 0 < c.
Proof.
  induction bs as [|[z c] bs IH].
  - rewrite expand_nil, elem_of_nil. split; [done|]. by intros (? & ?%elem_of_nil & _).
  - rewrite expand_cons, elem_of_app, IH, elem_of_replicate. split.
    + intros [[-> Hc]|(c' & Hin & Hc')].
      * exists c. split; [left|lia].
      * exists c'. split; [by right|done].
    + intros (c' & [Heq|Hin]%elem_of_cons & Hc').
      * inversion Heq; subst. left. split; [done|lia].
      * right. eauto.
Qed.

Lemma occ_expand_notin (bs : list (A * nat)) x : x ∉ bs.*1 → occ x (expand bs) = 0.
Proof.
  intros Hni. destruct (occ x (expand bs)) eqn:E; [done|].
  assert (x ∈ expand bs) as (c & Hin & _)%elem_of_expand by (apply occ_pos; lia).
  destruct Hni. apply list_elem_of_fmap. by exists (x, c).
Qed.

Lemma occ_expand (bs : list (A * nat)) x c :
  NoDup bs.*1 → (x, c) ∈ bs → occ x (expand bs) = c.
Proof.
  induction bs as [|[z c'] bs IH]; [by intros _ ?%elem_of_nil|].
  rewrite fmap_cons, NoDup_cons. intros [Hni Hnd] [Heq|Hin]%elem_of_cons.
  - inversion Heq; subst. rewrite expand_cons, occ_app, occ_replicate.
    rewrite decide_True by done. rewrite occ_expand_notin by done. lia.
  - rewrite expand_cons, occ_app, occ_replicate, (IH Hnd Hin).
    rewrite decide_False; [done|]. intros ->. destruct Hni.
    apply list_elem_of_fmap. by exists (x, c).
Qed.
End expand_facts.

(** A list with adjacent equal elements is a sequence of non-empty blocks
    with pairwise different values. *)
Lemma contiguous_blocks {A} `{EqDecision A} (l : list A) :
  contiguous l = true →
  ∃ bs : list (A * nat), l = expand bs ∧ NoDup bs.*1 ∧ Forall (λ b, 0 < b.2) bs.
Proof.
  induction l as [|x l IH]; intros Hc.
  - exists []. split_and!; [done|constructor|constructor].
  - cbn [contiguous] in Hc. apply andb_true_iff in Hc as [Hhd Htl].
    destruct (IH Htl) as (bs & El & Hnd & Hpos). destruct l as [|y l].
    + exists [(x, 1)]. split_and!; [done|apply NoDup_singleton|by repeat constructor].
    + apply orb_true_iff in Hhd as [Hxy%bool_decide_eq_true|Hni%bool_decide_eq_true].
      * subst y. destruct bs as [|[z c] bs]; [done|].
        apply Forall_cons in Hpos as [Hc Hpos]. cbn [snd] in Hc.
        destruct c as [|c]; [lia|]. rewrite expand_cons in El. csimpl in El.
        injection El as -> El.
        exists ((z, S (S c)) :: bs). split_and!.
        -- rewrite expand_cons. csimpl. by rewrite El.
        -- done.
        -- constructor; [cbn; lia|done].
      * exists ((x, 1) :: bs). split_and!.
        -- rewrite expand_cons. csimpl. by rewrite El.
        -- csimpl. apply NoDup_cons. split; [|done].
           intros ((x' & c) & Hx & Hin)%list_elem_of_fmap. cbn in Hx. subst x'.
           apply Hni. rewrite El. apply elem_of_expand. exists c. split; [done|].
           rewrite Forall_forall in Hpos. apply (Hpos _ Hin).
        -- constructor; [cbn; lia|done].
Qed.

(** ** Pieces of a plan *)

Lemma pieces_total_split (bs : list bin) :
  pieces_total bs
  = pieces_of_type T5digit bs + pieces_of_type T3digit bs + pieces_of_type Taadc bs.
Proof.
  unfold pieces_total, pieces_of_type. induction bs as [|b bs IH]; [done|].
  rewrite !filter_cons. csimpl. rewrite IH.
  destruct (b_type b); repeat case_decide; try congruence; csimpl; lia.
Qed.

Lemma close_final_pieces n st :
  open_wf st →
  pieces_of_type T5digit (close_final n st) = pieces_of_type T5digit (bins st) ∧
  pieces_of_type T3digit (close_final n st) = pieces_of_type T3digit (bins st) ∧
  pieces_of_type Taadc (close_final n st)
    = pieces_of_type Taadc (bins st) + open_z3_count st.
Proof.
  intros [_ Hgrp]. unfold close_final.
  destruct (decide (0 < open_z3_count st)) as [Hpos|Hz].
  - destruct (Hgrp Hpos) as [g ->]. rewrite bool_decide_eq_true_2 by done.
    unfold pieces_of_type. rewrite !filter_app, !sum_list_with_app. csimpl. lia.
  - assert (open_z3_count st = 0) as -> by lia.
    destruct (open_z3_group st); csimpl; lia.
Qed.

Lemma imap_pieces_of_type t (f : nat → bin → bin) (bs : list bin) :
  (∀ i b, b_count (f i b) = b_count b ∧ b_type (f i b) = b_type b) →
  pieces_of_type t (imap f bs) = pieces_of_type t bs.
Proof.
  revert f. unfold pieces_of_type. induction bs as [|b bs IH]; intros f Hf; [done|].
  csimpl. rewrite !filter_cons. destruct (Hf 0 b) as [Hc Ht]. rewrite Ht.
  case_decide; csimpl.
  - rewrite Hc. f_equal. apply IH. intros i b'. apply Hf.
  - apply IH. intros i b'. apply Hf.
Qed.

Lemma assign_ids_pieces t (bs : list bin) :
  pieces_of_type t (assign_ids bs) = pieces_of_type t bs.
Proof. apply imap_pieces_of_type. done. Qed.

(** ** The plan of a list of blocks accounts for every piece *)

Lemma plan_blocks_total tt (bs : list (string * nat)) :
  NoDup bs.*1 →
  Forall (λ b, 0 < b.2) bs →
  (∀ z c, (z, c) ∈ bs → trays_total_at tt z = c / 150) →
  let st := plan_loop tt 1 (expand bs) plan_init in
  current_5_start st = None ∧ open_wf st ∧
  (∀ z, z ∉ bs.*1 → ta_at st z = 0) ∧
  pieces_total (bins st) + open_z3_count st = length (expand bs).
Proof.
  induction bs as [|[z c] bs IH] using rev_ind; intros Hnd Hpos Htt; cbv zeta.
  - cbn. unfold open_wf. cbn. split_and!; try done; try lia.
  - rewrite fmap_app in Hnd. apply NoDup_app in Hnd as (Hnd & Hdisj & _).
    apply Forall_app in Hpos as [Hpos Hc]. rewrite Forall_singleton in Hc. cbn in Hc.
    destruct IH as (I1 & I2 & I3 & I4); [done|done| |].
    { intros z' c' Hin. apply Htt, elem_of_app. by left. }
    assert (z ∉ bs.*1) as Hz.
    { intros Hin. apply (Hdisj _ Hin). csimpl. left. }
    rewrite expand_snoc, plan_loop_app, length_app, length_replicate.
    set (st := plan_loop tt 1 (expand bs) plan_init) in *.
    destruct (plan_block tt z c (1 + length (expand bs)) st)
      as (B1 & B2 & B3 & B4 & B5 & B6 & B7 & B8);
      [done|apply Htt, elem_of_app; right; left|by apply I3|done|done|].
    cbv zeta in B5, B6, B7, B8. split_and!; try done.
    + intros z' Hz'. rewrite fmap_app, not_elem_of_app in Hz'.
      destruct Hz' as [Hz1 Hz2]. rewrite B4; [by apply I3|].
      intros ->. apply Hz2. csimpl. left.
    + rewrite pieces_total_split, B5, B6, B7, B8.
      rewrite pieces_total_split in I4.
      set (o := if decide (settled (zip3 z) st) then open_z3_count st else 0).
      assert (o ≤ open_z3_count st) by (unfold o; case_decide; lia).
      divmod c. divmod (o + c mod 150). lia.
Qed.

(** C3 (amended). For every list of ZIP5 strings in which equal ZIP5 values
    are adjacent (the order the builder produces by sorting on ZIP5), the
    counts of the planner's bins add up to the length of the list; the empty
    list yields no bin. *)
Theorem plan_bins_total_contiguous (zips : list string) :
  contiguous zips = true →
  pieces_total (plan_bins_by_order zips) = length zips ∧ plan_bins_by_order [] = [].
Proof.
  intros Hc. split; [|reflexivity].
  destruct (contiguous_blocks zips Hc) as (bs & -> & Hnd & Hpos).
  unfold plan_bins_by_order.
  destruct (plan_blocks_total (trays_total_of (expand bs)) bs Hnd Hpos)
    as (_ & Hwf & _ & Htot).
  { intros z c Hin. rewrite trays_total_at_of. by rewrite (occ_expand bs z c). }
  cbv zeta in Htot.
  set (st := plan_loop (trays_total_of (expand bs)) 1 (expand bs) plan_init) in *.
  destruct (close_final_pieces (length (expand bs)) st Hwf) as (C5 & C3 & Ca).
  rewrite pieces_total_split, !assign_ids_pieces, C5, C3, Ca.
  rewrite pieces_total_split in Htot. lia.
Qed.

Lemma plan_bins_total_contiguous_witness :
  pieces_total (plan_bins_by_order ["95835"; "95835"; "95836"; "96001"])
  = length ["95835"; "95835"; "95836"; "96001"] ∧ plan_bins_by_order [] = [].
Proof. apply (plan_bins_total_contiguous ["95835"; "95835"; "95836"; "96001"]). reflexivity. Defined.

(** C3 as stated fails: when the pieces of one ZIP5 with a full tray are
    interrupted by another ZIP5 with a full tray, the interrupted tray is
    restarted and its pieces are in no bin. Here 300 pieces give bins that
    hold 150. *)
Lemma plan_bins_total_unsorted_counterexample :
  let zips := "95835" :: replicate 150 "95836" ++ replicate 149 "95835" in
  length zips = 300 ∧ pieces_total (plan_bins_by_order zips) = 150 ∧
  pieces_total (plan_bins_by_order zips) ≠ length zips.
Proof. vm_compute. split_and!; [reflexivity|reflexivity|discriminate]. Qed.

(** ** The estimator and the planner on a list of blocks *)

Section counter_blocks.
Context {K : Type} `{EqDecision K}.

Lemma dict_get_app_fresh {V} (d : list (K * V)) k v :
  k ∉ d.*1 → dict_get (d ++ [(k, v)]) k = Some v.
Proof.
  induction d as [|[k0 v0] d IH]; csimpl.
  - intros _. by rewrite decide_True.
  - rewrite not_elem_of_cons. intros [Hne Hni]. rewrite decide_False by done. auto.
Qed.

Lemma dict_get_notin {V} (d : list (K * V)) k : k ∉ d.*1 → dict_get d k = None.
Proof.
  intros Hni. destruct (dict_get d k) eqn:E; [|done].
  destruct Hni. apply dict_get_is_Some. eauto.
Qed.

Lemma counter_add_fresh (acc : list (K * nat)) z n :
  z ∉ acc.*1 → counter_add acc z n = acc ++ [(z, n)].
Proof.
  intros Hni. unfold counter_add, counter_get.
  rewrite dict_get_notin by done. by rewrite dict_set_keys_fresh.
Qed.

Lemma counter_add_last (acc : list (K * nat)) z n m :
  z ∉ acc.*1 → counter_add (acc ++ [(z, n)]) z m = acc ++ [(z, n + m)].
Proof.
  intros Hni. unfold counter_add, counter_get.
  rewrite dict_get_app_fresh by done. by rewrite dict_set_keys_last.
Qed.

Lemma Counter_from_replicate (acc : list (K * nat)) z n m :
  z ∉ acc.*1 →
  foldl (λ c x, counter_add c x 1) (acc ++ [(z, n)]) (replicate m z)
  = acc ++ [(z, n + m)].
Proof.
  intros Hni. revert n. induction m as [|m IH]; intros n; csimpl.
  - by rewrite Nat.add_0_r.
  - rewrite counter_add_last by done. rewrite IH. do 3 f_equal. lia.
Qed.

Lemma Counter_from_expand (bs acc : list (K * nat)) :
  NoDup (acc.*1 ++ bs.*1) →
  Forall (λ b, 0 < b.2) bs →
  foldl (λ c x, counter_add c x 1) acc (expand bs) = acc ++ bs.
Proof.
  revert acc. induction bs as [|[z c] bs IH]; intros acc Hnd Hpos.
  - by rewrite expand_nil, app_nil_r.
  - apply Forall_cons in Hpos as [Hc Hpos]. cbn in Hc.
    destruct c as [|c]; [lia|].
    rewrite expand_cons, foldl_app. csimpl.
    assert (z ∉ acc.*1) as Hz.
    { apply NoDup_app in Hnd as (_ & Hd & _). intros Hin. apply (Hd _ Hin). left. }
    rewrite counter_add_fresh by done.
    rewrite Counter_from_replicate by done.
    rewrite IH; [by rewrite <- app_assoc|by rewrite fmap_app, <- app_assoc|done].
Qed.

Lemma Counter_expand (bs : list (K * nat)) :
  NoDup bs.*1 → Forall (λ b, 0 < b.2) bs → Counter (expand bs) = bs.
Proof. intros Hnd Hpos. unfold Counter. by rewrite Counter_from_expand. Qed.

Lemma last_expand (bs : list (K * nat)) :
  Forall (λ b, 0 < b.2) bs → last (expand bs) = last bs.*1.
Proof.
  destruct bs as [|b bs _] using rev_ind; [done|]. destruct b as [z c].
  intros [_ Hc]%Forall_app. rewrite Forall_singleton in Hc. cbn in Hc.
  destruct c as [|c]; [lia|].
  rewrite expand_snoc, replicate_S_end, app_assoc, fmap_app. csimpl.
  by rewrite !last_snoc.
Qed.

Lemma contiguous_app_cons (l1 l2 : list K) x :
  contiguous (l1 ++ x :: l2) = true → last l1 = Some x ∨ x ∉ l1.
Proof.
  induction l1 as [|y l1 IH]; intros Hc.
  - right. apply not_elem_of_nil.
  - change ((y :: l1) ++ x :: l2) with (y :: (l1 ++ x :: l2)) in Hc.
    cbn [contiguous] in Hc. apply andb_true_iff in Hc as [Hhd Htl].
    destruct (IH Htl) as [Hlast|Hni].
    + left. destruct l1; [done|]. done.
    + destruct (decide (y = x)) as [->|Hne].
      * left. destruct l1 as [|h l1]; [done|]. exfalso. csimpl in Hhd.
        apply orb_true_iff in Hhd as [Hh%bool_decide_eq_true|Hh%bool_decide_eq_true].
        -- subst h. apply Hni. left.
        -- apply Hh. right. apply elem_of_app. right. left.
      * right. rewrite not_elem_of_cons. done.
Qed.
End counter_blocks.

(** The estimator's first loop and the planner's loop, block by block. The
    blocks have different ZIP5s, and a block's ZIP3 is either that of the
    block before it or new. *)
Section tier_agreement.
Variable BS : list (string * nat).
Variable tt : list (string * nat).
Hypothesis BS_nodup : NoDup BS.*1.
Hypothesis BS_pos : Forall (λ b, 0 < b.2) BS.
Hypothesis tt_ok : ∀ z c, (z, c) ∈ BS → trays_total_at tt z = c / 150.
Hypothesis BS_zip3 : ∀ bs1 z c bs2, BS = bs1 ++ (z, c) :: bs2 →
  zip3 <$> last bs1.*1 = Some (zip3 z) ∨ zip3 z ∉ zip3 <$> bs1.*1.

Lemma tiers_lockstep bs : ∀ rest,
  BS = bs ++ rest →
  let st := plan_loop tt 1 (expand bs) plan_init in
  let est := foldl estimate_zip5_step (0, []) bs in
  let est3 := foldl estimate_zip3_step (0, 0) est.2 in
  current_5_start st = None ∧ open_wf st ∧
  (∀ z, z ∉ bs.*1 → ta_at st z = 0) ∧
  pieces_of_type T5digit (bins st) = est.1 ∧
  pieces_of_type T3digit (bins st) = est3.1 ∧
  pieces_of_type Taadc (bins st) + open_z3_count st = est3.2 ∧
  NoDup est.2.*1 ∧
  (∀ g, g ∈ est.2.*1 → g ∈ zip3 <$> bs.*1) ∧
  match last bs.*1 with
  | None => est.2 = [] ∧ open_z3_count st = 0
  | Some zl => ∃ lo0 T, est.2 = lo0 ++ [(zip3 zl, T)] ∧
                        open_z3_count st = T mod 150 ∧ settled (zip3 zl) st
  end.
Proof.
  induction bs as [|[z c] bs IH] using rev_ind; intros rest HBS; cbv zeta.
  - cbn. unfold open_wf. cbn. split_and!; try done; try lia; try constructor.
  - rewrite <- app_assoc in HBS. cbn [app] in HBS.
    destruct (IH _ HBS) as (I1 & I2 & I3 & I4 & I5 & I6 & I7 & I8 & I9). clear IH.
    cbv zeta in I4, I5, I6, I7, I8, I9.
    assert (z ∉ bs.*1) as Hz.
    { pose proof BS_nodup as Hnd. rewrite HBS, fmap_app in Hnd.
      apply NoDup_app in Hnd as (_ & Hd & _). intros Hin. apply (Hd _ Hin). left. }
    assert (0 < c) as Hc.
    { pose proof BS_pos as Hp. rewrite HBS in Hp.
      apply Forall_app in Hp as [_ Hp]. apply Forall_cons in Hp as [Hp _]. exact Hp. }
    assert (trays_total_at tt z = c / 150) as Htt.
    { apply tt_ok. rewrite HBS. apply elem_of_app. right. left. }
    rewrite expand_snoc, plan_loop_app, foldl_snoc, fmap_app.
    change ([(z, c)].*1) with [z]. rewrite last_snoc.
    set (st := plan_loop tt 1 (expand bs) plan_init) in *.
    destruct (plan_block tt z c (1 + length (expand bs)) st Hc Htt (I3 z Hz) I1 I2)
      as (B1 & B2 & B3 & B4 & B5 & B6 & B7 & B8).
    cbv zeta in B5, B6, B7, B8.
    set (st' := plan_loop tt (1 + length (expand bs)) (replicate c z) st) in *.
    destruct (foldl estimate_zip5_step (0, []) bs) as [five lo] eqn:Eest.
    cbn [fst snd] in I4, I5, I6, I7, I8, I9. cbn [estimate_zip5_step fst snd].
    assert (∀ z', z' ∉ bs.*1 ++ [z] → ta_at st' z' = 0) as Hta'.
    { intros z' [Hz1 Hz2]%not_elem_of_app. rewrite B4; [by apply I3|].
      intros ->. apply Hz2. left. }
    destruct (BS_zip3 _ _ _ _ HBS) as [Hsame|Hnew].
    + (* same ZIP3 as the block before *)
      destruct (last bs.*1) as [zl|] eqn:Elast; [|done].
      injection Hsame as Hsame.
      destruct I9 as (lo0 & T & -> & Eopen & Hset). rewrite Hsame in *.
      assert (zip3 z ∉ lo0.*1) as Hfresh.
      { rewrite fmap_app in I7. apply NoDup_app in I7 as (_ & Hd & _).
        intros Hin. apply (Hd _ Hin). left. }
      rewrite counter_add_last by done. rewrite foldl_snoc in I5, I6 |- *.
      destruct (foldl estimate_zip3_step (0, 0) lo0) as [t3 a3].
      cbn [estimate_zip3_step fst snd] in I5, I6 |- *.
      rewrite decide_True in B6, B7, B8 by done.
      split_and!; try done.
      * lia.
      * rewrite B6, I5, Eopen. divmod T. divmod c.
        divmod (T mod 150 + c mod 150). divmod (T + (c - c / 150 * 150)). lia.
      * rewrite B7, B8, Eopen. rewrite Eopen in I6. divmod T. divmod c.
        divmod (T mod 150 + c mod 150). divmod (T + (c - c / 150 * 150)). lia.
      * rewrite fmap_app in I7. rewrite fmap_app. done.
      * intros g Hg. rewrite fmap_app in Hg. rewrite fmap_app.
        apply elem_of_app. apply elem_of_app in Hg as [Hg|Hg].
        -- left. apply I8. rewrite fmap_app. apply elem_of_app. by left.
        -- right. csimpl in Hg. apply list_elem_of_singleton in Hg as ->.
           csimpl. left.
      * exists lo0, (T + (c - c / 150 * 150)). split_and!; try done.
        rewrite B8, Eopen. divmod T. divmod c.
        divmod (T mod 150 + c mod 150). divmod (T + (c - c / 150 * 150)). lia.
    + (* a ZIP3 not seen before *)
      assert (zip3 z ∉ lo.*1) as Hfresh by (intros Hin; apply Hnew, I8, Hin).
      rewrite counter_add_fresh by done. rewrite foldl_snoc.
      destruct (foldl estimate_zip3_step (0, 0) lo) as [t3 a3].
      cbn [estimate_zip3_step fst snd] in I5, I6 |- *.
      set (o := if decide (settled (zip3 z) st) then open_z3_count st else 0) in *.
      assert (o = 0) as Ho.
      { unfold o. case_decide as Hs; [|done]. destruct Hs as [?|Hg]; [done|].
        destruct (last bs.*1) as [zl|] eqn:Elast; [|by destruct I9].
        destruct I9 as (lo0 & T & _ & _ & [?|Hg']); [done|].
        exfalso. apply Hnew. rewrite Hg in Hg'. injection Hg' as ->.
        apply list_elem_of_fmap. exists zl. split; [done|].
        apply last_Some in Elast as [l' ->]. apply elem_of_app. right. left. }
      rewrite Ho in B6, B7, B8. rewrite Nat.add_0_l in B6, B8.
      split_and!; try done.
      * lia.
      * rewrite B6, I5. divmod c. divmod (c mod 150). divmod (c - c / 150 * 150). lia.
      * rewrite B7, B8. divmod c. divmod (c mod 150). divmod (c - c / 150 * 150). lia.
      * rewrite fmap_app. apply NoDup_app. split_and!; [done| |apply NoDup_singleton].
        intros g Hg ->%list_elem_of_singleton. done.
      * intros g Hg. rewrite fmap_app in Hg. rewrite fmap_app.
        apply elem_of_app. apply elem_of_app in Hg as [Hg|Hg].
        -- left. by apply I8.
        -- right. csimpl in Hg. apply list_elem_of_singleton in Hg as ->.
           csimpl. left.
      * exists lo, (c - c / 150 * 150). split_and!; try done.
        rewrite B8. divmod c. divmod (c mod 150). divmod (c - c / 150 * 150). lia.
Qed.
End tier_agreement.

Lemma blocks_zip3_steps (bs : list (string * nat)) :
  Forall (λ b, 0 < b.2) bs →
  contiguous (zip3 <$> expand bs) = true →
  ∀ bs1 z c bs2, bs = bs1 ++ (z, c) :: bs2 →
    zip3 <$> last bs1.*1 = Some (zip3 z) ∨ zip3 z ∉ zip3 <$> bs1.*1.
Proof.
  intros Hpos Hc bs1 z c bs2 ->.
  apply Forall_app in Hpos as [Hpos1 Hpos2].
  apply Forall_cons in Hpos2 as [Hcpos _]. cbn in Hcpos.
  destruct c as [|c]; [lia|].
  rewrite expand_app, expand_cons, fmap_app in Hc. csimpl in Hc.
  apply contiguous_app_cons in Hc as [Hlast|Hni].
  - left. by rewrite fmap_last, last_expand in Hlast.
  - right. intros (z1 & Ez & Hin)%list_elem_of_fmap. apply Hni.
    apply list_elem_of_fmap. exists z1. split; [done|].
    apply list_elem_of_fmap in Hin as ([z1' c1] & -> & Hin).
    apply elem_of_expand. exists c1. split; [done|].
    rewrite Forall_forall in Hpos1. apply (Hpos1 _ Hin).
Qed.

(** C8 (amended). For every selection in which equal ZIP5 values are
    adjacent and equal ZIP3 prefixes are adjacent (as in a ZIP5-sorted
    selection), the estimator's three tier counts are the total piece counts
    of the planner's 5digit, 3digit and aadc bins on the same list. *)
Theorem estimate_matches_plan_on_sorted (chosen : list candidate) :
  contiguous (c_ZIP5 <$> chosen) = true →
  contiguous (zip3 <$> (c_ZIP5 <$> chosen)) = true →
  estimate_postage chosen = tiers_of_bins (plan_bins_by_order (c_ZIP5 <$> chosen)).
Proof.
  unfold estimate_postage. generalize (c_ZIP5 <$> chosen). clear chosen.
  intros zips Hc5 Hc3.
  destruct (contiguous_blocks zips Hc5) as (bs & -> & Hnd & Hpos).
  pose proof (tiers_lockstep bs (trays_total_of (expand bs)) Hnd Hpos) as Hl.
  destruct (Hl ltac:(intros z c Hin; rewrite trays_total_at_of;
                     by rewrite (occ_expand bs z c))
               (blocks_zip3_steps bs Hpos Hc3) bs [] ltac:(by rewrite app_nil_r))
    as (_ & Hwf & _ & H5 & H3 & Ha & _).
  clear Hl. cbv zeta in H5, H3, Ha.
  unfold estimate_tiers, plan_bins_by_order, tiers_of_bins.
  rewrite Counter_expand by done.
  set (st := plan_loop (trays_total_of (expand bs)) 1 (expand bs) plan_init) in *.
  destruct (close_final_pieces (length (expand bs)) st Hwf) as (C5 & C3 & Ca).
  rewrite !assign_ids_pieces, C5, C3, Ca, H5, H3, Ha.
  destruct (foldl estimate_zip5_step (0, []) bs) as [five lo].
  cbn [fst snd]. destruct (foldl estimate_zip3_step (0, 0) lo) as [three a].
  reflexivity.
Qed.

Lemma estimate_matches_plan_on_sorted_witness :
  let chosen := [Candidate "1 MAIN ST" "JANE DOE" "95835" [];
                 Candidate "2 MAIN ST" "JOHN ROE" "95835" [];
                 Candidate "7 OAK AVE" "MARY JANE" "95836" [];
                 Candidate "9 PINE RD" "ACME CORP" "96001" []] in
  estimate_postage chosen = tiers_of_bins (plan_bins_by_order (c_ZIP5 <$> chosen)).
Proof.
  intros chosen. apply (estimate_matches_plan_on_sorted chosen); reflexivity.
Defined.

(** C8 as stated fails on a list that is not sorted: 149 pieces of ZIP3 958,
    one of 960 and one more of 958. The estimator sees 150 leftovers of 958
    (a 3-digit tray); the planner closes the run of 149 when 960 arrives. *)
Lemma estimate_differs_from_plan_counterexample :
  let chosen := (λ z, Candidate "" "" z []) <$>
                  (replicate 149 "95801" ++ ["96001"; "95802"]) in
  estimate_postage chosen = Tiers 0 150 1 ∧
  tiers_of_bins (plan_bins_by_order (c_ZIP5 <$> chosen)) = Tiers 0 0 151 ∧
  estimate_postage chosen ≠ tiers_of_bins (plan_bins_by_order (c_ZIP5 <$> chosen)).
Proof. vm_compute. split_and!; [reflexivity|reflexivity|discriminate]. Qed.

(** ** History filter *)

Example py_int_examples :
  py_int " 12 " = Some 12%Z ∧ py_int "-3" = Some (-3)%Z ∧ py_int "1_000" = Some 1000%Z ∧
  py_int "" = None ∧ py_int "1__0" = None ∧ py_int "7a" = None ∧ py_int "007" = Some 7%Z.
Proof. vm_compute. by split_and!. Qed.

Example campaign_ints_example : campaign_ints "1| 2,x|10" = [1; 2; 10]%Z.
Proof. vm_compute. reflexivity. Qed.

Example zip_examples :
  get_zip5_from_text "95835.0" = "95835" ∧
  get_zip5_from_text "42 MAIN ST, Sacramento, CA 95835-1234" = "95835" ∧
  get_zip5_from_text "1112 MCCLAREN DR" = "" ∧
  get_zip5_from_text "1234567" = "34567" ∧
  norm_key "  1   Main St " "jane  doe" = ("1 MAIN ST", "JANE DOE").
Proof. vm_compute. by split_and!. Qed.

Lemma str_or_empty s : str_or s "" = s.
Proof. unfold str_or, truthy. case_bool_decide; simpl; congruence. Qed.

Lemma last_of_sorted_is_max (l : list Z) (m : Z) :
  Sorted Z.le l → last l = Some m → ∀ x, x ∈ l → (x ≤ m)%Z.
Proof.
  intros Hs%Sorted_StronglySorted; [|intros ???; lia].
  induction Hs as [|y l Hs IH Hall]; intros Hlast x Hx.
  - by apply elem_of_nil in Hx.
  - destruct l as [|z l].
    + cbn in Hlast. injection Hlast as <-. apply list_elem_of_singleton in Hx. lia.
    + change (last (y :: z :: l)) with (last (z :: l)) in Hlast.
      apply elem_of_cons in Hx as [->|Hx]; [|by apply IH].
      rewrite Forall_forall in Hall. etrans; [apply (Hall z); left|].
      apply IH; [done|left].
Qed.

(** C7 (amended). Without a ledger record, [passes_prior_rules] returns
    true exactly when priorExact is 0, or priorExact is unset and priorMax is
    unset or at least 0. With a record, for cnt its CampaignCount and last
    the last integer listed in its CampaignNumbers, it returns false exactly
    when priorExact is set and differs from cnt, or priorMax is set and
    cnt > priorMax, or minGap > 0, last > 0 and last > current - minGap. The
    last listed integer is the maximum when they are listed in ascending
    order. *)
Theorem passes_prior_rules_spec (k : string * string)
    (tracker : list ((string * string) * row))
    (prior_exact prior_max : option Z) (min_gap current : Z) :
  let passes := passes_prior_rules k tracker prior_exact prior_max min_gap current in
  (dict_get tracker k = None ∨ dict_get tracker k = Some [] →
   (passes = true ↔
    prior_exact = Some 0%Z ∨
    (prior_exact = None ∧ (prior_max = None ∨ ∃ m, prior_max = Some m ∧ (0 ≤ m)%Z)))) ∧
  (∀ info, dict_get tracker k = Some info → info ≠ [] →
   let cnt := parse_campaign_count info in
   let last := parse_last_campaign_number info in
   (passes = false ↔
    (∃ e, prior_exact = Some e ∧ cnt ≠ e) ∨
    (∃ m, prior_max = Some m ∧ (cnt > m)%Z) ∨
    ((min_gap > 0)%Z ∧ (last > 0)%Z ∧ (last > current - min_gap)%Z))) ∧
  (∀ info,
   let ints := campaign_ints (strip (row_get info "CampaignNumbers")) in
   ints ≠ [] →
   List.last ints 0%Z = parse_last_campaign_number info ∧
   (Sorted Z.le ints → ∀ x, x ∈ ints → (x ≤ parse_last_campaign_number info)%Z)).
Proof.
  cbv zeta. split_and!.
  - intros Hno. unfold passes_prior_rules.
    assert (match dict_get tracker k with None | Some [] => True | _ => False end) as Hm
      by (destruct Hno as [-> | ->]; done).
    destruct (dict_get tracker k) as [[|]|]; try done;
      destruct prior_exact as [e|]; destruct prior_max as [m|];
      repeat case_bool_decide; naive_solver lia.
  - intros info Hget Hne. unfold passes_prior_rules. rewrite Hget.
    destruct info as [|kv info]; [done|].
    set (cnt := parse_campaign_count (kv :: info)).
    set (lst := parse_last_campaign_number (kv :: info)).
    destruct prior_exact as [e|]; destruct prior_max as [m|];
      repeat case_bool_decide; simpl; split; intros; try done; try naive_solver lia.
  - intros info Hne. unfold parse_last_campaign_number.
    rewrite str_or_empty.
    set (nums := strip (row_get info "CampaignNumbers")) in *.
    assert (truthy nums = true) as ->.
    { unfold truthy. case_bool_decide as E; [|done]. rewrite E in Hne. done. }
    destruct (last (campaign_ints nums)) as [n|] eqn:El.
    + split.
      * destruct (campaign_ints nums) as [|a l] using rev_ind; [done|].
        rewrite last_snoc in El. injection El as ->. apply List.last_last.
      * intros Hs x Hx. by eapply last_of_sorted_is_max.
    + apply last_None in El. done.
Qed.

(** C7 as stated fails: a never-mailed lead is rejected when priorExact is
    unset and priorMax is negative; and with CampaignNumbers "5|2" the gap
    rule uses 2, the last entry, not the maximum 5. *)
Lemma passes_prior_rules_counterexample :
  let k := ("1 MAIN ST", "JANE DOE") in
  let info := [("PropertyAddress", "1 MAIN ST"); ("OwnerName", "JANE DOE");
               ("CampaignCount", "2"); ("CampaignNumbers", "5|2")] in
  (dict_get ([] : list ((string * string) * row)) k = None ∧
   passes_prior_rules k [] None (Some (-1)%Z) 0 1 = false) ∧
  (campaign_ints "5|2" = [5; 2]%Z ∧ parse_last_campaign_number info = 2%Z ∧
   (5 > 4 - 1)%Z ∧
   passes_prior_rules k [(k, info)] None None 1 4 = true).
Proof. vm_compute. split_and!; try reflexivity. Qed.

(** ** Ingestion keeps one candidate per dedup key *)

Lemma bump_fields b f st :
  seen_keys (bump b f st) = seen_keys st ∧
  all_candidates (bump b f st) = all_candidates st.
Proof. by destruct b. Qed.

Lemma bump_inv b f st : ingest_inv st → ingest_inv (bump b f st).
Proof. unfold ingest_inv. by destruct (bump_fields b f st) as [-> ->]. Qed.

Lemma process_row_inv tracker pol b st r :
  ingest_inv st → ingest_inv (process_row tracker pol b st r).
Proof.
  intros Hinv. unfold process_row.
  destruct (detect_addr_owner_from_source_row r) as [addr own] eqn:Ed.
  repeat case_match; try by apply bump_inv.
  apply bump_inv. destruct Hinv as [Hnd Hseen].
  unfold ingest_inv. cbn [seen_keys all_candidates].
  assert (cand_key (Candidate (norm_space addr) (norm_space own)
                      (get_zip5_from_row r addr) r) = norm_key addr own) as Ek.
  { unfold cand_key. cbn [c_src_row]. by rewrite Ed. }
  split.
  - rewrite fmap_app. csimpl. rewrite Ek.
    apply NoDup_app. split_and!; [done| |apply NoDup_singleton].
    intros k (c & -> & Hc)%list_elem_of_fmap Hk%list_elem_of_singleton.
    apply Hseen in Hc. rewrite Hk in Hc.
    match goal with H : bool_decide _ = false |- _ =>
      apply bool_decide_eq_false in H; done end.
  - intros c [Hc|Hc%list_elem_of_singleton]%elem_of_app.
    + apply elem_of_union. right. by apply Hseen.
    + subst c. rewrite Ek. apply elem_of_union. left. by apply elem_of_singleton.
Qed.

Lemma process_rows_inv tracker pol rows b st :
  ingest_inv st → ingest_inv (process_rows tracker pol rows b st).
Proof.
  unfold process_rows. revert st. induction rows as [|r rows IH]; intros st Hinv; [done|].
  csimpl. apply IH. by apply process_row_inv.
Qed.

Lemma ingest_init_inv : ingest_inv ingest_init.
Proof. split; [constructor|]. intros c Hc. by apply elem_of_nil in Hc. Qed.

(** ** Sorting and grouping only rearrange *)

Lemma insert_sorted_perm {A} (before : A → A → bool) x l :
  insert_sorted before x l ≡ₚ x :: l.
Proof.
  induction l as [|y l IH]; csimpl; [done|].
  destruct (before x y); [done|]. rewrite IH. apply Permutation_swap.
Qed.

Lemma py_sorted_from_perm {A} (before : A → A → bool) l acc :
  foldl (λ acc x, insert_sorted before x acc) acc l ≡ₚ acc ++ l.
Proof.
  revert acc. induction l as [|x l IH]; intros acc; csimpl.
  - by rewrite app_nil_r.
  - rewrite IH, insert_sorted_perm. csimpl. apply Permutation_middle.
Qed.

Lemma py_sorted_perm {A} (before : A → A → bool) l : py_sorted before l ≡ₚ l.
Proof. unfold py_sorted. by rewrite py_sorted_from_perm. Qed.

Section dict_of_lists.
Context {K A : Type} `{EqDecision K}.
Implicit Types d : list (K * list A).

Lemma dict_set_keys_NoDup d k v : NoDup d.*1 → NoDup (dict_set d k v).*1.
Proof.
  induction d as [|[k0 v0] d IH]; csimpl.
  - intros _. apply NoDup_singleton.
  - rewrite NoDup_cons. intros [Hni Hnd]. destruct (decide (k0 = k)); csimpl.
    + by apply NoDup_cons.
    + apply NoDup_cons. split; [|auto].
      intros Hin. apply Hni. apply dict_get_is_Some in Hin.
      rewrite dict_get_set in Hin. rewrite decide_False in Hin by done.
      by apply dict_get_is_Some.
Qed.

Lemma dict_get_elem_of d k v : NoDup d.*1 → (k, v) ∈ d → dict_get d k = Some v.
Proof.
  induction d as [|[k0 v0] d IH]; csimpl; [by intros _ ?%elem_of_nil|].
  rewrite NoDup_cons. intros [Hni Hnd] [Heq|Hin]%elem_of_cons.
  - inversion Heq; subst. by rewrite decide_True.
  - rewrite decide_False; [auto|]. intros ->. apply Hni.
    apply list_elem_of_fmap. by exists (k, v).
Qed.

(** Replacing the value of a present key. *)
Lemma dict_set_present d k v :
  dict_get d k = Some v →
  ∃ rest, mjoin d.*2 ≡ₚ v ++ rest ∧ ∀ w, mjoin (dict_set d k w).*2 ≡ₚ w ++ rest.
Proof.
  induction d as [|[k0 v0] d IH]; csimpl; [done|].
  destruct (decide (k0 = k)) as [->|Hne].
  - intros [= ->]. exists (mjoin d.*2). split; [done|]. intros w. done.
  - intros Hget. destruct (IH Hget) as (rest & E1 & E2).
    exists (v0 ++ rest). split.
    + rewrite E1. rewrite !app_assoc. apply Permutation_app_tail, Permutation_app_comm.
    + intros w. csimpl. rewrite E2. rewrite !app_assoc.
      apply Permutation_app_tail, Permutation_app_comm.
Qed.

(** [d[k].append(x)] on a [defaultdict(list)]. *)
Lemma dict_append_perm d k x :
  mjoin (dict_set d k (default [] (dict_get d k) ++ [x])).*2 ≡ₚ mjoin d.*2 ++ [x].
Proof.
  destruct (dict_get d k) as [v|] eqn:E.
  - destruct (dict_set_present d k v E) as (rest & E1 & E2).
    rewrite E2, E1. csimpl. rewrite <- !app_assoc.
    apply Permutation_app_head, Permutation_app_comm.
  - rewrite dict_set_keys_fresh.
    + rewrite fmap_app, join_app. csimpl. done.
    + intros Hin%dict_get_is_Some. rewrite E in Hin. by destruct Hin.
Qed.
End dict_of_lists.

Lemma group_by_from_perm {A K} `{EqDecision K} (key : A → K) rows d :
  mjoin (foldl (λ d r, dict_set d (key r) (default [] (dict_get d (key r)) ++ [r])) d rows).*2
  ≡ₚ mjoin d.*2 ++ rows.
Proof.
  revert d. induction rows as [|r rows IH]; intros d; csimpl.
  - by rewrite app_nil_r.
  - rewrite IH, dict_append_perm. by rewrite <- app_assoc.
Qed.

Lemma group_by_perm {A K} `{EqDecision K} (key : A → K) rows :
  mjoin (group_by key rows).*2 ≡ₚ rows.
Proof. unfold group_by. by rewrite group_by_from_perm. Qed.

Lemma group_by_from_keys_NoDup {A K} `{EqDecision K} (key : A → K) rows d :
  NoDup d.*1 →
  NoDup (foldl (λ d r, dict_set d (key r) (default [] (dict_get d (key r)) ++ [r])) d rows).*1.
Proof.
  revert d. induction rows as [|r rows IH]; intros d Hd; csimpl; [done|].
  apply IH. by apply dict_set_keys_NoDup.
Qed.

Lemma group_by_keys_NoDup {A K} `{EqDecision K} (key : A → K) rows :
  NoDup (group_by key rows).*1.
Proof. apply group_by_from_keys_NoDup. constructor. Qed.

Lemma submseteq_NoDup_fmap {A B} (f : A → B) (l1 l2 : list A) :
  l1 ⊆+ l2 → NoDup (f <$> l2) → NoDup (f <$> l1).
Proof.
  intros (k & Hk)%submseteq_Permutation Hnd. rewrite Hk, fmap_app in Hnd.
  by apply NoDup_app in Hnd as (? & _).
Qed.

Lemma dict_set_set {K V} `{EqDecision K} (d : list (K * V)) k v w :
  dict_set (dict_set d k v) k w = dict_set d k w.
Proof.
  induction d as [|[k0 v0] d IH]; csimpl.
  - by rewrite decide_True.
  - destruct (decide (k0 = k)) as [->|Hne]; csimpl.
    + by rewrite decide_True.
    + rewrite decide_False by done. by rewrite IH.
Qed.

Lemma join_values_perm {K A} (d1 d2 : list (K * list A)) :
  d1 ≡ₚ d2 → mjoin d1.*2 ≡ₚ mjoin d2.*2.
Proof. intros H. by rewrite H. Qed.

Lemma take_drop_sub {A} (l : list A) k m : k ≤ m → take k l ++ drop m l ⊆+ l.
Proof.
  intros Hkm. rewrite <- (take_drop m l) at 3. apply submseteq_skips_r.
  replace k with (k `min` m) by lia. rewrite <- take_take. apply submseteq_take.
Qed.

(** ** The selector picks every candidate at most once *)

Section selector_facts.
Context {rng : Type} (shuffle : rng → list candidate → list candidate * rng).
Hypothesis shuffle_perm : ∀ g l, (shuffle g l).1 ≡ₚ l.

Lemma fill_pass_sub target bs : ∀ g chosen,
  (fill_pass shuffle target bs (g, chosen)).2 ⊆+ chosen ++ mjoin bs.*2.
Proof.
  induction bs as [|[z b] bs IH]; intros g chosen; cbn [fill_pass].
  - csimpl. by rewrite app_nil_r.
  - case_bool_decide.
    + cbn [snd]. apply submseteq_inserts_r. done.
    + pose proof (shuffle_perm g b) as Hp.
      destruct (shuffle g b) as [b' g']. cbn [fst] in Hp.
      etrans; [apply IH|]. csimpl. rewrite <- app_assoc.
      apply submseteq_skips_l, submseteq_skips_r.
      rewrite <- Hp. apply submseteq_take.
Qed.

Lemma strict_pass_sub target bs : ∀ g chosen by_zip5,
  NoDup bs.*1 →
  (∀ z b, (z, b) ∈ bs → dict_get by_zip5 z = Some b) →
  let r := strict_pass shuffle target bs (g, chosen, by_zip5) in
  r.1.2 ++ mjoin r.2.*2 ⊆+ chosen ++ mjoin by_zip5.*2.
Proof.
  induction bs as [|[z b] bs IH]; intros g chosen by_zip5 Hnd Hget; cbn [strict_pass].
  - done.
  - csimpl in Hnd. apply NoDup_cons in Hnd as [Hz Hnd].
    case_bool_decide; [done|].
    pose proof (shuffle_perm g b) as Hp.
    destruct (shuffle g b) as [b' g']. cbn [fst] in Hp.
    destruct (dict_set_present by_zip5 z b) as (rest & E1 & E2); [apply Hget; left|].
    assert (∀ w z0 b0, (z0, b0) ∈ bs → dict_get (dict_set by_zip5 z w) z0 = Some b0)
      as Hget'.
    { intros w z0 b0 Hin. rewrite dict_get_set, decide_False.
      - apply Hget. by right.
      - intros ->. apply Hz. apply list_elem_of_fmap. by exists (z0, b0). }
    case_bool_decide.
    + cbv zeta. etrans; [apply IH; [done|apply Hget']|].
      apply submseteq_skips_l. rewrite E2, E1, Hp. done.
    + cbv zeta. etrans; [apply IH; [done|]|].
      { rewrite dict_set_set. apply Hget'. }
      rewrite dict_set_set, E2, E1, <- app_assoc.
      apply submseteq_skips_l. rewrite app_assoc. apply submseteq_skips_r.
      rewrite <- Hp. apply take_drop_sub. divmod (length b'). lia.
Qed.

Lemma sorted_buckets_snapshot (before : _ → _ → bool)
    (d : list (string * list candidate)) :
  NoDup d.*1 →
  NoDup (py_sorted before d).*1 ∧
  ∀ z b, (z, b) ∈ py_sorted before d → dict_get d z = Some b.
Proof.
  intros Hnd. split.
  - by rewrite py_sorted_perm.
  - intros z b Hin. rewrite py_sorted_perm in Hin. by apply dict_get_elem_of.
Qed.

Lemma remaining_sub (chosen candidates : list candidate) :
  NoDup candidates → chosen ⊆+ candidates →
  chosen ++ filter (λ r, r ∉ chosen) candidates ⊆+ candidates.
Proof.
  intros Hnd Hsub. apply NoDup_submseteq.
  - apply NoDup_app. split_and!.
    + apply (submseteq_NoDup_fmap id) in Hsub; by rewrite ?list_fmap_id in *.
    + intros x Hx [Hni _]%list_elem_of_filter. done.
    + by apply NoDup_filter.
  - intros x [Hx|[_ Hx]%list_elem_of_filter]%elem_of_app; [|done].
    by eapply elem_of_submseteq.
Qed.

Lemma pick_optimized_sub g candidates target strict_150 :
  NoDup candidates →
  (pick_optimized shuffle g candidates target strict_150).1 ⊆+ candidates.
Proof.
  intros Hnd. unfold pick_optimized. case_bool_decide; [apply submseteq_nil_l|].
  set (t := Z.to_nat target).
  match goal with |- context [if strict_150 then ?a else ?b] =>
    assert ((if strict_150 then a else b).2 ⊆+ candidates) as H1 end.
  { destruct strict_150.
    - unfold strict_first_pass.
      destruct (sorted_buckets_snapshot bucket_before (group_by c_ZIP5 candidates)
                  (group_by_keys_NoDup _ _)) as [Hk Hg].
      pose proof (strict_pass_sub t _ g [] _ Hk Hg) as Hs. cbv zeta in Hs.
      destruct (strict_pass shuffle t _ _) as [[g1 chosen1] by1].
      cbn [fst snd] in Hs. rewrite app_nil_l, group_by_perm in Hs.
      case_bool_decide.
      + etrans; [apply fill_pass_sub|]. by rewrite (join_values_perm _ _ (py_sorted_perm _ _)).
      + cbn [snd]. etrans; [|apply Hs]. apply submseteq_inserts_r. done.
    - etrans; [apply fill_pass_sub|].
      by rewrite app_nil_l, (join_values_perm _ _ (py_sorted_perm _ _)), group_by_perm. }
  destruct (if strict_150 then _ else _) as [g1 chosen1]. cbn [snd] in H1.
  case_bool_decide.
  - match goal with |- context [fill_pass shuffle t ?bs ?st] =>
      pose proof (fill_pass_sub t bs g1 chosen1) as H2;
      destruct (fill_pass shuffle t bs st) as [g2 chosen2] end.
    cbn [fst snd] in *. etrans; [apply submseteq_take|]. etrans; [apply H2|].
    rewrite (join_values_perm _ _ (py_sorted_perm _ _)), group_by_perm.
    by apply remaining_sub.
  - cbn [fst]. etrans; [apply submseteq_take|done].
Qed.
End selector_facts.

(** C5 (amended). For candidates kept by [process_rows] from any sources and
    every integer target, the selection has length at most max(target, 0),
    is empty when target <= 0, and holds every dedup key at most once. *)
Theorem pick_optimized_selection {rng : Type}
    (shuffle : rng → list candidate → list candidate * rng)
    (shuffle_perm : ∀ g l, (shuffle g l).1 ≡ₚ l)
    (g : rng) (tracker : list ((string * string) * row)) (pol : policy)
    (sources : list (list row * bucket_name)) (target : Z) (strict_150 : bool) :
  let st := foldl (λ st src, process_rows tracker pol src.1 src.2 st) ingest_init sources in
  let sel := (pick_optimized shuffle g (all_candidates st) target strict_150).1 in
  (Z.of_nat (length sel) ≤ Z.max target 0)%Z ∧
  ((target ≤ 0)%Z → sel = []) ∧
  NoDup (cand_key <$> sel).
Proof.
  cbv zeta.
  set (st := foldl _ ingest_init sources).
  assert (ingest_inv st) as [Hnd _].
  { unfold st. generalize ingest_init_inv. generalize ingest_init.
    induction sources as [|[rows b] sources IH]; intros st0 H0; csimpl; [done|].
    apply IH. by apply process_rows_inv. }
  split_and!.
  - unfold pick_optimized. case_bool_decide; cbn [fst length]; [lia|].
    repeat match goal with |- context [let '(_, _) := ?x in _] => destruct x end.
    cbn [fst]. rewrite length_take. lia.
  - intros Ht. unfold pick_optimized. by rewrite bool_decide_eq_true_2.
  - eapply submseteq_NoDup_fmap; [|exact Hnd].
    apply pick_optimized_sub; [done|]. by eapply NoDup_fmap_1.
Qed.

Lemma pick_optimized_selection_witness :
  let shuffle := λ (g : unit) (l : list candidate), (reverse l, g) in
  let src1 := [[("Property Address", "1 Main St"); ("Primary Name", "Jane Doe");
                ("MAIL ZIP", "95835")];
               [("Property Address", "7 Oak Ave"); ("Primary Name", "Mary Jane");
                ("Owner ZIP", "95630")]] in
  let src2 := [[("Property Address", "1  MAIN ST"); ("Primary Name", "jane doe");
                ("MAIL ZIP", "95835")]] in
  let st := foldl (λ st src, process_rows [] (Policy (Some 0%Z) None 0 1) src.1 src.2 st)
              ingest_init [(src1, MAND); (src2, POOL)] in
  let sel := (pick_optimized shuffle () (all_candidates st) 5 true).1 in
  (Z.of_nat (length sel) ≤ Z.max 5 0)%Z ∧ ((5 ≤ 0)%Z → sel = []) ∧
  NoDup (cand_key <$> sel).
Proof.
  intros shuffle src1 src2.
  apply (pick_optimized_selection shuffle (λ g l, reverse_Permutation l) ()
           [] (Policy (Some 0%Z) None 0 1) [(src1, MAND); (src2, POOL)] 5 true).
Defined.

(** C5 as stated fails for a negative target: the selection is empty, and
    its length 0 is not at most the target. *)
Lemma pick_optimized_negative_target_counterexample :
  let shuffle := λ (g : unit) (l : list candidate), (reverse l, g) in
  let c := Candidate "1 Main St" "Jane Doe" "95835"
             [("Property Address", "1 Main St"); ("Primary Name", "Jane Doe");
              ("MAIL ZIP", "95835")] in
  let sel := (pick_optimized shuffle () [c] (-1) false).1 in
  sel = [] ∧ ¬ (Z.of_nat (length sel) ≤ -1)%Z.
Proof.
  intros shuffle c sel. assert (sel = []) as -> by (vm_compute; reflexivity).
  split; [reflexivity|cbn; lia].
Qed.

(** ** The first pass of the strict mode *)

Lemma count_zip5_app z l1 l2 : count_zip5 z (l1 ++ l2) = count_zip5 z l1 + count_zip5 z l2.
Proof. unfold count_zip5. by rewrite filter_app, length_app. Qed.

Lemma count_zip5_all z l : (∀ r, r ∈ l → c_ZIP5 r = z) → count_zip5 z l = length l.
Proof.
  unfold count_zip5. induction l as [|r l IH]; intros H; [done|].
  rewrite filter_cons, decide_True by (apply H; left). csimpl.
  f_equal. apply IH. intros r' Hr'. apply H. by right.
Qed.

Lemma count_zip5_none z l : (∀ r, r ∈ l → c_ZIP5 r ≠ z) → count_zip5 z l = 0.
Proof.
  unfold count_zip5. induction l as [|r l IH]; intros H; [done|].
  rewrite filter_cons, decide_False by (apply H; left).
  apply IH. intros r' Hr'. apply H. by right.
Qed.

(** The dictionary [group_by] builds, key by key. *)
Lemma group_by_from_get {A K} `{EqDecision K} (key : A → K) rows : ∀ d k,
  dict_get (foldl (λ d r, dict_set d (key r) (default [] (dict_get d (key r)) ++ [r])) d rows) k
  = if decide (filter (λ r, key r = k) rows = []) then dict_get d k
    else Some (default [] (dict_get d k) ++ filter (λ r, key r = k) rows).
Proof.
  induction rows as [|r rows IH]; intros d k; csimpl; [done|].
  rewrite IH, dict_get_set, filter_cons.
  destruct (decide (key r = k)) as [->|Hne].
  - rewrite (decide_False (P := _ :: _ = [])) by done.
    destruct (decide (filter _ rows = [])) as [->|_]; csimpl; [done|].
    by rewrite <- app_assoc.
  - done.
Qed.

Lemma group_by_get {A K} `{EqDecision K} (key : A → K) rows k b :
  dict_get (group_by key rows) k = Some b → b = filter (λ r, key r = k) rows.
Proof.
  unfold group_by. rewrite group_by_from_get. case_decide; [done|]. by intros [= <-].
Qed.

Lemma group_by_elem_of {A K} `{EqDecision K} (key : A → K) rows k b :
  (k, b) ∈ group_by key rows → b = filter (λ r, key r = k) rows.
Proof.
  intros Hin. apply group_by_get. apply dict_get_elem_of; [|done].
  apply group_by_keys_NoDup.
Qed.

Lemma elem_of_take_1 {A} (x : A) n l : x ∈ take n l → x ∈ l.
Proof. intros Hx. eapply elem_of_submseteq; [done|apply submseteq_take]. Qed.

Section strict_pass_facts.
Context {rng : Type} (shuffle : rng → list candidate → list candidate * rng).
Hypothesis shuffle_perm : ∀ g l, (shuffle g l).1 ≡ₚ l.

(** What each bucket contributes: its whole trays, capped by the room left
    under the target when the bucket is reached. *)
Lemma strict_pass_counts target bs : ∀ g chosen by_zip5,
  NoDup bs.*1 →
  (∀ z b, (z, b) ∈ bs → ∀ r, r ∈ b → c_ZIP5 r = z) →
  let chosen' := (strict_pass shuffle target bs (g, chosen, by_zip5)).1.2 in
  (∀ i z b, bs !! i = Some (z, b) →
     count_zip5 z chosen'
     = count_zip5 z chosen
       + (length b / 150 * 150)
         `min` (target - length chosen
                - sum_list_with (λ kv, length kv.2 / 150 * 150) (take i bs))) ∧
  (∀ z, z ∉ bs.*1 → count_zip5 z chosen' = count_zip5 z chosen).
Proof.
  induction bs as [|[z0 b0] bs IH]; intros g chosen by_zip5 Hnd Hzip; cbn [strict_pass].
  - split; [by intros i z b ?|done].
  - csimpl in Hnd. apply NoDup_cons in Hnd as [Hz0 Hnd].
    assert (∀ z b, (z, b) ∈ bs → ∀ r, r ∈ b → c_ZIP5 r = z) as Hzip'.
    { intros z b Hin. apply Hzip. by right. }
    case_bool_decide as Hfull.
    { cbn [fst snd]. split; [|done]. intros i z b _. lia. }
    pose proof (shuffle_perm g b0) as Hp.
    destruct (shuffle g b0) as [b' g']. cbn [fst] in Hp.
    assert (length b' = length b0) as Hlen by (by rewrite Hp).
    assert (∀ r, r ∈ b' → c_ZIP5 r = z0) as Hb'.
    { intros r Hr. rewrite Hp in Hr. eapply Hzip; [left|done]. }
    rewrite Hlen. divmod (length b0).
    case_bool_decide as Htake.
    + destruct (IH g' chosen (dict_set by_zip5 z0 b') Hnd Hzip') as [IH1 IH2].
      cbv zeta in IH1, IH2 |- *. split.
      * intros [|i] z b Hi.
        -- injection Hi as -> ->. rewrite IH2 by done. lia.
        -- cbn [lookup list_lookup] in Hi. rewrite (IH1 i z b Hi). csimpl. lia.
      * intros z Hz. apply not_elem_of_cons in Hz as [_ Hz]. by apply IH2.
    + match goal with |- context [strict_pass shuffle target bs (g', ?c, ?d)] =>
        destruct (IH g' c d Hnd Hzip') as [IH1 IH2]; set (c1 := c) in * end.
      cbv zeta in IH1, IH2 |- *.
      set (k := (length b0 / 150 * 150) `min` (target - length chosen)) in *.
      assert (length (take k b') = k) as Hk by (rewrite length_take; lia).
      assert (length c1 = length chosen + k) as Hc1.
      { unfold c1. by rewrite length_app, Hk. }
      split.
      * intros [|i] z b Hi.
        -- injection Hi as -> ->. rewrite IH2 by done. unfold c1.
           rewrite count_zip5_app, (count_zip5_all z (take k b')).
           ++ rewrite Hk. csimpl. unfold k. lia.
           ++ intros r Hr. apply Hb'. by eapply elem_of_take_1.
        -- cbn [lookup list_lookup] in Hi. rewrite (IH1 i z b Hi). unfold c1 at 1.
           rewrite count_zip5_app, (count_zip5_none z (take k b')).
           ++ rewrite Hc1. csimpl. unfold k. lia.
           ++ intros r Hr Hrz. apply Hz0. apply list_elem_of_fmap.
              exists (z, b). split; [|by eapply list_elem_of_lookup_2].
              csimpl. rewrite <- Hrz. symmetry. apply Hb'. by eapply elem_of_take_1.
      * intros z Hz. apply not_elem_of_cons in Hz as [Hne Hz]. rewrite IH2 by done.
        unfold c1. rewrite count_zip5_app, (count_zip5_none z (take k b')); [lia|].
        intros r Hr Hrz. apply Hne. rewrite <- Hrz. apply Hb'. by eapply elem_of_take_1.
Qed.
End strict_pass_facts.

(** C6 (amended). In strict mode, a ZIP5 group with n candidates, met in the
    first pass with [room] places left under the target (the target minus
    the whole trays of the groups before it), has exactly
    min(floor(n/150)*150, room) of its members in the selection after the
    first pass, hence floor(n/150)*150 whenever that fits; the other members
    are not selected by the first pass. *)
Theorem strict_first_pass_contribution {rng : Type}
    (shuffle : rng → list candidate → list candidate * rng)
    (shuffle_perm : ∀ g l, (shuffle g l).1 ≡ₚ l)
    (g : rng) (candidates : list candidate) (target i : nat)
    (z : string) (b : list candidate) :
  py_sorted bucket_before (group_by c_ZIP5 candidates) !! i = Some (z, b) →
  let buckets := py_sorted bucket_before (group_by c_ZIP5 candidates) in
  let n := count_zip5 z candidates in
  let room := target - sum_list_with (λ kv, length kv.2 / 150 * 150) (take i buckets) in
  let chosen1 := (strict_first_pass shuffle g candidates target).1.2 in
  length b = n ∧
  count_zip5 z chosen1 = (n / 150 * 150) `min` room ∧
  (n / 150 * 150 ≤ room → count_zip5 z chosen1 = n / 150 * 150).
Proof.
  intros Hi. cbv zeta. unfold strict_first_pass.
  destruct (sorted_buckets_snapshot bucket_before (group_by c_ZIP5 candidates)
              (group_by_keys_NoDup _ _)) as [Hk Hg].
  assert (∀ z b, (z, b) ∈ py_sorted bucket_before (group_by c_ZIP5 candidates) →
                 b = filter (λ r, c_ZIP5 r = z) candidates) as Hb.
  { intros z' b' Hin. by apply group_by_get, Hg. }
  destruct (strict_pass_counts shuffle shuffle_perm target _ g []
              (group_by c_ZIP5 candidates) Hk) as [H1 _].
  { intros z' b' Hin r Hr. rewrite (Hb _ _ Hin) in Hr.
    by apply list_elem_of_filter in Hr as [? _]. }
  cbv zeta in H1. rewrite (H1 i z b Hi).
  assert (length b = count_zip5 z candidates) as ->.
  { rewrite (Hb z b); [done|]. by eapply list_elem_of_lookup_2. }
  cbn [length]. rewrite Nat.sub_0_r.
  change (count_zip5 z []) with 0. split_and!; [done|done|lia].
Qed.

Lemma strict_first_pass_contribution_witness :
  let shuffle := λ (g : unit) (l : list candidate), (reverse l, g) in
  let cands := (λ i, Candidate (pretty i +:+ " MAIN ST") "JANE DOE" "95835" [])
                 <$> seq 0 320 in
  let chosen1 := (strict_first_pass shuffle () cands 1000).1.2 in
  length cands = count_zip5 "95835" cands ∧
  count_zip5 "95835" chosen1
  = (count_zip5 "95835" cands / 150 * 150) `min` (1000 - 0) ∧
  (count_zip5 "95835" cands / 150 * 150 ≤ 1000 - 0 →
   count_zip5 "95835" chosen1 = count_zip5 "95835" cands / 150 * 150).
Proof.
  intros shuffle cands.
  apply (strict_first_pass_contribution shuffle (λ g l, reverse_Permutation l) ()
           cands 1000 0 "95835" cands).
  vm_compute. reflexivity.
Defined.

(** The example of the specification: 320 candidates of ZIP5 95835 under a
    target of 1000 give 300 in the first pass. *)
Example strict_first_pass_320 :
  let shuffle := λ (g : unit) (l : list candidate), (reverse l, g) in
  let cands := (λ i, Candidate (pretty i +:+ " MAIN ST") "JANE DOE" "95835" [])
                 <$> seq 0 320 in
  count_zip5 "95835" (strict_first_pass shuffle () cands 1000).1.2 = 300.
Proof. vm_compute. reflexivity. Qed.

(** C6 as stated fails when the target leaves less room than the whole
    trays: 150 candidates of one ZIP5 under a target of 100 give 100 in the
    first pass, not floor(150/150)*150 = 150. *)
Lemma strict_first_pass_capped_counterexample :
  let shuffle := λ (g : unit) (l : list candidate), (reverse l, g) in
  let cands := (λ i, Candidate (pretty i +:+ " MAIN ST") "JANE DOE" "95835" [])
                 <$> seq 0 150 in
  count_zip5 "95835" cands = 150 ∧
  count_zip5 "95835" (strict_first_pass shuffle () cands 100).1.2 = 100 ∧
  count_zip5 "95835" (strict_first_pass shuffle () cands 100).1.2
  ≠ count_zip5 "95835" cands / 150 * 150.
Proof. vm_compute. split_and!; [reflexivity|reflexivity|discriminate]. Qed.

(** ** Validation in [main] *)

Example main_completes :
  let shuffle := λ (g : unit) (l : list candidate), (reverse l, g) in
  let rows := [[("Property Address", "1 Main St"); ("Primary Name", "Jane Doe");
                ("MAIL ZIP", "95835")];
               [("Property Address", "7 Oak Ave"); ("Primary Name", "Mary Jane");
                ("Owner ZIP", "95630")]] in
  let w := BuildWorld [("a.csv", rows); ("b.csv", rows)] None "Aug2025" in
  let r := main shuffle () (BuildArgs "Campaign" 1 6 ["a.csv"] ["b.csv"] (Some 0%Z) None 0 true) w in
  r_status r = Completed ∧
  r_written r = ["Campaign_1_Aug2025/presort_report.csv";
                 "Campaign_1_Aug2025/presort_zip3_summary.csv";
                 "Campaign_1_Aug2025/postage_estimate.csv";
                 "Campaign_1_Aug2025/campaign_master.csv"] ∧
  c_ZIP5 <$> r_selection r = ["95630"; "95835"].
Proof. vm_compute. by split_and!. Qed.

(** C9. If priorExact and priorMax are both set, or more than 4 mandatory
    or more than 2 optional sources are given, or the mandatory sources leave
    more candidates than targetSize after filtering, the build ends with a
    non-zero exit status and has written no output file. *)
Theorem main_rejects_invalid_configuration {rng : Type}
    (shuffle : rng → list candidate → list candidate * rng) (g : rng)
    (args : build_args) (w : build_world) :
  (is_Some (a_prior_exact args) ∧ is_Some (a_prior_max args)) ∨
  4 < length (a_mandatory args) ∨
  2 < length (a_optional args) ∨
  (∃ n, mandatory_survivors args w = Some n ∧ (a_target_size args < Z.of_nat n)%Z) →
  exit_status (r_status (main shuffle g args w)) ≠ 0%Z ∧
  r_written (main shuffle g args w) = [].
Proof.
  intros H. unfold main.
  case_bool_decide; [done|]. case_bool_decide; [done|]. case_bool_decide; [done|].
  destruct H as [?|[?|[?|(n & Hn & Hlt)]]]; [done|lia|lia|].
  unfold mandatory_survivors in Hn.
  destruct (ingest_files _ _ w MAND _ _) as [st|]; [|done].
  injection Hn as <-. by rewrite bool_decide_eq_true_2.
Qed.

Lemma main_rejects_invalid_configuration_witness :
  let shuffle := λ (g : unit) (l : list candidate), (reverse l, g) in
  let rows := [[("Property Address", "1 Main St"); ("Primary Name", "Jane Doe");
                ("MAIL ZIP", "95835")];
               [("Property Address", "7 Oak Ave"); ("Primary Name", "Mary Jane");
                ("Owner ZIP", "95630")]] in
  let w := BuildWorld [("a.csv", rows)] None "Aug2025" in
  let args := BuildArgs "Campaign" 1 1 ["a.csv"] [] (Some 0%Z) None 0 true in
  exit_status (r_status (main shuffle () args w)) ≠ 0%Z ∧
  r_written (main shuffle () args w) = [].
Proof.
  intros shuffle rows w args.
  apply (main_rejects_invalid_configuration shuffle () args w).
  right. right. right. exists 2. split; [vm_compute; reflexivity|reflexivity].
Defined.
(** ** Strings *)

Lemma rstrip_cons a s :
  rstrip (String a s)
  = match rstrip s with
    | "" => if is_space a then "" else String a ""
    | r => String a r
    end.
Proof. done. Qed.

Lemma lstrip_head s :
  lstrip s = "" ∨ ∃ a t, lstrip s = String a t ∧ is_space a = false.
Proof.
  induction s as [|a s IH]; [by left|]. simpl.
  destruct (is_space a) eqn:Ea; [done|]. right. by exists a, s.
Qed.

Lemma rstrip_idem s : rstrip (rstrip s) = rstrip s.
Proof.
  induction s as [|a s IH]; [done|]. rewrite rstrip_cons.
  destruct (rstrip s) as [|b r] eqn:E.
  - destruct (is_space a) eqn:Ea; [done|]. rewrite rstrip_cons. simpl. by rewrite Ea.
  - rewrite rstrip_cons, IH. done.
Qed.

Lemma lstrip_rstrip_lstrip s : lstrip (rstrip (lstrip s)) = rstrip (lstrip s).
Proof.
  destruct (lstrip_head s) as [->|(a & t & -> & Ha)]; [done|].
  rewrite rstrip_cons. destruct (rstrip t); rewrite ?Ha; simpl; by rewrite ?Ha.
Qed.

(** [strip] is idempotent. *)
Lemma strip_idem s : strip (strip s) = strip s.
Proof. unfold strip. by rewrite lstrip_rstrip_lstrip, rstrip_idem. Qed.

Lemma strip_empty : strip "" = "".
Proof. done. Qed.

Lemma norm_space_strip s : norm_space (strip s) = norm_space s.
Proof. unfold norm_space. by rewrite strip_idem. Qed.

Lemma norm_key_strip a o : norm_key (strip a) (strip o) = norm_key a o.
Proof. unfold norm_key. by rewrite !norm_space_strip. Qed.

Lemma str_all_impl (p q : ascii → bool) s :
  (∀ a, p a → q a) → str_all p s → str_all q s.
Proof.
  intros Hpq. induction s as [|a s IH]; [done|]. simpl.
  intros [Ha Hs]%andb_True. apply andb_True. auto.
Qed.

Lemma rstrip_no_space s : str_all (λ a, negb (is_space a)) s → rstrip s = s.
Proof.
  induction s as [|a s IH]; [done|]. simpl str_all.
  intros [Ha Hs]%andb_True. rewrite rstrip_cons, (IH Hs).
  destruct s; [|done]. apply negb_True in Ha. by destruct (is_space a).
Qed.

Lemma strip_no_space s : str_all (λ a, negb (is_space a)) s → strip s = s.
Proof.
  intros Hs. unfold strip.
  assert (lstrip s = s) as ->; [|by apply rstrip_no_space].
  destruct s as [|a s]; [done|]. simpl in *.
  apply andb_True in Hs as [Ha _]. apply negb_True in Ha. by destruct (is_space a).
Qed.

Lemma is_digit_not_space a : is_digit a → negb (is_space a).
Proof.
  destruct a as [[] [] [] [] [] [] [] []]; vm_compute; done.
Qed.

Lemma strip_all_digits s : all_digits s → strip s = s.
Proof.
  intros Hs. apply strip_no_space. revert Hs. apply str_all_impl, is_digit_not_space.
Qed.

(** ** Dictionaries and rows *)

Section dict_general.
Context {K V : Type} `{EqDecision K}.
Implicit Types d : list (K * V).

Lemma dict_set_NoDup d k v : NoDup d.*1 → NoDup (dict_set d k v).*1.
Proof.
  induction d as [|[k0 v0] d IH]; csimpl.
  - intros _. apply NoDup_singleton.
  - rewrite NoDup_cons. intros [Hni Hnd]. destruct (decide (k0 = k)); csimpl.
    + by apply NoDup_cons.
    + apply NoDup_cons. split; [|auto].
      intros Hin. apply Hni. apply dict_get_is_Some in Hin.
      rewrite dict_get_set in Hin. rewrite decide_False in Hin by done.
      by apply dict_get_is_Some.
Qed.

Lemma dict_get_of_elem d k v : NoDup d.*1 → (k, v) ∈ d → dict_get d k = Some v.
Proof.
  induction d as [|[k0 v0] d IH]; csimpl; [by intros _ ?%elem_of_nil|].
  rewrite NoDup_cons. intros [Hni Hnd] [Heq|Hin]%elem_of_cons.
  - inversion Heq; subst. by rewrite decide_True.
  - rewrite decide_False; [auto|]. intros ->. apply Hni.
    apply list_elem_of_fmap. by exists (k, v).
Qed.

Lemma dict_get_Some_elem d k v : dict_get d k = Some v → (k, v) ∈ d.
Proof.
  induction d as [|[k0 v0] d IH]; csimpl; [done|].
  destruct (decide (k0 = k)) as [->|].
  - intros [= ->]. left.
  - intros ?. right. auto.
Qed.

Lemma elem_of_dict_set d k v kv : kv ∈ dict_set d k v → kv ∈ d ∨ kv = (k, v).
Proof.
  induction d as [|[k0 v0] d IH]; csimpl.
  - intros ->%list_elem_of_singleton. by right.
  - destruct (decide (k0 = k)) as [->|].
    + intros [->|?]%elem_of_cons; [by right|]. left. by right.
    + intros [->|Hin]%elem_of_cons; [left; left|].
      destruct (IH Hin); [left; by right|by right].
Qed.

Lemma dict_get_None d k : dict_get d k = None ↔ k ∉ d.*1.
Proof.
  rewrite <- dict_get_is_Some. rewrite <- eq_None_not_Some. done.
Qed.

(** Values inserted under their own key, one after the other, give back the
    dictionary they come from. *)
Lemma reindex_values (key : V → K) d acc :
  NoDup (acc.*1 ++ d.*1) → (∀ k v, (k, v) ∈ d → key v = k) →
  foldl (λ idx v, dict_set idx (key v) v) acc d.*2 = acc ++ d.
Proof.
  revert acc. induction d as [|[k v] d IH]; intros acc Hnd Hkey; csimpl.
  - by rewrite app_nil_r.
  - assert (key v = k) as -> by (apply Hkey; left).
    rewrite dict_set_keys_fresh.
    + rewrite IH.
      * by rewrite <- app_assoc.
      * rewrite fmap_app. csimpl. by rewrite <- app_assoc.
      * intros k' v' Hin. apply Hkey. by right.
    + csimpl in Hnd. apply NoDup_app in Hnd as (_ & Hd & _).
      intros Hin. apply (Hd k Hin). left.
Qed.
End dict_general.

Lemma strip_rows_fmap rows : strip_rows rows = strip_row <$> rows.
Proof. done. Qed.

Lemma row_get_strip_row r c : row_get (strip_row r) c = strip (row_get r c).
Proof.
  unfold row_get, strip_row. rewrite (dict_get_fmap_values strip).
  by destruct (dict_get r c).
Qed.

Lemma strip_row_keys r : (strip_row r).*1 = r.*1.
Proof. unfold strip_row. rewrite <- list_fmap_compose. done. Qed.

Lemma row_get_absent (r : row) c : c ∉ r.*1 → row_get r c = "".
Proof. intros Hc. unfold row_get. by rewrite (dict_get_notin r c Hc). Qed.

Lemma project_row_keys headers r : (project_row headers r).*1 = headers.
Proof.
  unfold project_row. rewrite <- list_fmap_compose. csimpl. apply list_fmap_id.
Qed.

Lemma row_get_project headers r c :
  row_get (project_row headers r) c = if decide (c ∈ headers) then row_get r c else "".
Proof.
  unfold project_row, row_get. induction headers as [|h hs IH]; csimpl; [done|].
  destruct (decide (h = c)) as [->|Hne].
  - by rewrite decide_True by left.
  - rewrite IH. destruct (decide (c ∈ hs)).
    + by rewrite decide_True by (by right).
    + rewrite decide_False; [done|]. intros [?|?]%elem_of_cons; congruence.
Qed.

(** A row written under a header that has all its columns reads as before. *)
Lemma project_row_same headers (r : row) :
  Forall (λ kv, kv.1 ∈ headers) r → same_fields (project_row headers r) r.
Proof.
  intros Hr c. rewrite row_get_project. case_decide as Hc; [done|].
  symmetry. apply row_get_absent. intros (kv & -> & Hin)%list_elem_of_fmap.
  rewrite Forall_forall in Hr. apply Hc, (Hr _ Hin).
Qed.

Lemma same_fields_strip r r' : same_fields r r' → same_fields (strip_row r) (strip_row r').
Proof. intros H c. by rewrite !row_get_strip_row, H. Qed.

Lemma strip_row_idem_fields r : same_fields (strip_row (strip_row r)) (strip_row r).
Proof. intros c. by rewrite !row_get_strip_row, strip_idem. Qed.

Lemma same_fields_trans r1 r2 r3 : same_fields r1 r2 → same_fields r2 r3 → same_fields r1 r3.
Proof. intros H1 H2 c. by rewrite H1. Qed.

Lemma same_fields_sym r1 r2 : same_fields r1 r2 → same_fields r2 r1.
Proof. intros H c. by rewrite H. Qed.

Lemma get_first_same r r' cols : same_fields r r' → get_first r cols = get_first r' cols.
Proof. intros H. induction cols as [|c cols IH]; [done|]. simpl. by rewrite H, IH. Qed.

Lemma row_key_same r r' : same_fields r r' → row_key r = row_key r'.
Proof. intros H. unfold row_key. by rewrite !H. Qed.

Lemma write_csv_Some rows headers :
  Forall (λ r : row, Forall (λ kv, kv.1 ∈ headers) r) rows →
  write_csv rows headers = Some (project_row headers <$> rows).
Proof. intros H. unfold write_csv. by rewrite bool_decide_eq_true_2. Qed.

Lemma write_csv_inv rows headers t :
  write_csv rows headers = Some t →
  t = project_row headers <$> rows
  ∧ Forall (λ r : row, Forall (λ kv, kv.1 ∈ headers) r) rows.
Proof.
  unfold write_csv. case_bool_decide; [|done]. by intros [= <-].
Qed.

(** ** The index of the tracker *)

Lemma filter_fmap_agree {A B} (P : B → Prop) (Q : A → Prop)
    `{∀ x, Decision (P x)} `{∀ x, Decision (Q x)} (g : A → B) (l : list A) :
  (∀ x, x ∈ l → P (g x) ↔ Q x) → filter P (g <$> l) = g <$> filter Q l.
Proof.
  induction l as [|x l IH]; intros Hl; csimpl; [done|].
  rewrite !filter_cons. rewrite IH by (intros y Hy; apply Hl; by right).
  destruct (decide (Q x)) as [Hq|Hq].
  - rewrite decide_True; [done|]. apply Hl; [left|done].
  - rewrite decide_False; [done|]. intros Hp. apply Hq, Hl; [left|done].
Qed.

Lemma tracker_index_snoc l r :
  tracker_index (l ++ [r]) = dict_set (tracker_index l) (row_key r) r.
Proof. unfold tracker_index. by rewrite foldl_snoc. Qed.

(** A key reads the last row of the file that has it. *)
Lemma tracker_index_get l k :
  dict_get (tracker_index l) k = last (filter (λ r, row_key r = k) l).
Proof.
  induction l as [|r l IH] using rev_ind; [done|].
  rewrite tracker_index_snoc, dict_get_set, filter_app, filter_cons, filter_nil.
  destruct (decide (row_key r = k)) as [Hk|Hk].
  - by rewrite last_snoc.
  - by rewrite app_nil_r.
Qed.

Lemma tracker_index_NoDup l : NoDup (tracker_index l).*1.
Proof.
  induction l as [|r l IH] using rev_ind; [constructor|].
  rewrite tracker_index_snoc. by apply dict_set_NoDup.
Qed.

Lemma tracker_index_keyed l k r : (k, r) ∈ tracker_index l → row_key r = k ∧ r ∈ l.
Proof.
  induction l as [|r0 l IH] using rev_ind; [by intros ?%elem_of_nil|].
  rewrite tracker_index_snoc. intros [Hin|[= -> ->]]%elem_of_dict_set.
  - destruct (IH Hin). split; [done|]. apply elem_of_app. by left.
  - split; [done|]. apply elem_of_app. right. left.
Qed.

(** Reading the rows of an index back gives the same index. *)
Lemma tracker_index_values l : tracker_index (tracker_index l).*2 = tracker_index l.
Proof.
  unfold tracker_index at 1.
  rewrite (reindex_values row_key (tracker_index l) []); [done| |].
  - apply tracker_index_NoDup.
  - intros k v Hin. by apply tracker_index_keyed in Hin as [? _].
Qed.

Lemma tracker_index_fmap (g : row → row) l k :
  (∀ r, r ∈ l → row_key (g r) = row_key r) →
  dict_get (tracker_index (g <$> l)) k = g <$> dict_get (tracker_index l) k.
Proof.
  intros Hg. rewrite !tracker_index_get.
  rewrite (filter_fmap_agree _ (λ r, row_key r = k)).
  - by rewrite fmap_last.
  - intros r Hr. by rewrite Hg.
Qed.

(** ** One finalize run *)

Lemma elem_of_exist_pair_campaign p l :
  p ∈ exist_pair_campaign l ↔ ∃ r, r ∈ l ∧ p = logged_pair r.
Proof.
  unfold exist_pair_campaign. rewrite elem_of_list_to_set, list_elem_of_fmap.
  split; intros (r & ? & ?); exists r; done.
Qed.

Lemma elem_of_exist_ref x l :
  x ∈ exist_ref l ↔ x ≠ "" ∧ ∃ r, r ∈ l ∧ x = log_ref r.
Proof.
  unfold exist_ref. rewrite elem_of_list_to_set, list_elem_of_filter, list_elem_of_fmap.
  split; intros (? & r & ? & ?); (split; [done|]); exists r; done.
Qed.

Lemma logged_pair_same r r' : same_fields r r' → logged_pair r = logged_pair r'.
Proof.
  intros H. unfold logged_pair, log_addr, log_owner.
  by rewrite !(get_first_same r r'), H.
Qed.

Lemma log_ref_same r r' : same_fields r r' → log_ref r = log_ref r'.
Proof. intros H. unfold log_ref. by rewrite (get_first_same r r'). Qed.

Lemma log_headers_complete (all_rows : list row) :
  Forall (λ r : row, Forall (λ kv, kv.1 ∈ log_headers all_rows) r) all_rows.
Proof.
  apply Forall_forall. intros r Hr. apply Forall_forall. intros kv Hkv.
  assert (kv.1 ∈ py_set (all_rows ≫= λ r : row, r.*1)) as Hin.
  { unfold py_set. apply elem_of_remove_dups, list_elem_of_bind.
    exists r. split; [|done]. apply list_elem_of_fmap. by exists kv. }
  unfold log_headers. apply elem_of_app.
  destruct (decide (kv.1 ∈ log_pref)).
  - left. by apply list_elem_of_filter.
  - right. by apply list_elem_of_filter.
Qed.

(** The entry of a mapping row is remembered, once logged and read back,
    under the pair the mapping row is looked up by. *)
Lemma logged_pair_log_entry today name cn zip_idx r :
  logged_pair (strip_row (log_entry today name cn zip_idx r))
  = (norm_key (mapping_addr r) (mapping_owner r), strip cn).
Proof.
  unfold logged_pair, log_addr, log_owner, get_first.
  rewrite !row_get_strip_row.
  change (row_get (log_entry today name cn zip_idx r) "PropertyAddress")
    with (mapping_addr r).
  change (row_get (log_entry today name cn zip_idx r) "OwnerName")
    with (mapping_owner r).
  change (row_get (log_entry today name cn zip_idx r) "CampaignNumber") with cn.
  change (row_get (log_entry today name cn zip_idx r) "property_address") with "".
  change (row_get (log_entry today name cn zip_idx r) "Address") with "".
  change (row_get (log_entry today name cn zip_idx r) "owner") with "".
  change (row_get (log_entry today name cn zip_idx r) "Owner") with "".
  rewrite strip_empty, !str_or_empty, strip_idem. by rewrite norm_key_strip.
Qed.

Lemma omap_nil_iff {A B} (f : A → option B) l : omap f l = [] ↔ Forall (λ x, f x = None) l.
Proof.
  induction l as [|x l IH]; csimpl; [by split; [constructor|]|].
  destruct (f x) eqn:E; csimpl.
  - split; [done|]. intros H. apply Forall_cons in H as [? _]. congruence.
  - rewrite IH. split; [by constructor|]. by intros [_ ?]%Forall_cons.
Qed.

(** What is appended are the entries of the mapping rows not logged yet. *)
Lemma rows_to_add_filter today name cn existing zip_idx rows :
  rows_to_add today name cn false existing zip_idx rows
  = log_entry today name cn zip_idx
      <$> filter (λ r, already_logged (exist_pair_campaign existing) (exist_ref existing)
                         cn r = false) rows.
Proof.
  unfold rows_to_add. induction rows as [|r rows IH]; [done|].
  csimpl. rewrite filter_cons.
  destruct (already_logged _ _ cn r) eqn:E; csimpl; csimpl in IH; by rewrite IH.
Qed.

(** Once the rows to add are in the log, every row of the mapping counts as
    logged. *)
Lemma all_logged_after today name cn zip_idx old to_add headers r :
  let existing := strip_rows old in
  let existing' := strip_rows (project_row headers <$> (existing ++ to_add)) in
  Forall (λ x : row, Forall (λ kv, kv.1 ∈ headers) x) (existing ++ to_add) →
  already_logged (exist_pair_campaign existing) (exist_ref existing) cn r = true
  ∨ log_entry today name cn zip_idx r ∈ to_add →
  already_logged (exist_pair_campaign existing') (exist_ref existing') cn r = true.
Proof.
  intros existing existing' Hh Hr.
  assert (∀ x, x ∈ existing ++ to_add →
            strip_row (project_row headers x) ∈ existing'
            ∧ same_fields (strip_row (project_row headers x)) (strip_row x)) as Hback.
  { intros x Hx. split.
    - unfold existing'. rewrite strip_rows_fmap. apply list_elem_of_fmap.
      eexists. split; [done|]. apply list_elem_of_fmap. by exists x.
    - apply same_fields_strip, project_row_same. rewrite Forall_forall in Hh. auto. }
  assert (∀ x, x ∈ existing → same_fields (strip_row x) x) as Hold.
  { intros x Hx. unfold existing in Hx. rewrite strip_rows_fmap in Hx.
    apply list_elem_of_fmap in Hx as (x0 & -> & _). apply strip_row_idem_fields. }
  unfold already_logged in *.
  destruct Hr as [Hr|Hr].
  - apply orb_true_iff in Hr as [Hr|Hr]; apply orb_true_iff; [left|right].
    + apply bool_decide_eq_true in Hr. apply bool_decide_eq_true.
      apply elem_of_exist_pair_campaign in Hr as (x & Hx & ->).
      apply elem_of_exist_pair_campaign.
      destruct (Hback x) as [Hin Hs]; [apply elem_of_app; by left|].
      eexists. split; [exact Hin|]. symmetry. apply logged_pair_same.
      eapply same_fields_trans; [exact Hs|]. by apply Hold.
    + apply andb_true_iff in Hr as [Ht Hr]. rewrite Ht. simpl.
      apply bool_decide_eq_true in Hr. apply bool_decide_eq_true.
      apply elem_of_exist_ref in Hr as (Hne & x & Hx & Hrx).
      apply elem_of_exist_ref. split; [done|].
      destruct (Hback x) as [Hin Hs]; [apply elem_of_app; by left|].
      eexists. split; [exact Hin|]. rewrite Hrx. symmetry. apply log_ref_same.
      eapply same_fields_trans; [exact Hs|]. by apply Hold.
  - apply orb_true_iff. left. apply bool_decide_eq_true.
    apply elem_of_exist_pair_campaign.
    destruct (Hback _ (proj2 (elem_of_app _ _ _) (or_intror Hr))) as [Hin Hs].
    eexists. split; [exact Hin|].
    rewrite (logged_pair_same _ _ Hs). symmetry. apply logged_pair_log_entry.
Qed.

(** ** What a finalize run leaves on disk *)

Lemma folder_at_set_log w dir rows d :
  folder_at (set_log w dir rows) d
  = if decide (dir = d)
    then Folder (f_mapping_ref (folder_at w dir)) (f_mapping (folder_at w dir))
           (f_master (folder_at w dir)) (Some rows) (f_markers (folder_at w dir))
    else folder_at w d.
Proof.
  unfold folder_at, set_log. cbn [lw_folders]. rewrite dict_get_set.
  by destruct (decide (dir = d)).
Qed.

Lemma folder_at_write_marker w dir m d :
  f_mapping_ref (folder_at (write_marker w dir m) d) = f_mapping_ref (folder_at w d)
  ∧ f_mapping (folder_at (write_marker w dir m) d) = f_mapping (folder_at w d)
  ∧ f_master (folder_at (write_marker w dir m) d) = f_master (folder_at w d)
  ∧ f_log (folder_at (write_marker w dir m) d) = f_log (folder_at w d).
Proof.
  unfold write_marker, folder_at. destruct (dict_get (lw_folders w) dir) as [f|] eqn:E; [|done].
  cbn [lw_folders]. rewrite dict_get_set. destruct (decide (dir = d)) as [<-|]; [|done].
  by rewrite E.
Qed.

Lemma same_sources_refl w : same_sources w w.
Proof. by split. Qed.

Lemma same_sources_trans w1 w2 w3 :
  same_sources w1 w2 → same_sources w2 w3 → same_sources w1 w3.
Proof.
  intros [H1 H1'] [H2 H2']. split; [congruence|]. intros d.
  destruct (H1' d) as (?&?&?), (H2' d) as (?&?&?). split_and!; congruence.
Qed.

Lemma same_sources_set_log w dir rows : same_sources w (set_log w dir rows).
Proof.
  split; [done|]. intros d. rewrite folder_at_set_log.
  by destruct (decide (dir = d)) as [<-|].
Qed.

Lemma same_sources_write_marker w dir m : same_sources w (write_marker w dir m).
Proof.
  split.
  - unfold write_marker. by destruct (dict_get _ _).
  - intros d. destruct (folder_at_write_marker w dir m d) as (?&?&?&?). done.
Qed.

Lemma same_sources_find_mapping args w w' :
  same_sources w w' → find_mapping args w' = find_mapping args w.
Proof.
  intros [Hc Hf]. unfold find_mapping. rewrite Hc.
  destruct (Hf (fa_campaign_dir args)) as (-> & -> & _). done.
Qed.

(** The files a run that gets to its writes leaves behind. *)
Lemma commit_run_inv today args w to_add w1 :
  commit_run today args w to_add = Some w1 →
  let all_rows := existing_log args w ++ to_add in
  let final_rows := tracker_after today (read_ledger w) to_add in
  same_sources w w1
  ∧ (∀ d, f_log (folder_at w1 d)
          = if decide (to_add ≠ [] ∧ fa_campaign_dir args = d)
            then Some (project_row (log_headers all_rows) <$> all_rows)
            else f_log (folder_at w d))
  ∧ lw_tracker w1 = Some (project_row (tracker_columns final_rows) <$> final_rows)
  ∧ Forall (λ r : row, Forall (λ kv, kv.1 ∈ tracker_columns final_rows) r) final_rows.
Proof.
  intros Hrun all_rows final_rows. unfold commit_run in Hrun.
  fold all_rows in Hrun.
  set (w0 := match to_add with
             | [] => Some w
             | _ => set_log w (fa_campaign_dir args)
                      <$> write_csv all_rows (log_headers all_rows)
             end) in Hrun.
  assert (∃ w', w0 = Some w' ∧ same_sources w w' ∧ lw_tracker w' = lw_tracker w
            ∧ ∀ d, f_log (folder_at w' d)
                   = if decide (to_add ≠ [] ∧ fa_campaign_dir args = d)
                     then Some (project_row (log_headers all_rows) <$> all_rows)
                     else f_log (folder_at w d)) as (w' & Hw0 & Hs & Ht & Hl).
  { unfold w0. destruct to_add as [|e to_add].
    - exists w. split_and!; [done|apply same_sources_refl|done|].
      intros d. rewrite decide_False; [done|]. by intros [? _].
    - rewrite (write_csv_Some _ _ (log_headers_complete _)). csimpl.
      eexists. split_and!; [done|apply same_sources_set_log|done|].
      intros d. rewrite folder_at_set_log.
      destruct (decide (fa_campaign_dir args = d)).
      + by rewrite decide_True.
      + rewrite decide_False; [done|]. by intros [_ ?]. }
  rewrite Hw0 in Hrun. csimpl in Hrun.
  unfold read_ledger in final_rows. rewrite Ht in Hrun. fold final_rows in Hrun.
  destruct (write_csv final_rows (tracker_columns final_rows)) as [t|] eqn:Ew; [|done].
  apply write_csv_inv in Ew as [-> Hkeys]. csimpl in Hrun.
  injection Hrun as <-.
  set (w2 := rebuild_zip5_tally _).
  assert (same_sources w w2 ∧ lw_tracker w2
            = Some (project_row (tracker_columns final_rows) <$> final_rows)
          ∧ ∀ d, folder_at w2 d = folder_at w' d) as (Hs2 & Ht2 & Hf2).
  { split; [|split]; [|done|done]. destruct Hs as [Hc Hf]. split; [done|]. apply Hf. }
  destruct (fa_write_marker args).
  - split; [|split; [|split]]; [| | |done].
    + eapply same_sources_trans; [exact Hs2|apply same_sources_write_marker].
    + intros d. destruct (folder_at_write_marker w2 (fa_campaign_dir args)
                            (fa_marker_name args) d) as (_ & _ & _ & ->).
      by rewrite Hf2.
    + unfold write_marker. by destruct (dict_get (lw_folders w2) (fa_campaign_dir args)).
  - split; [|split; [|split]]; [done| |done|done]. intros d. by rewrite Hf2.
Qed.

(** ** Running finalize again *)

Lemma elem_of_index_values l (r : row) : r ∈ (tracker_index l).*2 → r ∈ l.
Proof.
  intros (kv & -> & Hin)%list_elem_of_fmap. destruct kv as [k v].
  by apply tracker_index_keyed in Hin as [_ ?].
Qed.

(** The rows read from a tracker written by the script can be written back
    under the columns the script computes for them. *)
Lemma write_back_columns columns rows0 :
  let V := (tracker_index (strip_rows (project_row columns <$> rows0))).*2 in
  Forall (λ r : row, Forall (λ kv, kv.1 ∈ tracker_columns V) r) V.
Proof.
  intros V.
  assert (∀ r, r ∈ V → r.*1 = columns) as Hkeys.
  { intros r Hr%elem_of_index_values. rewrite strip_rows_fmap in Hr.
    apply list_elem_of_fmap in Hr as (r1 & -> & Hr1).
    apply list_elem_of_fmap in Hr1 as (r0 & -> & _).
    by rewrite strip_row_keys, project_row_keys. }
  apply Forall_forall. intros r Hr. apply Forall_forall. intros kv Hkv.
  unfold tracker_columns. destruct V as [|r0 V'] eqn:EV; [by apply elem_of_nil in Hr|].
  rewrite (Hkeys r0) by left. rewrite <- (Hkeys r Hr).
  apply elem_of_app. destruct (decide (kv.1 ∈ tracker_headers)); [by left|right].
  apply list_elem_of_filter. split; [done|]. apply list_elem_of_fmap. by exists kv.
Qed.

(** Written back and read again, the rows of an index read as before. *)
Lemma re_read_same columns rows (r : row) :
  r ∈ strip_rows rows → Forall (λ kv, kv.1 ∈ columns) r →
  same_fields (strip_row (project_row columns r)) r.
Proof.
  intros Hr Hc. eapply same_fields_trans.
  - apply same_fields_strip, project_row_same, Hc.
  - rewrite strip_rows_fmap in Hr. apply list_elem_of_fmap in Hr as (r0 & -> & _).
    apply strip_row_idem_fields.
Qed.

Lemma re_read_index columns rows k :
  let V := (tracker_index (strip_rows rows)).*2 in
  Forall (λ r : row, Forall (λ kv, kv.1 ∈ columns) r) V →
  dict_get (tracker_index (strip_rows (project_row columns <$> V))) k
  = (λ r, strip_row (project_row columns r)) <$> dict_get (tracker_index (strip_rows rows)) k.
Proof.
  intros V HV. rewrite strip_rows_fmap, <- list_fmap_compose.
  rewrite (tracker_index_fmap (strip_row ∘ project_row columns)).
  - unfold V. by rewrite tracker_index_values.
  - intros r Hr. apply row_key_same, (re_read_same _ rows).
    + by apply elem_of_index_values.
    + rewrite Forall_forall in HV. by apply HV.
Qed.

(** A run that finds nothing to add leaves the log alone and every count in
    the ledger as it reads it. *)
Lemma commit_nothing today args w columns rows0 :
  lw_tracker w = Some (project_row columns <$> rows0) →
  ∃ w2, commit_run today args w [] = Some w2
    ∧ (∀ d, f_log (folder_at w2 d) = f_log (folder_at w d))
    ∧ ∀ k, ledger_count w2 k = ledger_count w k.
Proof.
  intros Ht.
  assert (default [] (lw_tracker w) = project_row columns <$> rows0) as HT
    by (by rewrite Ht).
  pose proof (write_back_columns columns rows0) as Hcols. cbv zeta in Hcols.
  destruct (commit_run today args w []) as [w2|] eqn:Hrun.
  - exists w2. split; [done|].
    apply commit_run_inv in Hrun as (_ & Hlog & Ht2 & Hk). split.
    + intros d. rewrite Hlog. rewrite decide_False; [done|]. by intros [? _].
    + intros k. unfold ledger_count, ledger_record, read_ledger at 1. rewrite Ht2.
      change (tracker_after today (read_ledger w) [])
        with (tracker_index (read_ledger w)).*2 in *.
      unfold read_ledger in *. rewrite HT in *.
      set (C := tracker_columns _) in *.
      change (default [] (Some ?x)) with x. rewrite re_read_index by done.
      destruct (dict_get _ k) as [r|] eqn:Er; [|done].
      change (Some (row_get (strip_row (project_row C r)) "CampaignCount")
              = Some (row_get r "CampaignCount")). f_equal.
      apply (re_read_same C (project_row columns <$> rows0)).
      * apply dict_get_Some_elem, tracker_index_keyed in Er. by destruct Er.
      * rewrite Forall_forall in Hk. apply Hk.
        apply list_elem_of_fmap. exists (k, r). split; [done|].
        by apply dict_get_Some_elem.
  - exfalso. unfold commit_run in Hrun. csimpl in Hrun.
    change (tracker_after today (strip_rows (default [] (lw_tracker w))) [])
      with (tracker_index (strip_rows (default [] (lw_tracker w)))).*2 in Hrun.
    rewrite HT in Hrun.
    rewrite (write_csv_Some _ _ Hcols) in Hrun. done.
Qed.

(** C1 (finalize is idempotent). A finalize run without [--force-recount]
    that ends normally can be repeated, on any day, with the same arguments
    and an unchanged mapping: the second run ends normally too, leaves every
    executed log with the row count the first run left, and leaves the
    [CampaignCount] of every ledger record as it was. What a run appends are
    exactly the entries of the mapping rows whose (dedup key, campaign
    number) pair and whose ref-code are not in the executed log yet; a row
    that is already there is skipped. *)
Theorem finalize_twice_same_as_once today today' args w w1 :
  fa_force_recount args = false →
  append_executed_and_update_tracker today args w = Some w1 →
  (∃ w2, append_executed_and_update_tracker today' args w1 = Some w2
     ∧ (∀ dir, log_count w2 dir = log_count w1 dir)
     ∧ (∀ k, ledger_count w2 k = ledger_count w1 k))
  ∧ ∀ mapping_rows,
      to_add_of today args w mapping_rows
      = log_entry today (campaign_name_of args) (campaign_number_of args)
          (build_zip_index_from_master (folder_at w (fa_campaign_dir args)))
        <$> filter (λ r, already_logged (exist_pair_campaign (existing_log args w))
                           (exist_ref (existing_log args w))
                           (campaign_number_of args) r = false) mapping_rows.
Proof.
  intros Hforce Hrun. split; cycle 1.
  { intros rows. unfold to_add_of. rewrite Hforce. apply rows_to_add_filter. }
  unfold append_executed_and_update_tracker in *.
  destruct (find_mapping args w) as [mapping|] eqn:Em; cycle 1.
  { injection Hrun as <-. rewrite Em. by exists w. }
  destruct (truthy (campaign_number_of args)) eqn:Ec; cycle 1.
  { injection Hrun as <-. rewrite Em. by exists w. }
  cbn [negb] in *.
  destruct (strip_rows mapping) as [|m0 ms] eqn:Erows.
  { injection Hrun as <-. rewrite Em, Erows. by exists w. }
  destruct (fa_dry_run args) eqn:Ed.
  { injection Hrun as <-. rewrite Em, Erows. by exists w. }
  pose proof (commit_run_inv _ _ _ _ _ Hrun) as (Hs & Hlog & Ht & _).
  rewrite (same_sources_find_mapping _ _ _ Hs), Em, Erows.
  assert (to_add_of today' args w1 (m0 :: ms) = []) as ->.
  { unfold to_add_of, rows_to_add. rewrite Hforce.
    apply omap_nil_iff, Forall_forall. intros r Hr. cbn [negb andb].
    match goal with |- (if ?b then _ else _) = _ => assert (b = true) as ->; [|done] end.
    unfold existing_log at 1 2. rewrite (Hlog (fa_campaign_dir args)).
    destruct (decide _) as [[Hne _]|Hno].
    - change (default [] (Some ?x)) with x.
      apply (all_logged_after today (campaign_name_of args) _
               (build_zip_index_from_master (folder_at w (fa_campaign_dir args)))
               (default [] (f_log (folder_at w (fa_campaign_dir args))))).
      + apply log_headers_complete.
      + destruct (already_logged _ _ (campaign_number_of args) r) eqn:E; [by left|right].
        unfold to_add_of. rewrite Hforce, rows_to_add_filter.
        apply list_elem_of_fmap. exists r. split; [done|].
        by apply list_elem_of_filter.
    - assert (to_add_of today args w (m0 :: ms) = []) as Hnil.
      { destruct (to_add_of today args w (m0 :: ms)); [done|].
        exfalso. by apply Hno. }
      unfold to_add_of, rows_to_add in Hnil. rewrite Hforce in Hnil.
      rewrite omap_nil_iff, Forall_forall in Hnil. specialize (Hnil r Hr).
      cbn [negb andb] in Hnil. unfold existing_log in Hnil.
      by destruct (already_logged _ _ (campaign_number_of args) r). }
  destruct (commit_nothing today' args w1 _ _ Ht) as (w2 & Hrun2 & Hlog2 & Hcnt).
  exists w2. split; [done|]. split; [|done].
  intros dir. unfold log_count. by rewrite Hlog2.
Qed.

Lemma finalize_twice_same_as_once_witness :
  let args := LedgerArgs "out/Campaign_3_Nov2026" "" "" "" false false true false false
                "CAMPAIGN.TAG" false in
  let mapping := [[("owner", "Jane Doe"); ("property_address", "1 Main St");
                   ("ref_code", "R-001"); ("template_ref", "T1"); ("ZIP5", "95835")];
                  [("owner", "Mary Jane"); ("property_address", "7 Oak Ave");
                   ("ref_code", "R-002"); ("template_ref", "T2"); ("ZIP5", "95630")];
                  [("owner", " jane  doe"); ("property_address", "1 MAIN ST ");
                   ("ref_code", "R-003"); ("template_ref", "T1"); ("ZIP5", "95835")]] in
  let w := LedgerWorld [("out/Campaign_3_Nov2026", Folder (Some mapping) None None None [])]
             [] None None in
  let w1 := default w (append_executed_and_update_tracker "11/4/2026" args w) in
  log_count w1 "out/Campaign_3_Nov2026" = 3
  ∧ ledger_count w1 ("1 MAIN ST", "JANE DOE") = Some "1"
  ∧ ∃ w2, append_executed_and_update_tracker "11/5/2026" args w1 = Some w2
     ∧ (∀ dir, log_count w2 dir = log_count w1 dir)
     ∧ (∀ k, ledger_count w2 k = ledger_count w1 k).
Proof.
  intros args mapping w w1.
  split; [vm_compute; reflexivity|]. split; [vm_compute; reflexivity|].
  apply (finalize_twice_same_as_once "11/4/2026" "11/5/2026" args w w1);
    [reflexivity|vm_compute; reflexivity].
Defined.

(** ** Splitting, joining and printing numbers *)

Lemma split_on_cons sep a s :
  split_on sep (String a s)
  = if bool_decide (a = sep) then "" :: split_on sep s
    else match split_on sep s with
         | p :: ps => String a p :: ps
         | [] => [String a ""]
         end.
Proof. done. Qed.

Lemma split_on_no_sep sep x :
  str_all (λ a, negb (bool_decide (a = sep))) x → split_on sep x = [x].
Proof.
  induction x as [|a x IH]; [done|]. simpl str_all. intros [Ha Hx]%andb_True.
  rewrite split_on_cons, (IH Hx). apply negb_True in Ha.
  by destruct (bool_decide (a = sep)).
Qed.

Lemma split_on_app sep x y :
  str_all (λ a, negb (bool_decide (a = sep))) x →
  split_on sep (x +:+ String sep y) = x :: split_on sep y.
Proof.
  induction x as [|a x IH]; simpl str_all.
  - intros _. change ("" +:+ String sep y) with (String sep y).
    rewrite split_on_cons. by rewrite bool_decide_eq_true_2.
  - intros [Ha Hx]%andb_True. change (String a x +:+ String sep y)
      with (String a (x +:+ String sep y)).
    rewrite split_on_cons, (IH Hx). apply negb_True in Ha.
    by destruct (bool_decide (a = sep)).
Qed.

(** [split] undoes [join] on pieces that are free of the separator. *)
Lemma split_on_join sep l :
  l ≠ [] → Forall (λ x, str_all (λ a, negb (bool_decide (a = sep))) x) l →
  split_on sep (str_join (String sep "") l) = l.
Proof.
  induction l as [|x l IH]; [done|]. intros _ [Hx Hl]%Forall_cons.
  destruct l as [|y l].
  - by apply split_on_no_sep.
  - change (str_join (String sep "") (x :: y :: l))
      with (x +:+ String sep (str_join (String sep "") (y :: l))).
    rewrite split_on_app by done. by rewrite IH.
Qed.

Lemma filter_all {A} (P : A → Prop) `{∀ x, Decision (P x)} (l : list A) :
  Forall P l → filter P l = l.
Proof.
  induction 1 as [|x l Hx Hl IH]; [done|]. by rewrite filter_cons_True, IH.
Qed.

(** The campaign numbers joined into the field are the numbers read from it. *)
Lemma nonempty_parts_join l :
  Forall (λ x, x ≠ "" ∧ str_all (λ a, negb (bool_decide (a = "|"%char))) x) l →
  nonempty_parts (str_join "|" l) = l.
Proof.
  intros Hl. unfold nonempty_parts. destruct l as [|x l]; [done|].
  rewrite split_on_join; [|done|by eapply Forall_impl; [exact Hl|intros ? [_ ?]]].
  apply filter_all. by eapply Forall_impl; [exact Hl|intros ? [? _]].
Qed.

Lemma is_digit_not_bar a : is_digit a → negb (bool_decide (a = "|"%char)).
Proof.
  destruct a as [[] [] [] [] [] [] [] []]; vm_compute; done.
Qed.

Lemma all_digits_no_bar x :
  all_digits x → str_all (λ a, negb (bool_decide (a = "|"%char))) x.
Proof. apply str_all_impl, is_digit_not_bar. Qed.

Lemma nonempty_parts_join_digits l :
  Forall (λ x, x ≠ "" ∧ all_digits x) l → nonempty_parts (str_join "|" l) = l.
Proof.
  intros Hl. apply nonempty_parts_join. eapply Forall_impl; [exact Hl|].
  intros x [? ?]. split; [done|]. by apply all_digits_no_bar.
Qed.

Lemma str_all_app p x y : str_all p (x +:+ y) = str_all p x && str_all p y.
Proof.
  induction x as [|a x IH]; [done|]. simpl. by rewrite IH, andb_assoc.
Qed.

(** A field of joined numbers has digits and bars only, so [strip] leaves it. *)
Lemma str_join_digits_no_space l :
  Forall (λ x, all_digits x) l → str_all (λ a, negb (is_space a)) (str_join "|" l).
Proof.
  induction l as [|x l IH]; [done|]. intros [Hx Hl]%Forall_cons.
  assert (str_all (λ a, negb (is_space a)) x) as Hx'.
  { revert Hx. apply str_all_impl, is_digit_not_space. }
  destruct l as [|y l]; [done|].
  change (str_join "|" (x :: y :: l)) with (x +:+ String "|" (str_join "|" (y :: l))).
  rewrite str_all_app. apply andb_True. split; [done|].
  cbn [str_all]. apply andb_True. split; [done|]. by apply IH.
Qed.

Lemma is_digit_pretty_N_char n : is_digit (pretty_N_char n).
Proof.
  destruct n as [|p]; [done|].
  do 4 (destruct p as [p|p|]; try done).
Qed.

Lemma all_digits_pretty_N_go x s : all_digits s → all_digits (pretty_N_go x s).
Proof.
  revert s. induction (N.lt_wf_0 x) as [x _ IH]; intros s Hs.
  destruct (decide (0 < x)%N) as [Hx|Hx].
  - rewrite pretty_N_go_step by done. apply IH.
    + apply N.div_lt; lia.
    + apply andb_True. split; [apply is_digit_pretty_N_char|done].
  - assert (x = 0%N) as -> by lia. by rewrite pretty_N_go_0.
Qed.

Lemma pretty_N_go_nonempty x s : s ≠ "" → pretty_N_go x s ≠ "".
Proof.
  revert s. induction (N.lt_wf_0 x) as [x _ IH]; intros s Hs.
  destruct (decide (0 < x)%N) as [Hx|Hx].
  - rewrite pretty_N_go_step by done. apply IH; [apply N.div_lt; lia|done].
  - assert (x = 0%N) as -> by lia. by rewrite pretty_N_go_0.
Qed.

(** A number is printed with digits, and with one at least. *)
Lemma pretty_N_digits (x : N) : pretty x ≠ "" ∧ all_digits (pretty x).
Proof.
  unfold pretty, pretty_N. case_decide; [done|].
  assert (0 < x)%N as Hx by lia. split.
  - rewrite pretty_N_go_step by done. by apply pretty_N_go_nonempty.
  - by apply all_digits_pretty_N_go.
Qed.

Lemma pretty_nat_digits (n : nat) : pretty n ≠ "" ∧ all_digits (pretty n).
Proof. apply pretty_N_digits. Qed.

Lemma remove_dups_NoDup {A} `{EqDecision A} (l : list A) : NoDup l → remove_dups l = l.
Proof.
  induction 1 as [|x l Hx Hl IH]; [done|]. simpl.
  destruct (decide_rel elem_of x l); [done|]. by rewrite IH.
Qed.

(** ** The count of a ledger record *)

Lemma row_get_dict_set (r : row) k v k' :
  row_get (dict_set r k v) k' = if decide (k = k') then v else row_get r k'.
Proof. unfold row_get. rewrite dict_get_set. by destruct (decide (k = k')). Qed.

Lemma kept_record_count_matches r : kept_record r → count_matches r.
Proof.
  intros (Hnd & _ & _ & Hc). unfold count_matches. by rewrite remove_dups_NoDup.
Qed.

Lemma kept_record_fields r r' :
  row_get r' "CampaignNumbers" = row_get r "CampaignNumbers" →
  row_get r' "CampaignCount" = row_get r "CampaignCount" →
  kept_record r → kept_record r'.
Proof.
  intros Hn Hc. unfold kept_record, campaign_numbers_of. by rewrite Hn, Hc.
Qed.

Lemma kept_record_same r r' : same_fields r r' → kept_record r → kept_record r'.
Proof. intros H. apply kept_record_fields; by rewrite H. Qed.

Lemma elem_of_nonempty_parts x s : x ∈ nonempty_parts s → x ≠ "".
Proof. unfold nonempty_parts. by intros [? _]%list_elem_of_filter. Qed.

Lemma kept_record_strip r : kept_record r → kept_record (strip_row r).
Proof.
  intros Hr. apply (kept_record_fields r); [| |done]; rewrite row_get_strip_row.
  - destruct Hr as (_ & Hd & -> & _). by apply strip_no_space, str_join_digits_no_space.
  - destruct Hr as (_ & _ & _ & ->). apply strip_all_digits, pretty_nat_digits.
Qed.

(** A record whose two fields are made from a list of distinct numerals. *)
Lemma kept_record_intro r l :
  NoDup l → Forall (λ x, x ≠ "" ∧ all_digits x) l →
  row_get r "CampaignNumbers" = str_join "|" l →
  row_get r "CampaignCount" = pretty (length l) →
  kept_record r.
Proof.
  intros Hnd Hl Hn Hc. unfold kept_record, campaign_numbers_of.
  rewrite Hn, (nonempty_parts_join_digits l Hl). split_and!; try done.
  eapply Forall_impl; [exact Hl|]. by intros x [_ ?].
Qed.

Lemma kept_record_parts r :
  kept_record r → Forall (λ x, x ≠ "" ∧ all_digits x) (campaign_numbers_of r).
Proof.
  intros (_ & Hd & _ & _). apply Forall_forall. intros x Hx. split.
  - by apply elem_of_nonempty_parts in Hx.
  - rewrite Forall_forall in Hd. by apply Hd.
Qed.

Lemma row_get_after_update (t : row) a b c d e f g :
  let t' := dict_set (dict_set (dict_set (dict_set (dict_set (dict_set (dict_set t
              "CampaignNumbers" a) "CampaignCount" b) "TemplateIds" c) "FirstSentDt" d)
              "LastSentDt" e) "PropertyAddress" f) "OwnerName" g in
  row_get t' "CampaignNumbers" = a ∧ row_get t' "CampaignCount" = b.
Proof.
  cbv zeta. rewrite !row_get_dict_set. done.
Qed.

Lemma update_record_fields today tr r0 rows :
  let cn_set := py_set (nonempty_parts (row_get tr "CampaignNumbers")
                        ++ ((λ rr, row_get rr "CampaignNumber") <$> r0 :: rows)) in
  row_get (update_record today tr (r0 :: rows)) "CampaignNumbers"
  = str_join "|" (py_sorted cn_before cn_set)
  ∧ row_get (update_record today tr (r0 :: rows)) "CampaignCount"
    = pretty (length cn_set).
Proof.
  unfold update_record. cbv zeta.
  destruct (negb (truthy (row_get tr "ZIP5")) && truthy (row_get r0 "ZIP5")).
  - rewrite (row_get_dict_set tr "ZIP5" _ "CampaignNumbers").
    rewrite decide_False by done. apply row_get_after_update.
  - apply row_get_after_update.
Qed.

Lemma elem_of_py_set x l : x ∈ py_set l ↔ x ∈ l.
Proof. apply elem_of_remove_dups. Qed.

Lemma NoDup_py_set l : NoDup (py_set l).
Proof. apply NoDup_remove_dups. Qed.

(** The record of a key that got rows of one campaign added is kept. *)
Lemma update_record_kept today tr rows cn :
  kept_record tr → rows ≠ [] → cn ≠ "" → all_digits cn →
  (∀ rr, rr ∈ rows → row_get rr "CampaignNumber" = cn) →
  kept_record (update_record today tr rows).
Proof.
  intros Htr Hne Hcn Hd Hrows. destruct rows as [|r0 rows]; [done|].
  destruct (update_record_fields today tr r0 rows) as [Hn Hc].
  set (cn_set := py_set _) in *.
  apply (kept_record_intro _ (py_sorted cn_before cn_set)).
  - rewrite py_sorted_perm. apply NoDup_py_set.
  - rewrite py_sorted_perm. apply Forall_forall. intros x Hx.
    apply elem_of_py_set, elem_of_app in Hx as [Hx|Hx].
    + pose proof (kept_record_parts tr Htr) as Hp. rewrite Forall_forall in Hp.
      by apply Hp.
    + apply list_elem_of_fmap in Hx as (rr & -> & Hrr). by rewrite (Hrows rr Hrr).
  - done.
  - by rewrite py_sorted_perm.
Qed.

Lemma new_record_kept today rows cn :
  rows ≠ [] → cn ≠ "" → all_digits cn →
  (∀ rr, rr ∈ rows → row_get rr "CampaignNumber" = cn) →
  kept_record (new_record today rows).
Proof.
  intros Hne Hcn Hd Hrows. destruct rows as [|r0 rows]; [done|].
  apply (kept_record_intro _ [cn]).
  - apply NoDup_singleton.
  - by apply Forall_singleton.
  - unfold new_record. rewrite (Hrows r0) by left. done.
  - done.
Qed.

Lemma group_by_nonempty {A K} `{EqDecision K} (key : A → K) rows k b :
  (k, b) ∈ group_by key rows → b ≠ [] ∧ ∀ r, r ∈ b → r ∈ rows.
Proof.
  intros Hin.
  assert (dict_get (group_by key rows) k = Some b) as Hget.
  { apply dict_get_of_elem; [apply group_by_keys_NoDup|done]. }
  unfold group_by in Hget. rewrite group_by_from_get in Hget.
  case_decide as Hf; [done|]. injection Hget as <-. split; [done|].
  intros r Hr. by apply list_elem_of_filter in Hr as [_ ?].
Qed.

Lemma update_tracker_kept today cn groups : ∀ idx,
  cn ≠ "" → all_digits cn →
  (∀ k rows, (k, rows) ∈ groups →
     rows ≠ [] ∧ ∀ rr, rr ∈ rows → row_get rr "CampaignNumber" = cn) →
  Forall kept_record idx.*2 →
  Forall kept_record (update_tracker today idx groups).*2.
Proof.
  unfold update_tracker.
  induction groups as [|[k rows] groups IH]; intros idx Hcn Hd Hg Hidx; [done|].
  cbn [foldl]. apply IH; [done|done| |].
  { intros k' rows' Hin. apply (Hg k'). by right. }
  destruct (Hg k rows) as [Hne Hrows]; [left|].
  assert (∀ v, kept_record v → Forall kept_record (dict_set idx k v).*2) as Hset.
  { intros v Hv. apply Forall_forall. intros x (kv & -> & Hin)%list_elem_of_fmap.
    apply elem_of_dict_set in Hin as [Hin| ->]; [|done].
    rewrite Forall_forall in Hidx. apply Hidx, list_elem_of_fmap. by exists kv. }
  cbn [fst snd]. destruct (dict_get idx k) as [tr|] eqn:Eg.
  - apply Hset, (update_record_kept _ _ _ cn); try done.
    rewrite Forall_forall in Hidx. apply Hidx, list_elem_of_fmap.
    exists (k, tr). split; [done|]. by apply dict_get_Some_elem.
  - apply Hset, (new_record_kept _ _ cn); done.
Qed.

Lemma elem_of_rows_to_add today name cn force existing zip_idx rows e :
  e ∈ rows_to_add today name cn force existing zip_idx rows →
  ∃ r, r ∈ rows ∧ e = log_entry today name cn zip_idx r.
Proof.
  unfold rows_to_add. intros (r & Hr & He)%list_elem_of_omap. exists r. split; [done|].
  destruct (negb force && _); [done|]. by injection He as <-.
Qed.

(** The rows a run writes to the tracker are kept records when the rows it
    read were, and the campaign number is a numeral. *)
Lemma tracker_after_kept today name cn force existing zip_idx mapping_rows tracker_rows :
  cn ≠ "" → all_digits cn →
  Forall kept_record tracker_rows →
  Forall kept_record
    (tracker_after today tracker_rows
       (rows_to_add today name cn force existing zip_idx mapping_rows)).
Proof.
  intros Hcn Hd Ht. unfold tracker_after. apply (update_tracker_kept _ cn); [done|done| |].
  - intros k rows Hin. apply group_by_nonempty in Hin as [Hne Hsub]. split; [done|].
    intros rr Hrr. apply Hsub, elem_of_rows_to_add in Hrr as (r & _ & ->). done.
  - apply Forall_forall. intros r Hr%elem_of_index_values.
    rewrite Forall_forall in Ht. by apply Ht.
Qed.

Lemma span_digits_digits s : all_digits (span_digits s).1.
Proof.
  induction s as [|a s IH]; [done|]. simpl.
  destruct (is_digit a) eqn:Ea; [|done]. simpl. unfold all_digits. simpl.
  rewrite Ea. done.
Qed.

Lemma num_here_digits s num : num_here s = Some num → num ≠ "" ∧ all_digits num.
Proof.
  unfold num_here. destruct s as [|a s]; [done|].
  destruct (decide (a = "_"%char)) as [->|Hne]; cycle 1.
  { destruct a as [[] [] [] [] [] [] [] []]; done. }
  pose proof (span_digits_digits s) as Hd.
  destruct (span_digits s) as [ds rest]. destruct ds as [|d ds]; [done|].
  destruct rest as [|b rest]; [done|].
  destruct (decide (b = "_"%char)) as [->|Hb]; cycle 1.
  { destruct b as [[] [] [] [] [] [] [] []]; done. }
  by intros [= <-].
Qed.

(** The campaign number read from a folder name is a numeral. *)
Lemma infer_scan_digits s name num :
  infer_scan s = Some (name, num) → num ≠ "" ∧ all_digits num.
Proof.
  revert name. induction s as [|a s IH]; intros name; [done|]. simpl.
  case_bool_decide; [done|].
  destruct (num_here s) as [n|] eqn:En.
  - intros [= _ <-]. by apply num_here_digits in En.
  - destruct (infer_scan s) as [[n' num']|]; [|done]. intros [= _ <-]. by eapply IH.
Qed.

Lemma campaign_number_of_digits args :
  all_digits (fa_campaign_number args) → all_digits (campaign_number_of args).
Proof.
  intros Hd. unfold campaign_number_of, str_or. destruct (truthy _); [done|].
  unfold infer_campaign_from_dir.
  destruct (infer_scan _) as [[name num]|] eqn:E; [|done].
  by apply infer_scan_digits in E as [_ ?].
Qed.

Lemma truthy_ne s : truthy s = true ↔ s ≠ "".
Proof.
  unfold truthy. rewrite negb_true_iff, bool_decide_eq_false. done.
Qed.

Lemma commit_run_kept today args w mapping_rows w1 :
  all_digits (fa_campaign_number args) → campaign_number_of args ≠ "" →
  Forall kept_record (default [] (lw_tracker w)) →
  commit_run today args w (to_add_of today args w mapping_rows) = Some w1 →
  Forall kept_record (default [] (lw_tracker w1)).
Proof.
  intros Hd Hne Hw Hrun.
  apply commit_run_inv in Hrun as (_ & _ & -> & Hk). cbv zeta in Hk.
  change (default [] (Some ?x)) with x. apply Forall_fmap.
  assert (Forall kept_record
            (tracker_after today (read_ledger w) (to_add_of today args w mapping_rows)))
    as Hkept.
  { apply tracker_after_kept; [done|by apply campaign_number_of_digits|].
    unfold read_ledger. rewrite strip_rows_fmap. apply Forall_fmap.
    eapply Forall_impl; [exact Hw|]. intros r. apply kept_record_strip. }
  rewrite Forall_forall in Hkept, Hk. apply Forall_forall. intros r Hr.
  cbn [compose]. apply (kept_record_same r (project_row _ r)); [|by apply Hkept].
  apply same_fields_sym, project_row_same, Hk, Hr.
Qed.

(** A finalize run with a numeral for campaign number keeps the ledger's
    records kept. *)
Lemma finalize_kept today args w w1 :
  all_digits (fa_campaign_number args) →
  Forall kept_record (default [] (lw_tracker w)) →
  append_executed_and_update_tracker today args w = Some w1 →
  Forall kept_record (default [] (lw_tracker w1)).
Proof.
  intros Hd Hw. unfold append_executed_and_update_tracker.
  destruct (find_mapping args w); [|by intros [= <-]].
  destruct (truthy (campaign_number_of args)) eqn:Ec; [|by intros [= <-]].
  cbn [negb]. destruct (strip_rows l) as [|m0 ms]; [by intros [= <-]|].
  destruct (fa_dry_run args); [by intros [= <-]|].
  apply commit_run_kept; [done| |done]. by apply truthy_ne.
Qed.

(** *** The rebuilt ledger *)

Lemma elem_of_set_add x y s : x ∈ set_add y s ↔ x ∈ s ∨ x = y.
Proof.
  unfold set_add. case_bool_decide.
  - split; [by left|]. by intros [?| ->].
  - rewrite elem_of_app, list_elem_of_singleton. done.
Qed.

Lemma NoDup_set_add y s : NoDup s → NoDup (set_add y s).
Proof.
  intros Hs. unfold set_add. case_bool_decide; [done|].
  apply NoDup_app. split_and!; [done| |apply NoDup_singleton].
  intros x Hx ->%list_elem_of_singleton. done.
Qed.

Section rebuild_facts.
Variable try_parse_date : string → option date.

Lemma rebuild_row_NoDup zip_idx agg r :
  Forall (λ kv, NoDup (ag_CampaignNumbers kv.2)) agg →
  Forall (λ kv, NoDup (ag_CampaignNumbers kv.2)) (rebuild_row try_parse_date zip_idx agg r).
Proof.
  intros Hagg. unfold rebuild_row. destruct (negb _ || negb _); [done|].
  cbv zeta. apply Forall_forall. intros kv [Hin| ->]%elem_of_dict_set.
  - rewrite Forall_forall in Hagg. by apply Hagg.
  - cbn [snd ag_CampaignNumbers]. apply NoDup_set_add.
    destruct (dict_get agg _) as [rec|] eqn:E; [|constructor].
    apply dict_get_Some_elem in E. rewrite Forall_forall in Hagg.
    apply (Hagg _ E).
Qed.

Lemma foldl_Forall_inv {A B} (P : A → Prop) (f : A → B → A) (l : list B) (a : A) :
  (∀ a b, P a → P (f a b)) → P a → P (foldl f a l).
Proof.
  intros Hf. revert a. induction l as [|b l IH]; intros a Ha; [done|].
  simpl. apply IH, Hf, Ha.
Qed.

Lemma aggregate_NoDup w folders :
  Forall (λ kv, NoDup (ag_CampaignNumbers kv.2)) (aggregate try_parse_date w folders).
Proof.
  unfold aggregate. apply foldl_Forall_inv; [|constructor].
  intros agg dir Hagg. cbv zeta. apply foldl_Forall_inv; [|done].
  intros agg' r. apply rebuild_row_NoDup.
Qed.

(** The row the rebuild writes for a key is a kept record. *)
Lemma final_row_kept rec : NoDup (ag_CampaignNumbers rec) → kept_record (final_row rec).
Proof.
  intros Hnd.
  apply (kept_record_intro _
           (pretty <$> py_sorted N.ltb (filter (λ x, x ≠ 0%N) (ag_CampaignNumbers rec)))).
  - apply (NoDup_fmap_2 _). rewrite py_sorted_perm. by apply NoDup_filter.
  - apply Forall_fmap, Forall_forall. intros x _. apply pretty_N_digits.
  - done.
  - by rewrite length_fmap.
Qed.

Lemma final_row_columns rec : Forall (λ kv, kv.1 ∈ tracker_headers) (final_row rec).
Proof.
  unfold final_row, tracker_headers. cbv zeta.
  repeat (apply Forall_cons_2; [cbn [fst]; repeat first [left|right]|]). constructor.
Qed.

(** The rebuild always ends normally; when it finds a campaign folder it
    writes a ledger of kept records, otherwise it leaves the disk alone. *)
Lemma rebuild_kept args w :
  ∃ w', rebuild_tracker_from_all try_parse_date args w = Some w'
    ∧ (w' = w ∨ Forall kept_record (default [] (lw_tracker w'))).
Proof.
  unfold rebuild_tracker_from_all.
  destruct (discover_campaign_folders w _ _) as [|d ds]; [by exists w; split; [|left]|].
  set (folders := d :: ds).
  rewrite write_csv_Some.
  - eexists. split; [done|]. right. cbn [mbind option_bind]. 
    change (lw_tracker (rebuild_zip5_tally (set_tracker w ?t))) with (Some t).
    change (default [] (Some ?x)) with x.
    apply Forall_fmap, Forall_fmap, Forall_forall. intros rec Hrec.
    cbn [compose]. apply (kept_record_same (final_row rec) (project_row _ (final_row rec))).
    + apply same_fields_sym, project_row_same, final_row_columns.
    + apply final_row_kept. pose proof (aggregate_NoDup w folders) as H.
      rewrite Forall_forall in H.
      apply list_elem_of_fmap in Hrec as (kv & -> & Hkv). by apply H.
  - apply Forall_fmap, Forall_forall. intros rec _. apply final_row_columns.
Qed.

Lemma finalize_main_kept today args w w1 :
  all_digits (fa_campaign_number args) →
  Forall kept_record (default [] (lw_tracker w)) →
  finalize_main try_parse_date today args w = Some w1 →
  Forall kept_record (default [] (lw_tracker w1)).
Proof.
  intros Hd Hw. unfold finalize_main.
  destruct (fa_rebuild_all args).
  { destruct (rebuild_kept args w) as (w' & -> & [->|H]); by intros [= <-]. }
  destruct (negb (truthy (fa_campaign_dir args))); [by intros [= <-]|].
  destruct (append_executed_and_update_tracker today args w) as [w0|] eqn:E; [|done].
  cbn [mbind option_bind]. pose proof (finalize_kept _ _ _ _ Hd Hw E) as H0.
  destruct (fa_rebuild_templates args); [|by intros [= <-]].
  destruct (rebuild_kept args w0) as (w' & -> & [->|H]); by intros [= <-].
Qed.

Lemma run_all_cons run runs w :
  run_all try_parse_date (run :: runs) w
  = w1 ← finalize_main try_parse_date run.1 run.2 w; run_all try_parse_date runs w1.
Proof.
  unfold run_all. cbn [foldl mbind option_bind].
  destruct (finalize_main try_parse_date run.1 run.2 w) as [w1|]; [done|].
  induction runs as [|r runs IH]; [done|]. done.
Qed.

Lemma run_all_kept runs : ∀ w w',
  Forall (λ run : string * ledger_args, all_digits (fa_campaign_number run.2)) runs →
  Forall kept_record (default [] (lw_tracker w)) →
  run_all try_parse_date runs w = Some w' →
  Forall kept_record (default [] (lw_tracker w')).
Proof.
  induction runs as [|run runs IH]; intros w w' Hruns Hw.
  - by intros [= <-].
  - apply Forall_cons in Hruns as [Hrun Hruns]. rewrite run_all_cons.
    destruct (finalize_main try_parse_date run.1 run.2 w) as [w1|] eqn:E; [|done].
    cbn [mbind option_bind]. apply IH; [done|]. by eapply finalize_main_kept.
Qed.

End rebuild_facts.

(** C2 (count is the number of unique campaigns). Start from a ledger whose
    records are as the script writes them (no ledger at all, for one) and
    run the script any number of times, finalizing or rebuilding, with
    numerals for campaign numbers: every record of the ledger then written
    has [CampaignCount == |unique(CampaignNumbers)|], however often a
    campaign number was finalized. *)
Theorem campaign_count_is_number_of_campaigns (try_parse_date : string → option date)
    (runs : list (string * ledger_args)) (w w' : ledger_world) :
  Forall kept_record (default [] (lw_tracker w)) →
  Forall (λ run : string * ledger_args, all_digits (fa_campaign_number run.2)) runs →
  run_all try_parse_date runs w = Some w' →
  Forall count_matches (default [] (lw_tracker w')).
Proof.
  intros Hw Hruns Hrun.
  eapply Forall_impl; [|apply kept_record_count_matches].
  by eapply run_all_kept.
Qed.

Lemma campaign_count_is_number_of_campaigns_witness :
  let mapping3 := [[("owner", "Jane Doe"); ("property_address", "1 Main St");
                    ("ref_code", "R-001"); ("template_ref", "T1"); ("ZIP5", "95835")];
                   [("owner", "Mary Jane"); ("property_address", "7 Oak Ave");
                    ("ref_code", "R-002"); ("template_ref", "T2"); ("ZIP5", "95630")]] in
  let mapping4 := [[("owner", "JANE DOE"); ("property_address", "1 Main St");
                    ("ref_code", "R-101"); ("template_ref", "T1"); ("ZIP5", "95835")]] in
  let w := LedgerWorld
             [("out/Campaign_3_Nov2026", Folder (Some mapping3) None None None []);
              ("out/Campaign_4_Dec2026", Folder None (Some mapping4) None None [])]
             [] None None in
  let finalize dir := LedgerArgs dir "" "" "" false false false false false
                        "CAMPAIGN.TAG" false in
  let rebuild := LedgerArgs "" "" "" "" false false false true false "CAMPAIGN.TAG" false in
  let runs := [("11/4/2026", finalize "out/Campaign_3_Nov2026");
               ("11/5/2026", finalize "out/Campaign_3_Nov2026");
               ("12/1/2026", finalize "out/Campaign_4_Dec2026");
               ("12/2/2026", finalize "out/Campaign_4_Dec2026");
               ("12/3/2026", rebuild)] in
  let w' := default w (run_all (λ _, None) runs w) in
  ((λ r, (row_get r "CampaignNumbers", row_get r "CampaignCount"))
     <$> default [] (lw_tracker w') = [("3|4", "2"); ("3", "1")])
  ∧ Forall count_matches (default [] (lw_tracker w')).
Proof.
  intros mapping3 mapping4 w finalize rebuild runs w'.
  split; [vm_compute; reflexivity|].
  apply (campaign_count_is_number_of_campaigns (λ _, None) runs w w').
  - constructor.
  - repeat constructor.
  - vm_compute. reflexivity.
Defined.

(** ** Sorting by a numeric key *)

Section sorted_by_key.
Context {A : Type} (key : A → N) (before : A → A → bool).
Hypothesis before_spec : ∀ a b, before a b = true ↔ (key a < key b)%N.

Lemma insert_sorted_sorted x l :
  StronglySorted (λ a b, (key a ≤ key b)%N) l →
  StronglySorted (λ a b, (key a ≤ key b)%N) (insert_sorted before x l).
Proof.
  induction 1 as [|y l Hl IH Hy]; simpl.
  - repeat constructor.
  - destruct (before x y) eqn:E.
    + apply before_spec in E. constructor; [by constructor|].
      constructor; [lia|]. eapply Forall_impl; [exact Hy|]. intros z ?. simpl in *. lia.
    + assert (¬ (key x < key y)%N) as Hxy.
      { intros H%before_spec. congruence. }
      constructor; [done|]. rewrite insert_sorted_perm.
      constructor; [lia|done].
Qed.

Lemma py_sorted_sorted l : StronglySorted (λ a b, (key a ≤ key b)%N) (py_sorted before l).
Proof.
  unfold py_sorted. generalize (SSorted_nil (λ a b : A, (key a ≤ key b)%N)).
  generalize (@nil A). induction l as [|x l IH]; intros acc Hacc; [done|].
  simpl. by apply IH, insert_sorted_sorted.
Qed.

Lemma sorted_strict l :
  StronglySorted (λ a b, (key a ≤ key b)%N) l → NoDup (key <$> l) →
  StronglySorted (λ a b, (key a < key b)%N) l.
Proof.
  induction 1 as [|y l Hl IH Hy]; csimpl; [constructor|].
  intros [Hni Hnd]%NoDup_cons. constructor; [by apply IH|].
  rewrite Forall_forall in Hy. apply Forall_forall. intros z Hz.
  specialize (Hy z Hz).
  assert (key y ≠ key z); [|lia].
  intros Heq. apply Hni. rewrite Heq. apply list_elem_of_fmap. by exists z.
Qed.

(** A list without two elements of the same key is sorted into strictly
    ascending keys. *)
Lemma py_sorted_strict l :
  NoDup (key <$> l) → StronglySorted (λ a b, (key a < key b)%N) (py_sorted before l).
Proof.
  intros Hnd. apply sorted_strict; [apply py_sorted_sorted|].
  by rewrite py_sorted_perm.
Qed.

(** Two strictly ascending lists with the same elements are the same list. *)
Lemma strict_sorted_unique l1 l2 :
  StronglySorted (λ a b, (key a < key b)%N) l1 →
  StronglySorted (λ a b, (key a < key b)%N) l2 →
  (∀ x, x ∈ l1 ↔ x ∈ l2) → l1 = l2.
Proof.
  intros H1 H2 Heq.
  assert (∀ l, StronglySorted (λ a b, (key a < key b)%N) l → NoDup l) as Hnd.
  { induction 1 as [|y l Hl IH Hy]; constructor; [|done].
    intros Hin. rewrite Forall_forall in Hy. specialize (Hy y Hin). simpl in Hy. lia. }
  eapply StronglySorted_unique_strong; [|exact H1|exact H2|].
  - intros x1 x2 _ _ ? ?. simpl in *. lia.
  - apply NoDup_Permutation; auto.
Qed.
End sorted_by_key.

Lemma cn_before_spec a b : cn_before a b = true ↔ (campaign_int a < campaign_int b)%N.
Proof. unfold cn_before. apply bool_decide_eq_true. Qed.

Lemma N_ltb_spec a b : N.ltb a b = true ↔ (id a < id b)%N.
Proof. apply N.ltb_lt. Qed.

(** ** Reading a written tracker by key *)

Lemma index_of_keyed {A} (g : A → row) (d : list ((string * string) * A)) k :
  NoDup d.*1 → (∀ k' a, (k', a) ∈ d → row_key (g a) = k') →
  dict_get (tracker_index (g <$> d.*2)) k = g <$> dict_get d k.
Proof.
  intros Hnd Hkey.
  set (d' := (λ kv : (string * string) * A, (kv.1, g kv.2)) <$> d).
  assert (g <$> d.*2 = d'.*2) as ->.
  { unfold d'. rewrite <- !list_fmap_compose. done. }
  unfold tracker_index.
  rewrite (reindex_values row_key d' []).
  - unfold d'. apply (dict_get_fmap_values g).
  - unfold d'. csimpl. rewrite <- list_fmap_compose. done.
  - intros k' v Hin. unfold d' in Hin.
    apply list_elem_of_fmap in Hin as ([k0 a] & [= -> ->] & Hin). by eapply Hkey.
Qed.

(** ** The rebuilt ledger follows the logs *)

Lemma StronglySorted_fmap_local {A B} (f : A → B) (R1 : relation A) (R2 : relation B) l :
  (∀ x y, x ∈ l → y ∈ l → R1 x y → R2 (f x) (f y)) →
  StronglySorted R1 l → StronglySorted R2 (f <$> l).
Proof.
  intros Hf Hl. induction Hl as [|x l Hl IH Hx]; csimpl; constructor.
  - apply IH. intros a b Ha Hb. apply Hf; by right.
  - rewrite Forall_fmap. rewrite Forall_forall in Hx. apply Forall_forall.
    intros y Hy. apply Hf; [left|by right|by apply Hx].
Qed.

Lemma canonical_digits c : canonical c → c ≠ "" ∧ all_digits c.
Proof. intros [<- _]. apply pretty_N_digits. Qed.

Lemma canonical_strip c : canonical c → strip c = c.
Proof. intros Hc. by apply strip_all_digits, canonical_digits. Qed.

Lemma canonical_inj a b : canonical a → canonical b → campaign_int a = campaign_int b → a = b.
Proof. intros [Ha _] [Hb _] Heq. congruence. Qed.

Lemma get_first_head r c cols : row_get r c ≠ "" → get_first r (c :: cols) = row_get r c.
Proof.
  intros Hc. simpl. unfold str_or. by rewrite (proj2 (truthy_ne _) Hc).
Qed.

Lemma dict_set_keys_iff {K V} `{EqDecision K} (d : list (K * V)) k v k' :
  k' ∈ (dict_set d k v).*1 ↔ k' ∈ d.*1 ∨ k' = k.
Proof.
  rewrite <- !dict_get_is_Some, dict_get_set.
  destruct (decide (k = k')) as [->|Hne].
  - split; [by right|]. by eexists.
  - split; [by left|]. by intros [?| ->].
Qed.

Lemma norm_key_str_or a a' o o' k :
  norm_key a o = k → norm_key a' o' = k →
  norm_key (str_or a a') (str_or o o') = k.
Proof.
  unfold norm_key, str_or. intros <- [= Ha Ho].
  destruct (truthy a), (truthy o); by rewrite ?Ha, ?Ho.
Qed.

Section rebuild_follows.
Variable try_parse_date : string → option date.

Lemma rebuild_row_agg_of zip_idx rows agg x :
  entry_row x → agg_of rows agg →
  agg_of (rows ++ [x]) (rebuild_row try_parse_date zip_idx agg x).
Proof.
  intros (Hpa & Hon & Hcn) (Hnd & Hkeys & Hrec).
  unfold rebuild_row. rewrite !get_first_head by done.
  rewrite (proj2 (truthy_ne _) Hpa), (proj2 (truthy_ne _) Hon). cbn [negb orb].
  cbv zeta. rewrite (canonical_strip _ Hcn).
  fold (row_key x). set (rec0 := default _ (dict_get agg (row_key x))).
  split; [by apply dict_set_NoDup|]. split.
  - intros k. rewrite dict_set_keys_iff, Hkeys. split.
    + intros [(y & Hy & Hk)| ->].
      * exists y. split; [apply elem_of_app; by left|done].
      * exists x. split; [apply elem_of_app; right; left|done].
    + intros (y & [Hy|Hy%list_elem_of_singleton]%elem_of_app & Hk).
      * left. by exists y.
      * right. by subst.
  - intros k rec. rewrite dict_get_set.
    destruct (decide (row_key x = k)) as [<-|Hne].
    + intros [= <-]. cbn [ag_PropertyAddress ag_OwnerName ag_CampaignNumbers]. split.
      * apply norm_key_str_or; [|done]. unfold rec0.
        destruct (dict_get agg (row_key x)) as [rec|] eqn:E; [|done].
        by apply Hrec in E as [? _].
      * intros n. rewrite elem_of_set_add. unfold rec0.
        destruct (dict_get agg (row_key x)) as [rec|] eqn:E.
        -- apply Hrec in E as [_ E]. rewrite E. split.
           ++ intros [(y & Hy & Hk & Hn)| ->].
              ** exists y. split; [apply elem_of_app; by left|done].
              ** exists x. split; [apply elem_of_app; right; left|done].
           ++ intros (y & [Hy|Hy%list_elem_of_singleton]%elem_of_app & Hk & Hn).
              ** left. by exists y.
              ** right. by subst.
        -- apply dict_get_None in E. rewrite Hkeys in E. cbn [default ag_CampaignNumbers].
           split.
           ++ intros [[]%elem_of_nil| ->].
              exists x. split; [apply elem_of_app; right; left|done].
           ++ intros (y & [Hy|Hy%list_elem_of_singleton]%elem_of_app & Hk & Hn).
              ** exfalso. apply E. by exists y.
              ** right. by subst.
    + intros Hget. destruct (Hrec k rec Hget) as [Hk Hn]. split; [done|].
      intros n. rewrite Hn. split.
      * intros (y & Hy & ?). exists y. split; [apply elem_of_app; by left|done].
      * intros (y & [Hy|Hy%list_elem_of_singleton]%elem_of_app & Hk' & ?).
        -- by exists y.
        -- subst. done.
Qed.

Lemma rebuild_rows_agg_of zip_idx rows' : ∀ rows agg,
  Forall entry_row rows' → agg_of rows agg →
  agg_of (rows ++ rows') (foldl (rebuild_row try_parse_date zip_idx) agg rows').
Proof.
  induction rows' as [|x rows' IH]; intros rows agg Hrows Hagg.
  - by rewrite app_nil_r.
  - apply Forall_cons in Hrows as [Hx Hrows]. cbn [foldl].
    replace (rows ++ x :: rows') with ((rows ++ [x]) ++ rows') by by rewrite <- app_assoc.
    apply IH; [done|]. by apply rebuild_row_agg_of.
Qed.

Lemma aggregate_from_agg_of w folders : ∀ agg rows,
  (∀ x, logged w x → entry_row x) → agg_of rows agg →
  agg_of (rows ++ (folders ≫= λ dir, strip_rows (default [] (f_log (folder_at w dir)))))
    (foldl (λ agg dir,
              foldl (rebuild_row try_parse_date
                       (build_zip_index_from_master (folder_at w dir))) agg
                (strip_rows (default [] (f_log (folder_at w dir)))))
       agg folders).
Proof.
  induction folders as [|dir folders IH]; intros agg rows Hlog Hagg.
  - csimpl. by rewrite app_nil_r.
  - csimpl. rewrite app_assoc. apply IH; [done|]. apply rebuild_rows_agg_of; [|done].
    apply Forall_forall. intros x Hx. apply Hlog. by exists dir.
Qed.

Lemma aggregate_agg_of w folders :
  (∀ x, logged w x → entry_row x) →
  agg_of (folders ≫= λ dir, strip_rows (default [] (f_log (folder_at w dir))))
    (aggregate try_parse_date w folders).
Proof.
  intros Hlog. apply (aggregate_from_agg_of w folders [] []); [done|].
  split; [constructor|]. split.
  - intros k. split; [by intros ?%elem_of_nil|]. by intros (? & ?%elem_of_nil & _).
  - done.
Qed.
End rebuild_follows.

Lemma elem_of_discover w m dir :
  dir ∈ discover_campaign_folders w false m
  ↔ ∃ f, (dir, f) ∈ lw_folders w ∧ is_Some (f_log f).
Proof.
  unfold discover_campaign_folders. rewrite py_sorted_perm, list_elem_of_fmap. split.
  - intros ([d f] & -> & [[Hf _] Hin]%list_elem_of_filter). by exists f.
  - intros (f & Hin & Hf). exists (dir, f). split; [done|].
    apply list_elem_of_filter. split; [|done]. split; [done|]. done.
Qed.

Lemma logged_discover w m x :
  logged w x
  ↔ x ∈ (discover_campaign_folders w false m
           ≫= λ dir, strip_rows (default [] (f_log (folder_at w dir)))).
Proof.
  rewrite list_elem_of_bind. split.
  - intros [dir Hx]. exists dir. split; [done|]. apply elem_of_discover.
    unfold folder_at in Hx. destruct (dict_get (lw_folders w) dir) as [f|] eqn:E.
    + exists f. split; [by apply dict_get_Some_elem|].
      change (default ?d (Some f)) with f in Hx.
      destruct (f_log f); [done|]. by apply elem_of_nil in Hx.
    + by apply elem_of_nil in Hx.
  - intros (dir & Hx & _). by exists dir.
Qed.

Lemma final_row_read rec c :
  row_get (strip_row (project_row tracker_headers (final_row rec))) c
  = strip (row_get (final_row rec) c).
Proof.
  by rewrite row_get_strip_row.
Qed.

Section rebuild_result.
Variable try_parse_date : string → option date.

(** A rebuild over logs of complete entries ends normally, leaves logs and
    mappings alone, and the ledger it writes follows the logs. *)
Lemma rebuild_follows args w :
  fa_marker_required args = false →
  (∀ x, logged w x → entry_row x) →
  ∃ w', rebuild_tracker_from_all try_parse_date args w = Some w'
    ∧ (∀ dir, folder_at w' dir = folder_at w dir)
    ∧ lw_csv w' = lw_csv w
    ∧ (w' = w ∨ ledger_follows_logs w').
Proof.
  intros Hm Hlog. unfold rebuild_tracker_from_all. rewrite Hm.
  destruct (discover_campaign_folders w false (fa_marker_name args)) as [|d0 ds] eqn:Ed.
  { exists w. split_and!; try done. by left. }
  rewrite <- Ed. clear d0 ds Ed.
  set (folders := discover_campaign_folders w false (fa_marker_name args)).
  set (agg := aggregate try_parse_date w folders).
  rewrite write_csv_Some; cycle 1.
  { apply Forall_fmap, Forall_forall. intros rec _. apply final_row_columns. }
  eexists. split; [done|]. split; [done|]. split; [done|]. right.
  pose proof (aggregate_agg_of try_parse_date w folders Hlog) as (Hnd & Hkeys & Hrec).
  fold agg in Hnd, Hkeys, Hrec.
  pose proof (aggregate_NoDup try_parse_date w folders) as Hnums. fold agg in Hnums.
  set (g := λ rec, strip_row (project_row tracker_headers (final_row rec))).
  intros k. unfold ledger_record, read_ledger.
  change (lw_tracker (rebuild_zip5_tally (set_tracker w ?t))) with (Some t).
  change (default [] (Some ?x)) with x.
  assert (strip_rows (project_row tracker_headers <$> (final_row <$> agg.*2))
          = g <$> agg.*2) as ->.
  { rewrite strip_rows_fmap, <- !list_fmap_compose. done. }
  rewrite index_of_keyed; [|done|]; cycle 1.
  { intros k' rec Hin. unfold row_key, g. rewrite !final_row_read.
    change (row_get (final_row rec) "PropertyAddress") with (ag_PropertyAddress rec).
    change (row_get (final_row rec) "OwnerName") with (ag_OwnerName rec).
    rewrite norm_key_strip. apply (Hrec k' rec). by apply dict_get_of_elem. }
  assert (∀ x, logged (rebuild_zip5_tally (set_tracker w
                 (project_row tracker_headers <$> (final_row <$> agg.*2)))) x
               ↔ x ∈ (folders ≫= λ dir, strip_rows (default [] (f_log (folder_at w dir)))))
    as Hlogged.
  { intros x. unfold folders. rewrite <- (logged_discover w (fa_marker_name args)). done. }
  destruct (dict_get agg k) as [rec|] eqn:Eg; cbn [fmap option_fmap option_map].
  - destruct (Hrec k rec Eg) as [_ Hn]. split.
    { assert (k ∈ agg.*1) as (x & Hx & Hk)%Hkeys by (apply dict_get_is_Some; by eexists).
      exists (row_get x "CampaignNumber"), x. split; [|done]. by apply Hlogged. }
    set (cns := py_sorted N.ltb (filter (λ x, x ≠ 0%N) (ag_CampaignNumbers rec))).
    assert (∀ n, n ∈ cns ↔ ∃ x, logged w x ∧ row_key x = k
                                 ∧ campaign_int (row_get x "CampaignNumber") = n) as Hcns.
    { intros n. unfold cns. rewrite py_sorted_perm, list_elem_of_filter, Hn. split.
      - intros (_ & x & Hx & ? & ?). exists x. split; [|done].
        by apply (logged_discover w (fa_marker_name args)).
      - intros (x & Hx & Hk & Hcn). split.
        + rewrite <- Hcn. by destruct (Hlog x Hx) as (_ & _ & [_ ?]).
        + exists x. split; [|done]. by apply (logged_discover w (fa_marker_name args)) in Hx. }
    assert (∀ n, n ∈ cns → canonical (pretty n) ∧ campaign_int (pretty n) = n) as Hcan.
    { intros n (x & Hx & _ & <-)%Hcns. destruct (Hlog x Hx) as (_ & _ & Hc).
      destruct Hc as [Hp H0]. rewrite Hp. done. }
    exists (pretty <$> cns). unfold g. rewrite !final_row_read.
    change (row_get (final_row rec) "CampaignNumbers") with (str_join "|" (pretty <$> cns)).
    change (row_get (final_row rec) "CampaignCount") with (pretty (length cns)).
    split_and!.
    + apply strip_no_space, str_join_digits_no_space, Forall_fmap, Forall_forall.
      intros n _. apply pretty_N_digits.
    + rewrite length_fmap. apply strip_all_digits, pretty_nat_digits.
    + apply (StronglySorted_fmap_local _ (λ a b, (id a < id b)%N)).
      * intros a b Ha Hb Hab. unfold cn_lt.
        destruct (Hcan a Ha) as [_ ->], (Hcan b Hb) as [_ ->]. done.
      * apply (py_sorted_strict id N.ltb N_ltb_spec). rewrite list_fmap_id.
        apply NoDup_filter. rewrite Forall_forall in Hnums.
        apply (Hnums (k, rec)). by apply dict_get_Some_elem.
    + intros c. rewrite list_elem_of_fmap. split.
      * intros (n & -> & (x & Hx & Hk & Hcn)%Hcns). exists x. split_and!; [done|done|].
        destruct (Hlog x Hx) as (_ & _ & [Hp _]). by rewrite <- Hcn.
      * intros (x & Hx & Hk & Hc). exists (campaign_int c). split.
        -- destruct (Hlog x Hx) as (_ & _ & [Hp _]). rewrite <- Hc. done.
        -- apply Hcns. exists x. by rewrite Hc.
  - intros c (x & Hx & Hk & _). apply dict_get_None in Eg. apply Eg, Hkeys.
    exists x. split; [|done]. by apply Hlogged.
Qed.
End rebuild_result.

(** ** The incremental ledger follows the logs *)

Lemma update_tracker_NoDup today groups : ∀ idx,
  NoDup idx.*1 → NoDup (update_tracker today idx groups).*1.
Proof.
  unfold update_tracker. induction groups as [|[k rows] groups IH]; intros idx Hnd; [done|].
  cbn [foldl fst snd]. apply IH. destruct (dict_get idx k); by apply dict_set_NoDup.
Qed.

(** The record of a key after the tracker update: rebuilt from the rows
    added for the key, untouched when there is none. *)
Lemma update_tracker_get today groups : ∀ idx k,
  NoDup groups.*1 →
  dict_get (update_tracker today idx groups) k
  = match dict_get groups k with
    | None => dict_get idx k
    | Some rows =>
        Some (match dict_get idx k with
              | Some tr => update_record today tr rows
              | None => new_record today rows
              end)
    end.
Proof.
  unfold update_tracker. induction groups as [|[k1 rows1] groups IH]; intros idx k Hnd; [done|].
  csimpl in Hnd. apply NoDup_cons in Hnd as [Hni Hnd].
  cbn [foldl fst snd]. rewrite IH by done. cbn [dict_get].
  destruct (decide (k1 = k)) as [->|Hne].
  - rewrite (dict_get_notin groups k Hni).
    destruct (dict_get idx k); by rewrite dict_get_set, decide_True.
  - destruct (dict_get idx k1); rewrite dict_get_set, decide_False by done; done.
Qed.

Lemma group_by_lookup {A K} `{EqDecision K} (key : A → K) rows k :
  dict_get (group_by key rows) k
  = if decide (filter (λ r, key r = k) rows = []) then None
    else Some (filter (λ r, key r = k) rows).
Proof. unfold group_by. rewrite group_by_from_get. by case_decide. Qed.

Lemma row_get_dict_set_ne (r : row) k v k' :
  k ≠ k' → row_get (dict_set r k v) k' = row_get r k'.
Proof. intros. by rewrite row_get_dict_set, decide_False. Qed.

Lemma row_get_dict_set_eq (r : row) k v : row_get (dict_set r k v) k = v.
Proof. by rewrite row_get_dict_set, decide_True. Qed.

Lemma chain_key (t : row) a b c d e addr owner :
  let x := dict_set (dict_set (dict_set (dict_set (dict_set t
             "CampaignNumbers" a) "CampaignCount" b) "TemplateIds" c) "FirstSentDt" d)
             "LastSentDt" e in
  let y := dict_set x "PropertyAddress" (str_or (row_get x "PropertyAddress") addr) in
  row_key (dict_set y "OwnerName" (str_or (row_get y "OwnerName") owner))
  = norm_key (str_or (row_get t "PropertyAddress") addr)
      (str_or (row_get t "OwnerName") owner).
Proof.
  cbv zeta. unfold row_key.
  rewrite row_get_dict_set_ne by done. rewrite !row_get_dict_set_eq.
  by rewrite !row_get_dict_set_ne by done.
Qed.

(** The updated record stays under its key. *)
Lemma update_record_key today tr rows k :
  row_key tr = k → (∀ rr, rr ∈ rows → row_key rr = k) →
  row_key (update_record today tr rows) = k.
Proof.
  intros Htr Hrows. destruct rows as [|r0 rows]; [done|].
  assert (row_key r0 = k) as Hr0 by (apply Hrows; left).
  unfold update_record. cbv zeta. rewrite chain_key.
  apply norm_key_str_or; [|done].
  destruct (_ && _); [|done]. by rewrite !row_get_dict_set_ne by done.
Qed.

Lemma new_record_key today rows k :
  rows ≠ [] → (∀ rr, rr ∈ rows → row_key rr = k) → row_key (new_record today rows) = k.
Proof.
  intros Hne Hrows. destruct rows as [|r0 rows]; [done|]. apply (Hrows r0). left.
Qed.

Lemma get_first_stripped rows r cols :
  r ∈ strip_rows rows → strip (get_first r cols) = get_first r cols.
Proof.
  rewrite strip_rows_fmap. intros (r0 & -> & _)%list_elem_of_fmap.
  induction cols as [|c cols IH]; [done|]. simpl. unfold str_or.
  destruct (truthy _); [|done]. by rewrite row_get_strip_row, strip_idem.
Qed.

Lemma entry_row_same x y : same_fields x y → entry_row y → entry_row x.
Proof. intros H. unfold entry_row. by rewrite !H. Qed.

Section logs_after_run.
Variables (w w1 : ledger_world) (dir : string) (existing to_add : list row).
Variable headers : list string.
Hypothesis Hexisting : existing = strip_rows (default [] (f_log (folder_at w dir))).
Hypothesis Hlog : ∀ d,
  f_log (folder_at w1 d)
  = if decide (to_add ≠ [] ∧ dir = d)
    then Some (project_row headers <$> existing ++ to_add)
    else f_log (folder_at w d).
Hypothesis Hheaders :
  Forall (λ x : row, Forall (λ kv, kv.1 ∈ headers) x) (existing ++ to_add).

Lemma written_log_row z :
  z ∈ existing ++ to_add →
  same_fields (strip_row (project_row headers z)) (strip_row z).
Proof.
  intros Hz. apply same_fields_strip, project_row_same.
  rewrite Forall_forall in Hheaders. auto.
Qed.

Lemma existing_row_stripped z : z ∈ existing → same_fields (strip_row z) z.
Proof.
  rewrite Hexisting, strip_rows_fmap. intros (z0 & -> & _)%list_elem_of_fmap.
  apply strip_row_idem_fields.
Qed.

Lemma logged_after_run x :
  logged w1 x →
  ∃ y, same_fields x y ∧ (logged w y ∨ ∃ e, e ∈ to_add ∧ y = strip_row e).
Proof.
  intros [d Hx]. rewrite Hlog in Hx. destruct (decide _) as [[Hne <-]|Hno].
  - change (default [] (Some ?l)) with l in Hx. rewrite strip_rows_fmap in Hx.
    apply list_elem_of_fmap in Hx as (z1 & -> & Hz1).
    apply list_elem_of_fmap in Hz1 as (z & -> & Hz).
    pose proof (written_log_row z Hz) as Hs.
    apply elem_of_app in Hz as [Hz|Hz].
    + exists z. split.
      * eapply same_fields_trans; [exact Hs|]. by apply existing_row_stripped.
      * left. exists dir. by rewrite <- Hexisting.
    + exists (strip_row z). split; [done|]. right. by exists z.
  - exists x. split; [done|]. left. by exists d.
Qed.

Lemma logged_kept y : logged w y → ∃ x, logged w1 x ∧ same_fields x y.
Proof.
  intros [d Hy]. destruct (decide (to_add ≠ [] ∧ dir = d)) as [[Hne <-]|Hno].
  - exists (strip_row (project_row headers y)). split.
    + exists dir. rewrite Hlog, decide_True by done.
      change (default [] (Some ?l)) with l. rewrite strip_rows_fmap.
      apply list_elem_of_fmap. eexists. split; [done|].
      apply list_elem_of_fmap. exists y. split; [done|]. apply elem_of_app. left.
      by rewrite Hexisting.
    + eapply same_fields_trans; [apply written_log_row|apply existing_row_stripped].
      * apply elem_of_app. left. by rewrite Hexisting.
      * by rewrite Hexisting.
  - exists y. split; [|done]. exists d. by rewrite Hlog, decide_False.
Qed.

Lemma logged_added e : e ∈ to_add → ∃ x, logged w1 x ∧ same_fields x (strip_row e).
Proof.
  intros He. exists (strip_row (project_row headers e)). split.
  - exists dir. rewrite Hlog, decide_True; cycle 1.
    { split; [|done]. intros ->. by apply elem_of_nil in He. }
    change (default [] (Some ?l)) with l. rewrite strip_rows_fmap.
    apply list_elem_of_fmap. eexists. split; [done|].
    apply list_elem_of_fmap. exists e. split; [done|]. apply elem_of_app. by right.
  - apply written_log_row, elem_of_app. by right.
Qed.

(** The numbers logged for a key after the run: those logged before, and
    the number of each added row of the key. *)
Lemma logged_number_after k c :
  logged_number w1 k c
  ↔ logged_number w k c
    ∨ ∃ e, e ∈ to_add ∧ row_key (strip_row e) = k
           ∧ row_get (strip_row e) "CampaignNumber" = c.
Proof.
  split.
  - intros (x & Hx & Hk & Hc). apply logged_after_run in Hx as (y & Hs & [Hy|(e & He & ->)]).
    + left. exists y. by rewrite <- (row_key_same x y), <- Hs.
    + right. exists e. by rewrite <- (row_key_same _ _ Hs), <- Hs.
  - intros [(y & Hy & Hk & Hc)|(e & He & Hk & Hc)].
    + apply logged_kept in Hy as (x & Hx & Hs). exists x.
      by rewrite (row_key_same x y), Hs.
    + apply logged_added in He as (x & Hx & Hs). exists x.
      by rewrite (row_key_same _ _ Hs), Hs.
Qed.
End logs_after_run.

Lemma row_key_strip_row r : row_key (strip_row r) = row_key r.
Proof. unfold row_key. by rewrite !row_get_strip_row, norm_key_strip. Qed.

Lemma lists_numbers_iff r (P Q : string → Prop) :
  (∀ c, P c ↔ Q c) → lists_numbers r P → lists_numbers r Q.
Proof.
  intros HPQ (l & ? & ? & ? & Hl). exists l. split_and!; try done.
  intros c. by rewrite Hl.
Qed.

Lemma lists_numbers_canonical (P : string → Prop) (l : list string) :
  (∀ c, P c → canonical c) → (∀ c, c ∈ l ↔ P c) →
  Forall (λ x, x ≠ "" ∧ all_digits x) l.
Proof.
  intros HP Hl. apply Forall_forall. intros c Hc. by apply canonical_digits, HP, Hl.
Qed.

(** A record read back from the file lists what the record written listed. *)
Lemma lists_numbers_read r r' P :
  (∀ c, P c → canonical c) →
  row_get r' "CampaignNumbers" = strip (row_get r "CampaignNumbers") →
  row_get r' "CampaignCount" = strip (row_get r "CampaignCount") →
  lists_numbers r P → lists_numbers r' P.
Proof.
  intros HP Hn Hc (l & Hl & Hcount & Hs & Hel). exists l.
  pose proof (lists_numbers_canonical P l HP Hel) as Hd.
  rewrite Hn, Hc, Hl, Hcount. split_and!; try done.
  - apply strip_no_space, str_join_digits_no_space.
    eapply Forall_impl; [exact Hd|]. by intros x [_ ?].
  - apply strip_all_digits, pretty_nat_digits.
Qed.

(** A record made from a set of canonical numbers lists them. *)
Lemma lists_numbers_intro r (S : list string) P :
  NoDup S → (∀ c, c ∈ S → canonical c) →
  row_get r "CampaignNumbers" = str_join "|" (py_sorted cn_before S) →
  row_get r "CampaignCount" = pretty (length S) →
  (∀ c, c ∈ S ↔ P c) →
  lists_numbers r P.
Proof.
  intros Hnd Hcan Hn Hc HP. exists (py_sorted cn_before S). split_and!.
  - done.
  - by rewrite py_sorted_perm.
  - apply (py_sorted_strict campaign_int cn_before cn_before_spec).
    apply NoDup_fmap_2_strong; [|done]. intros x y Hx Hy. apply canonical_inj; auto.
  - intros c. by rewrite py_sorted_perm.
Qed.

Lemma lists_numbers_parts r P :
  (∀ c, P c → canonical c) → lists_numbers r P →
  ∀ c, c ∈ nonempty_parts (row_get r "CampaignNumbers") ↔ P c.
Proof.
  intros HP (l & Hl & _ & _ & Hel) c.
  rewrite Hl, nonempty_parts_join_digits; [done|].
  by apply (lists_numbers_canonical P).
Qed.

(** The fields of a log entry, as written and as read back. *)
Lemma log_entry_read today name cn zip_idx mapping r :
  r ∈ strip_rows mapping →
  let e := log_entry today name cn zip_idx r in
  row_get e "CampaignNumber" = cn
  ∧ row_key (strip_row e) = row_key e
  ∧ row_get (strip_row e) "CampaignNumber" = strip cn
  ∧ row_get (strip_row e) "PropertyAddress" = mapping_addr r
  ∧ row_get (strip_row e) "OwnerName" = mapping_owner r.
Proof.
  intros Hr e. split_and!; [done|apply row_key_strip_row| | |];
    rewrite row_get_strip_row; [done| |].
  - apply (get_first_stripped mapping), Hr.
  - apply (get_first_stripped mapping), Hr.
Qed.

(** A finalize run that gets to its writes keeps the logs made of complete
    entries and the ledger following the logs. *)
Lemma commit_run_follows today args w mapping w1 :
  canonical (campaign_number_of args) →
  Forall (λ r, mapping_addr r ≠ "" ∧ mapping_owner r ≠ "") (strip_rows mapping) →
  (∀ x, logged w x → entry_row x) → ledger_follows_logs w →
  commit_run today args w (to_add_of today args w (strip_rows mapping)) = Some w1 →
  (∀ x, logged w1 x → entry_row x) ∧ ledger_follows_logs w1.
Proof.
  intros Hcn Hcomplete Hentries Hfollow Hrun.
  set (cn := campaign_number_of args) in *.
  set (to_add := to_add_of today args w (strip_rows mapping)) in *.
  pose proof (commit_run_inv _ _ _ _ _ Hrun) as Hinv. cbv zeta in Hinv.
  destruct Hinv as (_ & Hlog & Ht & Hk). clear Hrun.
  assert (∀ e, e ∈ to_add →
            row_get e "CampaignNumber" = cn ∧ row_key (strip_row e) = row_key e
            ∧ row_get (strip_row e) "CampaignNumber" = cn
            ∧ entry_row (strip_row e)) as Hadd.
  { intros e He. unfold to_add, to_add_of in He.
    apply elem_of_rows_to_add in He as (r & Hr & ->).
    pose proof (canonical_strip _ Hcn) as Hstrip. unfold cn in Hstrip, Hcn |- *.
    destruct (log_entry_read today (campaign_name_of args) (campaign_number_of args)
                (build_zip_index_from_master (folder_at w (fa_campaign_dir args)))
                mapping r Hr) as (E1 & E2 & E3 & E4 & E5).
    rewrite Hstrip in E3. split_and!; try done.
    unfold entry_row. rewrite E3, E4, E5.
    rewrite Forall_forall in Hcomplete. destruct (Hcomplete r Hr). done. }
  pose proof (logged_number_after w w1 (fa_campaign_dir args) (existing_log args w) to_add
                _ eq_refl Hlog (log_headers_complete _)) as Hnum.
  assert (∀ x, logged w1 x → entry_row x) as Hentries1.
  { intros x Hx.
    apply (logged_after_run w w1 (fa_campaign_dir args) (existing_log args w) to_add
             _ eq_refl Hlog (log_headers_complete _)) in Hx as (y & Hs & [Hy|(e & He & ->)]).
    - apply (entry_row_same x y Hs). by apply Hentries.
    - apply (entry_row_same _ _ Hs). by apply Hadd. }
  split; [done|].
  assert (∀ k c, logged_number w k c → canonical c) as Hcanon.
  { intros k c (x & Hx & _ & <-). by destruct (Hentries x Hx) as (_ & _ & ?). }
  assert (∀ k c, logged_number w1 k c → canonical c) as Hcanon1.
  { intros k c (x & Hx & _ & <-). by destruct (Hentries1 x Hx) as (_ & _ & ?). }
  set (idx := tracker_index (read_ledger w)) in *.
  set (groups := group_by row_key to_add).
  set (d := update_tracker today idx groups).
  set (F := tracker_after today (read_ledger w) to_add) in *.
  set (C := tracker_columns F) in *.
  set (g := λ r : row, strip_row (project_row C r)).
  assert (F = d.*2) as HF by done.
  assert (NoDup d.*1) as Hnd.
  { apply update_tracker_NoDup, tracker_index_NoDup. }
  assert (∀ k, dict_get d k
               = if decide (filter (λ r, row_key r = k) to_add = [])
                 then dict_get idx k
                 else Some (match dict_get idx k with
                            | Some tr => update_record today tr
                                           (filter (λ r, row_key r = k) to_add)
                            | None => new_record today (filter (λ r, row_key r = k) to_add)
                            end)) as Hget.
  { intros k. unfold d. rewrite update_tracker_get by apply group_by_keys_NoDup.
    unfold groups. rewrite group_by_lookup. by case_decide. }
  assert (∀ k rr, rr ∈ filter (λ r, row_key r = k) to_add →
            row_key rr = k ∧ rr ∈ to_add) as Hgroup.
  { intros k rr Hrr. by apply list_elem_of_filter in Hrr. }
  assert (∀ k r, dict_get d k = Some r → row_key r = k ∧ r ∈ F) as Hrec.
  { intros k r Hr. split.
    - rewrite Hget in Hr. case_decide as Hf.
      + apply dict_get_Some_elem, tracker_index_keyed in Hr. by destruct Hr.
      + injection Hr as <-. destruct (dict_get idx k) as [tr|] eqn:Et.
        * apply update_record_key.
          -- apply dict_get_Some_elem, tracker_index_keyed in Et. by destruct Et.
          -- intros rr Hrr. by apply Hgroup in Hrr as [? _].
        * apply new_record_key; [done|]. intros rr Hrr. by apply Hgroup in Hrr as [? _].
    - rewrite HF. apply list_elem_of_fmap. exists (k, r). split; [done|].
      by apply dict_get_Some_elem. }
  assert (∀ r, r ∈ F → same_fields (project_row C r) r) as Hproj.
  { intros r Hr. apply project_row_same. rewrite Forall_forall in Hk. by apply Hk. }
  intros k. unfold ledger_record, read_ledger. rewrite Ht.
  change (default [] (Some ?x)) with x. rewrite HF.
  assert (strip_rows (project_row C <$> d.*2) = g <$> d.*2) as ->.
  { by rewrite strip_rows_fmap, <- list_fmap_compose. }
  rewrite index_of_keyed; [|done|]; cycle 1.
  { intros k' r Hin. apply (dict_get_of_elem d k' r Hnd) in Hin.
    destruct (Hrec k' r Hin) as [<- Hr]. unfold g.
    by rewrite row_key_strip_row, (row_key_same _ _ (Hproj r Hr)). }
  specialize (Hfollow k). unfold ledger_record in Hfollow. fold idx in Hfollow.
  destruct (dict_get d k) as [r|] eqn:Er; cbn [fmap option_fmap option_map].
  - destruct (Hrec k r Er) as [_ HrF].
    assert (row_get (g r) "CampaignNumbers" = strip (row_get r "CampaignNumbers")
            ∧ row_get (g r) "CampaignCount" = strip (row_get r "CampaignCount"))
      as [Hgn Hgc].
    { unfold g. by rewrite !row_get_strip_row, !(Hproj r HrF). }
    rewrite Hget in Er. case_decide as Hf.
    + (* no row of this key was added *)
      rewrite Er in Hfollow. destruct Hfollow as [(c0 & Hc0) Hlist].
      assert (∀ c, logged_number w1 k c ↔ logged_number w k c) as Hsame.
      { intros c. rewrite Hnum. split; [|by left].
        intros [?|(e & He & Hke & _)]; [done|]. exfalso.
        destruct (Hadd e He) as (_ & Hkk & _). rewrite Hkk in Hke.
        apply (filter_nil_not_elem_of _ _ e Hf Hke He). }
      split; [exists c0; by apply Hsame|].
      apply (lists_numbers_read r); [apply Hcanon1|done|done|].
      eapply lists_numbers_iff; [|exact Hlist]. intros c. by rewrite Hsame.
    + (* rows of this key were added *)
      injection Er as <-.
      set (rows := filter (λ r, row_key r = k) to_add) in *.
      destruct rows as [|r0 rows'] eqn:Erows; [done|].
      assert (∀ rr, rr ∈ r0 :: rows' → rr ∈ to_add ∧ row_key rr = k) as Hrows.
      { intros rr Hrr. rewrite <- Erows in Hrr. apply Hgroup in Hrr. by destruct Hrr. }
      assert (∀ c, logged_number w1 k c ↔ logged_number w k c ∨ c = cn) as Hnew.
      { intros c. rewrite Hnum. split.
        - intros [?|(e & He & _ & Hc)]; [by left|right].
          destruct (Hadd e He) as (_ & _ & Hcn' & _). congruence.
        - intros [?| ->]; [by left|right]. exists r0.
          destruct (Hrows r0) as [Hin Hkey]; [left|].
          destruct (Hadd r0 Hin) as (_ & Hkk & Hcn' & _). by rewrite Hkk. }
      split; [exists cn; apply Hnew; by right|].
      match goal with
      | |- lists_numbers (g ?r) _ =>
          apply (lists_numbers_read r (g r)); [apply Hcanon1|done|done|]
      end.
      destruct (dict_get idx k) as [tr|] eqn:Et.
      * destruct Hfollow as [_ Hlist].
        destruct (update_record_fields today tr r0 rows') as [Hn Hc].
        cbv zeta in Hn, Hc.
        eapply lists_numbers_intro; [apply NoDup_py_set| |exact Hn|exact Hc|].
        -- intros c [Hc'|Hc']%elem_of_py_set%elem_of_app.
           ++ apply (Hcanon k). by apply (lists_numbers_parts tr _ (Hcanon k) Hlist).
           ++ apply list_elem_of_fmap in Hc' as (rr & -> & Hrr).
              destruct (Hrows rr Hrr) as [Hin _].
              destruct (Hadd rr Hin) as (-> & _). done.
        -- intros c. rewrite Hnew, elem_of_py_set, elem_of_app.
           rewrite (lists_numbers_parts tr _ (Hcanon k) Hlist).
           split; (intros [?|Hc']; [by left|right]).
           ++ apply list_elem_of_fmap in Hc' as (rr & -> & Hrr).
              destruct (Hrows rr Hrr) as [Hin _]. by destruct (Hadd rr Hin) as (-> & _).
           ++ subst c. apply list_elem_of_fmap. exists r0. split; [|left].
              destruct (Hrows r0) as [Hin _]; [left|]. by destruct (Hadd r0 Hin) as (-> & _).
      * assert (row_get r0 "CampaignNumber" = cn) as Hr0.
        { destruct (Hrows r0) as [Hin _]; [left|]. by destruct (Hadd r0 Hin) as (-> & _). }
        apply (lists_numbers_intro _ (py_set [cn])).
        -- apply NoDup_py_set.
        -- by intros c ->%elem_of_py_set%list_elem_of_singleton.
        -- unfold new_record. by rewrite Hr0.
        -- unfold new_record. by rewrite Hr0.
        -- intros c. rewrite Hnew, elem_of_py_set, list_elem_of_singleton.
           split; [by right|]. intros [Hc| ->]; [|done]. exfalso. by apply (Hfollow c).
  - rewrite Hget in Er. case_decide as Hf; [|done].
    rewrite Er in Hfollow. intros c. rewrite Hnum. intros [Hc|(e & He & Hke & _)].
    + by apply (Hfollow c).
    + destruct (Hadd e He) as (_ & Hkk & _). rewrite Hkk in Hke.
      apply (filter_nil_not_elem_of _ _ e Hf Hke He).
Qed.

Lemma mappings_complete_same w w' :
  same_sources w w' → mappings_complete w → mappings_complete w'.
Proof.
  intros Hs Hm args mapping Hf. apply (Hm args).
  by rewrite <- (same_sources_find_mapping args w w' Hs).
Qed.

Lemma finalize_in_step today args w w1 :
  canonical (campaign_number_of args) → ledger_in_step w →
  append_executed_and_update_tracker today args w = Some w1 →
  ledger_in_step w1.
Proof.
  intros Hcn (Hentries & Hfollow & Hmaps). unfold append_executed_and_update_tracker.
  destruct (find_mapping args w) as [mapping|] eqn:Em; [|by intros [= <-]].
  destruct (negb _); [by intros [= <-]|].
  pose proof (Hmaps args mapping Em) as Hcomplete.
  destruct (strip_rows mapping) as [|m0 ms] eqn:Erows; [by intros [= <-]|].
  destruct (fa_dry_run args); [by intros [= <-]|].
  rewrite <- Erows in *. intros Hrun.
  destruct (commit_run_follows today args w mapping w1 Hcn Hcomplete Hentries Hfollow Hrun)
    as [H1 H2].
  split; [done|]. split; [done|].
  apply commit_run_inv in Hrun as (Hs & _). by apply (mappings_complete_same w).
Qed.

Section in_step.
Variable try_parse_date : string → option date.

Lemma rebuild_in_step args w :
  fa_marker_required args = false → ledger_in_step w →
  ∃ w', rebuild_tracker_from_all try_parse_date args w = Some w'
    ∧ (∀ x, logged w' x ↔ logged w x) ∧ ledger_in_step w'.
Proof.
  intros Hm (Hentries & Hfollow & Hmaps).
  destruct (rebuild_follows try_parse_date args w Hm Hentries)
    as (w' & Hrun & Hfolders & Hcsv & Hw').
  exists w'. split; [done|].
  assert (∀ x, logged w' x ↔ logged w x) as Hlogged.
  { intros x. unfold logged. by setoid_rewrite Hfolders. }
  split; [done|]. split; [|split].
  - intros x Hx. by apply Hentries, Hlogged.
  - by destruct Hw' as [->|?].
  - apply (mappings_complete_same w); [|done]. split; [done|]. intros d.
    by rewrite Hfolders.
Qed.

Lemma finalize_main_in_step today args w w1 :
  plain_run args → ledger_in_step w →
  finalize_main try_parse_date today args w = Some w1 →
  ledger_in_step w1.
Proof.
  intros [Hm Hcn] Hw. unfold finalize_main.
  destruct (fa_rebuild_all args).
  { destruct (rebuild_in_step args w Hm Hw) as (w' & -> & _ & ?). by intros [= <-]. }
  destruct (negb _); [by intros [= <-]|].
  destruct (append_executed_and_update_tracker today args w) as [w0|] eqn:E; [|done].
  cbn [mbind option_bind].
  pose proof (finalize_in_step today args w w0 (Hcn eq_refl) Hw E) as Hw0.
  destruct (fa_rebuild_templates args); [|by intros [= <-]].
  destruct (rebuild_in_step args w0 Hm Hw0) as (w' & -> & _ & ?). by intros [= <-].
Qed.

Lemma run_all_in_step runs : ∀ w w',
  Forall (λ run : string * ledger_args, plain_run run.2) runs →
  ledger_in_step w →
  run_all try_parse_date runs w = Some w' →
  ledger_in_step w'.
Proof.
  induction runs as [|run runs IH]; intros w w' Hruns Hw.
  - by intros [= <-].
  - apply Forall_cons in Hruns as [Hrun Hruns]. rewrite run_all_cons.
    destruct (finalize_main try_parse_date run.1 run.2 w) as [w1|] eqn:E; [|done].
    cbn [mbind option_bind]. apply IH; [done|]. by eapply finalize_main_in_step.
Qed.

(** Two records that list the same numbers hold the same two fields. *)
Lemma lists_numbers_agree r1 r2 P :
  lists_numbers r1 P → lists_numbers r2 P →
  row_get r1 "CampaignNumbers" = row_get r2 "CampaignNumbers"
  ∧ row_get r1 "CampaignCount" = row_get r2 "CampaignCount".
Proof.
  intros (l1 & -> & -> & Hs1 & H1) (l2 & -> & -> & Hs2 & H2).
  assert (l1 = l2) as ->; [|done].
  apply (strict_sorted_unique campaign_int); [done|done|].
  intros c. by rewrite H1, H2.
Qed.
End in_step.

Lemma fresh_world_in_step w : fresh_world w → ledger_in_step w.
Proof.
  intros (Ht & Hf & Hc). rewrite Forall_forall in Hf.
  assert (∀ dir, f_log (folder_at w dir) = None
                 ∧ from_option complete_mapping True (f_mapping_ref (folder_at w dir))
                 ∧ from_option complete_mapping True (f_mapping (folder_at w dir))) as Hdir.
  { intros dir. unfold folder_at.
    destruct (dict_get (lw_folders w) dir) as [f|] eqn:E; [|done].
    apply dict_get_Some_elem in E. apply (Hf _ E). }
  assert (∀ x, ¬ logged w x) as Hno.
  { intros x [dir Hx]. destruct (Hdir dir) as [E _]. rewrite E in Hx.
    by apply elem_of_nil in Hx. }
  split; [|split].
  - intros x Hx. by destruct (Hno x).
  - intros k. unfold ledger_record, read_ledger. rewrite Ht.
    intros c (x & Hx & _). by destruct (Hno x).
  - intros args mapping. unfold find_mapping. destruct (truthy _).
    + intros Hm%dict_get_Some_elem. rewrite Forall_forall in Hc. apply Hc.
      apply list_elem_of_fmap. by eexists (_, _).
    + destruct (Hdir (fa_campaign_dir args)) as (_ & H1 & H2).
      destruct (f_mapping_ref _); [by intros [= <-]|]. intros Hm. by rewrite Hm in H2.
Qed.

(** C4 (full-rebuild equivalence, amended). Start from a disk without
    tracker and executed logs, whose mappings name an address and an owner
    in every row, and run the script any number of times with canonical
    campaign numbers (positive integers as Python prints them) and without
    [--marker-required]. A rebuild from all executed logs then yields, for
    every dedup key, the [CampaignNumbers] and the [CampaignCount] the
    incrementally kept ledger holds. *)
Theorem rebuild_matches_incremental (try_parse_date : string → option date)
    (runs : list (string * ledger_args)) (w w_inc : ledger_world) (args : ledger_args) :
  fresh_world w →
  Forall (λ run : string * ledger_args, plain_run run.2) runs →
  run_all try_parse_date runs w = Some w_inc →
  fa_marker_required args = false →
  ∃ w_rb, rebuild_tracker_from_all try_parse_date args w_inc = Some w_rb
    ∧ ∀ k, ledger_numbers w_rb k = ledger_numbers w_inc k
           ∧ ledger_count w_rb k = ledger_count w_inc k.
Proof.
  intros Hw Hruns Hrun Hm.
  pose proof (run_all_in_step try_parse_date runs w w_inc Hruns
                (fresh_world_in_step w Hw) Hrun) as Hinc.
  destruct (rebuild_in_step try_parse_date args w_inc Hm Hinc)
    as (w_rb & Hrb & Hlogged & (_ & Hfollow_rb & _)).
  exists w_rb. split; [done|]. intros k.
  destruct Hinc as (_ & Hfollow & _). specialize (Hfollow k). specialize (Hfollow_rb k).
  assert (∀ c, logged_number w_rb k c ↔ logged_number w_inc k c) as Hnum.
  { intros c. unfold logged_number. by setoid_rewrite Hlogged. }
  unfold ledger_numbers, ledger_count.
  destruct (ledger_record w_rb k) as [r1|], (ledger_record w_inc k) as [r2|].
  - destruct Hfollow_rb as [_ H1], Hfollow as [_ H2].
    apply (lists_numbers_iff _ _ _ Hnum) in H1.
    destruct (lists_numbers_agree r1 r2 _ H1 H2) as [E1 E2].
    cbn [fmap option_fmap option_map]. by rewrite E1, E2.
  - destruct Hfollow_rb as [(c & Hc) _]. by destruct (Hfollow c); apply Hnum.
  - destruct Hfollow as [(c & Hc) _]. by destruct (Hfollow_rb c); apply Hnum.
  - done.
Qed.

Lemma rebuild_matches_incremental_witness :
  let mapping3 := [[("owner", "Jane Doe"); ("property_address", "1 Main St");
                    ("ref_code", "R-001"); ("template_ref", "T1"); ("ZIP5", "95835")];
                   [("owner", "Mary Jane"); ("property_address", "7 Oak Ave");
                    ("ref_code", "R-002"); ("template_ref", "T2"); ("ZIP5", "95630")]] in
  let mapping4 := [[("owner", "JANE DOE"); ("property_address", "1 Main St");
                    ("ref_code", "R-101"); ("template_ref", "T1"); ("ZIP5", "95835")]] in
  let w := LedgerWorld
             [("out/Campaign_3_Nov2026", Folder (Some mapping3) None None None []);
              ("out/Campaign_4_Dec2026", Folder None (Some mapping4) None None [])]
             [] None None in
  let finalize dir := LedgerArgs dir "" "" "" false false false false false
                        "CAMPAIGN.TAG" false in
  let rebuild := LedgerArgs "" "" "" "" false false false true false "CAMPAIGN.TAG" false in
  let runs := [("12/1/2026", finalize "out/Campaign_4_Dec2026");
               ("11/4/2026", finalize "out/Campaign_3_Nov2026");
               ("11/5/2026", finalize "out/Campaign_3_Nov2026")] in
  let w_inc := default w (run_all (λ _, None) runs w) in
  ledger_numbers w_inc ("1 MAIN ST", "JANE DOE") = Some "3|4"
  ∧ ∃ w_rb, rebuild_tracker_from_all (λ _, None) rebuild w_inc = Some w_rb
      ∧ ∀ k, ledger_numbers w_rb k = ledger_numbers w_inc k
             ∧ ledger_count w_rb k = ledger_count w_inc k.
Proof.
  intros mapping3 mapping4 w finalize rebuild runs w_inc.
  split; [vm_compute; reflexivity|].
  apply (rebuild_matches_incremental (λ _, None) runs w w_inc rebuild).
  - split; [reflexivity|]. split.
    + repeat constructor; vm_compute; discriminate.
    + constructor.
  - repeat constructor; vm_compute; try reflexivity; discriminate.
  - vm_compute. reflexivity.
  - reflexivity.
Defined.

(** C4 as stated fails. A finalize run logs and counts a mapping row
    without owner, and keeps the campaign number as the folder name spells
    it; the rebuild skips log rows without address or owner and prints
    campaign numbers anew. *)
Lemma rebuild_differs_from_incremental_counterexample :
  let mapping := [[("owner", "Jane Doe"); ("property_address", "1 Main St");
                   ("ref_code", "R-001"); ("template_ref", "T1"); ("ZIP5", "95835")];
                  [("owner", ""); ("property_address", "9 Elm St");
                   ("ref_code", "R-002"); ("template_ref", "T1"); ("ZIP5", "95630")]] in
  let w := LedgerWorld [("out/Campaign_07_Nov2026", Folder (Some mapping) None None None [])]
             [] None None in
  let finalize := LedgerArgs "out/Campaign_07_Nov2026" "" "" "" false false false false
                    false "CAMPAIGN.TAG" false in
  let rebuild := LedgerArgs "" "" "" "" false false false true false "CAMPAIGN.TAG" false in
  let w_inc := default w (finalize_main (λ _, None) "11/4/2026" finalize w) in
  let w_rb := default w (finalize_main (λ _, None) "11/5/2026" rebuild w_inc) in
  ledger_count w_inc ("9 ELM ST", "") = Some "1"
  ∧ ledger_count w_rb ("9 ELM ST", "") = None
  ∧ ledger_numbers w_inc ("1 MAIN ST", "JANE DOE") = Some "07"
  ∧ ledger_numbers w_rb ("1 MAIN ST", "JANE DOE") = Some "7".
Proof.
  vm_compute. done.
Qed.

(* ================================================================== *)
(** * Further properties of the code *)

(** ** The ledger scripts *)

(** X1. The campaign numbers joined into the [CampaignNumbers] field with
    ["|".join] are the pieces [split("|")] reads back, when none of them is
    empty or holds a bar. *)
Theorem campaign_numbers_round_trip (l : list string) :
  Forall (λ x, x ≠ "" ∧ str_all (λ a, negb (bool_decide (a = "|"%char))) x) l →
  nonempty_parts (str_join "|" l) = l.
Proof. apply nonempty_parts_join. Qed.

Lemma campaign_numbers_round_trip_witness :
  nonempty_parts (str_join "|" ["3"; "12"; "A-7 b"]) = ["3"; "12"; "A-7 b"].
Proof.
  apply (campaign_numbers_round_trip ["3"; "12"; "A-7 b"]).
  repeat constructor; vm_compute; congruence.
Defined.

(** X2. The tracker is read into a dictionary by dedup key: when the file
    holds several rows for a key, the builder's history filter sees the last
    of them; without a tracker file it sees no record at all. *)
Theorem read_tracker_last_row_wins (w : build_world) (k : string * string) :
  dict_get (read_tracker w) k
  = last (filter (λ r, row_key r = k) (strip_rows (default [] (w_tracker w)))).
Proof.
  unfold read_tracker. destruct (w_tracker w) as [rows|]; [|done].
  apply (tracker_index_get (strip_rows rows) k).
Qed.

(** X3. A rebuild can be repeated: it always ends normally, and a second
    rebuild with the same options finds the disk exactly as the first one
    left it. *)
Theorem rebuild_twice_same_as_once (try_parse_date : string → option date)
    (args : ledger_args) (w : ledger_world) :
  ∃ w1, rebuild_tracker_from_all try_parse_date args w = Some w1
        ∧ rebuild_tracker_from_all try_parse_date args w1 = Some w1.
Proof.
  unfold rebuild_tracker_from_all.
  destruct (discover_campaign_folders w _ _) as [|d ds] eqn:Ed.
  { exists w. by rewrite Ed. }
  rewrite write_csv_Some; cycle 1.
  { apply Forall_fmap, Forall_forall. intros rec _. apply final_row_columns. }
  eexists. split; [done|].
  change (discover_campaign_folders (rebuild_zip5_tally (set_tracker w ?t)) ?a ?b)
    with (discover_campaign_folders w a b).
  rewrite Ed.
  change (aggregate try_parse_date (rebuild_zip5_tally (set_tracker w ?t)) ?f)
    with (aggregate try_parse_date w f).
  rewrite write_csv_Some; [done|].
  apply Forall_fmap, Forall_forall. intros rec _. apply final_row_columns.
Qed.

(** X4. A rebuild repairs the ledger: whatever the tracker held before, when
    a campaign folder with an executed log is found every record written
    has [CampaignCount == |unique(CampaignNumbers)|]; when none is found
    nothing is written. *)
Theorem rebuild_repairs_ledger (try_parse_date : string → option date)
    (args : ledger_args) (w : ledger_world) :
  ∃ w', rebuild_tracker_from_all try_parse_date args w = Some w'
    ∧ if decide (discover_campaign_folders w (fa_marker_required args)
                   (fa_marker_name args) = [])
      then w' = w
      else Forall count_matches (default [] (lw_tracker w'))
           ∧ lw_folders w' = lw_folders w ∧ lw_csv w' = lw_csv w.
Proof.
  unfold rebuild_tracker_from_all.
  destruct (discover_campaign_folders w _ _) as [|d ds] eqn:Ed.
  { exists w. by rewrite decide_True. }
  rewrite write_csv_Some; cycle 1.
  { apply Forall_fmap, Forall_forall. intros rec _. apply final_row_columns. }
  eexists. split; [done|]. rewrite decide_False by done. split; [|done].
  change (lw_tracker (rebuild_zip5_tally (set_tracker w ?t))) with (Some t).
  change (default [] (Some ?x)) with x.
  apply Forall_fmap, Forall_fmap, Forall_forall. intros rec Hrec.
  cbn [compose]. apply kept_record_count_matches.
  apply (kept_record_same (final_row rec) (project_row _ (final_row rec))).
  - apply same_fields_sym, project_row_same, final_row_columns.
  - apply final_row_kept. pose proof (aggregate_NoDup try_parse_date w (d :: ds)) as H.
    rewrite Forall_forall in H.
    apply list_elem_of_fmap in Hrec as (kv & -> & Hkv). by apply H.
Qed.

Lemma chain_fields (t : row) a b c d e f g :
  let t' := dict_set (dict_set (dict_set (dict_set (dict_set (dict_set (dict_set t
              "CampaignNumbers" a) "CampaignCount" b) "TemplateIds" c) "FirstSentDt" d)
              "LastSentDt" e) "PropertyAddress" f) "OwnerName" g in
  row_get t' "ZIP5" = row_get t "ZIP5"
  ∧ row_get t' "TemplateIds" = c
  ∧ row_get t' "FirstSentDt" = d
  ∧ row_get t' "LastSentDt" = e
  ∧ ∀ col, col ∉ tracker_headers → row_get t' col = row_get t col.
Proof.
  cbv zeta. split_and!.
  - by rewrite !row_get_dict_set_ne by done.
  - rewrite !row_get_dict_set_ne by done. apply row_get_dict_set_eq.
  - rewrite !row_get_dict_set_ne by done. apply row_get_dict_set_eq.
  - rewrite !row_get_dict_set_ne by done. apply row_get_dict_set_eq.
  - intros col Hcol. unfold tracker_headers in Hcol.
    rewrite !row_get_dict_set_ne; [done|intros <-; apply Hcol; repeat first [left|right]..].
Qed.

(** X5. What the tracker update does to the record of a key that was mailed
    again: the ZIP5 is filled in only when the record had none, the first
    date is kept when there is one, the last date is the day of the run, the
    template ids of the new rows are appended to the sequence (repeats
    included), and columns outside the tracker's header are left alone. *)
Theorem update_record_policy (today : string) (tr r0 : row) (rows : list row) :
  let tr' := update_record today tr (r0 :: rows) in
  row_get tr' "ZIP5"
  = (if truthy (row_get tr "ZIP5") then row_get tr "ZIP5" else row_get r0 "ZIP5")
  ∧ row_get tr' "FirstSentDt" = str_or (row_get tr "FirstSentDt") today
  ∧ row_get tr' "LastSentDt" = today
  ∧ row_get tr' "TemplateIds"
    = str_join "|" (nonempty_parts (row_get tr "TemplateIds")
                    ++ filter (λ x, x ≠ "") ((λ rr, row_get rr "TemplateId") <$> r0 :: rows))
  ∧ ∀ col, col ∉ tracker_headers → row_get tr' col = row_get tr col.
Proof.
  unfold update_record. cbv zeta.
  set (tr1 := if _ : bool then _ else tr).
  assert (row_get tr1 "ZIP5"
          = (if truthy (row_get tr "ZIP5") then row_get tr "ZIP5" else row_get r0 "ZIP5")
          ∧ ∀ col, col ≠ "ZIP5" → row_get tr1 col = row_get tr col) as [Hz Hother].
  { unfold tr1. destruct (truthy (row_get tr "ZIP5")) eqn:E1; cbn [negb andb]; [done|].
    destruct (truthy (row_get r0 "ZIP5")) eqn:E2.
    - split; [apply row_get_dict_set_eq|]. intros col Hc. by apply row_get_dict_set_ne.
    - split; [|done]. unfold truthy in E1, E2.
      apply negb_false_iff, bool_decide_eq_true in E1.
      apply negb_false_iff, bool_decide_eq_true in E2. congruence. }
  match goal with
  | |- context [dict_set (dict_set (dict_set (dict_set (dict_set (dict_set (dict_set tr1
                  "CampaignNumbers" ?a) "CampaignCount" ?b) "TemplateIds" ?c)
                  "FirstSentDt" ?d) "LastSentDt" ?e) "PropertyAddress" ?f) "OwnerName" ?g] =>
      destruct (chain_fields tr1 a b c d e f g) as (E1 & E2 & E3 & E4 & E5)
  end.
  cbv zeta in E1, E2, E3, E4, E5. rewrite E1, E2, E3, E4. split_and!.
  - done.
  - rewrite !row_get_dict_set_ne by done. by rewrite Hother.
  - done.
  - rewrite !row_get_dict_set_ne by done. by rewrite Hother.
  - intros col Hcol. rewrite (E5 col Hcol). apply Hother. intros ->.
    apply Hcol. unfold tracker_headers. repeat first [left|right].
Qed.

(** X6. The executed log is append-only. After a finalize run that ends
    normally, every executed log reads as before, row by row, with the new
    rows after the old ones and in no folder but the campaign's; neither a
    mapping nor a campaign master is written. *)
Theorem finalize_log_is_append_only (today : string) (args : ledger_args)
    (w w1 : ledger_world) (dir : string) :
  append_executed_and_update_tracker today args w = Some w1 →
  same_sources w w1
  ∧ ∃ added,
      Forall2 same_fields
        (strip_rows (default [] (f_log (folder_at w1 dir))))
        (strip_rows (default [] (f_log (folder_at w dir))) ++ added)
      ∧ (dir ≠ fa_campaign_dir args → added = []).
Proof.
  assert (∀ l : list row, Forall2 same_fields l l) as Hrefl.
  { intros l. apply Forall_Forall2_diag, Forall_forall. by intros r _ c. }
  assert (same_sources w w
          ∧ ∃ added,
              Forall2 same_fields
                (strip_rows (default [] (f_log (folder_at w dir))))
                (strip_rows (default [] (f_log (folder_at w dir))) ++ added)
              ∧ (dir ≠ fa_campaign_dir args → added = [])) as Hsame.
  { split; [apply same_sources_refl|]. exists []. by rewrite app_nil_r. }
  unfold append_executed_and_update_tracker.
  destruct (find_mapping args w) as [mapping|]; [|by intros [= <-]].
  destruct (negb _); [by intros [= <-]|].
  destruct (strip_rows mapping) as [|m0 ms]; [by intros [= <-]|].
  destruct (fa_dry_run args); [by intros [= <-]|].
  intros Hrun. pose proof (commit_run_inv _ _ _ _ _ Hrun) as Hinv. cbv zeta in Hinv.
  destruct Hinv as (Hs & Hlog & _). split; [done|]. rewrite (Hlog dir).
  destruct (decide _) as [[Hne <-]|Hno]; cycle 1.
  { exists []. by rewrite app_nil_r. }
  set (to_add := to_add_of today args w (m0 :: ms)) in *.
  exists (strip_row <$> to_add). split; [|done].
  change (default [] (Some ?x)) with x.
  fold (existing_log args w). rewrite strip_rows_fmap, <- list_fmap_compose.
  pose proof (log_headers_complete (existing_log args w ++ to_add)) as Hh.
  rewrite Forall_forall in Hh. rewrite fmap_app. apply Forall2_app.
  - apply Forall2_fmap_l, Forall_Forall2_diag, Forall_forall. intros z Hz. cbn [compose].
    eapply same_fields_trans.
    + apply same_fields_strip, project_row_same, Hh, elem_of_app. by left.
    + unfold existing_log in Hz. rewrite strip_rows_fmap in Hz.
      apply list_elem_of_fmap in Hz as (z0 & -> & _). apply strip_row_idem_fields.
  - apply Forall2_fmap, Forall_Forall2_diag, Forall_forall. intros z Hz. cbn [compose].
    apply same_fields_strip, project_row_same, Hh, elem_of_app. by right.
Qed.

Lemma finalize_log_is_append_only_witness :
  let args := LedgerArgs "out/Campaign_3_Nov2026" "" "" "" false false true false false
                "CAMPAIGN.TAG" false in
  let mapping := [[("owner", "Jane Doe"); ("property_address", "1 Main St");
                   ("ref_code", "R-001"); ("template_ref", "T1"); ("ZIP5", "95835")];
                  [("owner", "Mary Jane"); ("property_address", "7 Oak Ave");
                   ("ref_code", "R-002"); ("template_ref", "T2"); ("ZIP5", "95630")]] in
  let old := [[("PropertyAddress", "1 Main St"); ("OwnerName", "Jane Doe");
               ("CampaignNumber", "3"); ("RefCode", "R-001"); ("Notes", " by hand ")]] in
  let w := LedgerWorld
             [("out/Campaign_3_Nov2026", Folder (Some mapping) None None (Some old) [])]
             [] None None in
  let w1 := default w (append_executed_and_update_tracker "11/4/2026" args w) in
  log_count w1 "out/Campaign_3_Nov2026" = 2
  ∧ same_sources w w1
  ∧ ∃ added,
      Forall2 same_fields
        (strip_rows (default [] (f_log (folder_at w1 "out/Campaign_3_Nov2026"))))
        (strip_rows (default [] (f_log (folder_at w "out/Campaign_3_Nov2026"))) ++ added)
      ∧ ("out/Campaign_3_Nov2026" ≠ fa_campaign_dir args → added = []).
Proof.
  intros args mapping old w w1. split; [vm_compute; reflexivity|].
  apply (finalize_log_is_append_only "11/4/2026" args w w1 "out/Campaign_3_Nov2026").
  vm_compute. reflexivity.
Defined.


(** ** The builder *)

Lemma take_digits_shape n : ∀ s rest,
  take_digits n s = Some rest →
  String.length (str_take n s) = n ∧ all_digits (str_take n s).
Proof.
  induction n as [|n IH]; intros s rest; [by intros _; destruct s|].
  destruct s as [|a s]; [done|]. simpl. destruct (is_digit a) eqn:Ea; [|done].
  intros H. destruct (IH s rest H) as [Hl Hd]. split; [by rewrite Hl|].
  unfold all_digits. simpl. rewrite Ea. done.
Qed.

Lemma zip_search_shape s z : zip_search s = Some z → zip5_shaped z.
Proof.
  assert (∀ t, zip_match_here t = true → zip5_shaped (str_take 5 t)) as Hhere.
  { intros t E. right. unfold zip_match_here in E.
    destruct (take_digits 5 t) as [rest|] eqn:Et; [|done].
    by apply (take_digits_shape 5 _ rest). }
  revert z. induction s as [|a s IH]; intros z.
  - cbn [zip_search]. destruct (zip_match_here "") eqn:E; [|done].
    intros [= <-]. apply (Hhere "" E).
  - cbn [zip_search]. destruct (zip_match_here (String a s)) eqn:E; [|apply IH].
    intros [= <-]. apply (Hhere _ E).
Qed.

Lemma zip_search_default_shape s : zip5_shaped (default "" (zip_search s)).
Proof.
  destruct (zip_search s) as [z|] eqn:E; [by apply (zip_search_shape s)|by left].
Qed.

Lemma get_zip5_from_text_shape s : zip5_shaped (get_zip5_from_text s).
Proof.
  unfold get_zip5_from_text. destruct (truthy s); [apply zip_search_default_shape|by left].
Qed.

Lemma _zip_from_text_shape s : zip5_shaped (_zip_from_text s).
Proof.
  unfold _zip_from_text. destruct (truthy s); [apply zip_search_default_shape|by left].
Qed.

Lemma zip_from_columns_shape extract cols r :
  (∀ s, zip5_shaped (extract s)) → zip5_shaped (zip_from_columns extract cols r).
Proof.
  intros He. induction cols as [|c cols IH]; [by left|]. simpl.
  destruct (_ && _); [apply He|done].
Qed.

(** X8. Whatever a row holds, the ZIP resolved for it is either empty or
    exactly five digits: in the builder ([get_zip5_from_row], for any
    detected address) and in finalize ([get_zip_from_row_generic]). *)
Theorem resolved_zip_is_empty_or_five_digits (r : row) (addr : string) :
  zip5_shaped (get_zip5_from_row r addr) ∧ zip5_shaped (get_zip_from_row_generic r).
Proof.
  split.
  - unfold get_zip5_from_row.
    repeat (destruct (truthy _);
            [apply zip_from_columns_shape, get_zip5_from_text_shape|]).
    apply get_zip5_from_text_shape.
  - apply zip_from_columns_shape, _zip_from_text_shape.
Qed.

Lemma process_row_counts tracker pol b st r :
  let st' := process_row tracker pol b st r in
  rows_counted (stats_of b st') = rows_counted (stats_of b st) + 1
  ∧ (∀ b', b' ≠ b → stats_of b' st' = stats_of b' st)
  ∧ length (all_candidates st') + kept (stats_of b st)
    = length (all_candidates st) + kept (stats_of b st').
Proof.
  unfold process_row. destruct (detect_addr_owner_from_source_row r) as [addr own].
  cbv zeta. unfold rows_counted.
  repeat (match goal with |- context [if ?c then _ else _] => destruct c end);
    destruct b; cbn; rewrite ?length_app; cbn;
    (split; [lia|split; [by intros []|lia]]).
Qed.

(** X9. The statistics of [process_rows] account for every row: each row of
    a source adds one to exactly one of the bucket's five counters (kept,
    deduped, dropped by history, missing address, missing owner), the other
    bucket is untouched, and the candidate list grows by the rows kept. *)
Theorem process_rows_accounts_for_every_row (tracker : list ((string * string) * row))
    (pol : policy) (rows : list row) (b : bucket_name) (st : ingest_state) :
  let st' := process_rows tracker pol rows b st in
  rows_counted (stats_of b st') = rows_counted (stats_of b st) + length rows
  ∧ (∀ b', b' ≠ b → stats_of b' st' = stats_of b' st)
  ∧ length (all_candidates st') + kept (stats_of b st)
    = length (all_candidates st) + kept (stats_of b st').
Proof.
  unfold process_rows. revert st. induction rows as [|r rows IH]; intros st.
  - cbn. split; [lia|]. split; [done|lia].
  - cbn [foldl length]. cbv zeta in IH.
    destruct (IH (process_row tracker pol b st r)) as (H1 & H2 & H3).
    destruct (process_row_counts tracker pol b st r) as (G1 & G2 & G3).
    cbv zeta in G1, G2, G3. split; [lia|]. split; [|lia].
    intros b' Hb'. by rewrite H2, G2.
Qed.

(** X10. The selector only selects candidates: for distinct candidates and
    any shuffle that permutes, the selection is a sub-multiset of the
    candidates (no row is invented and none is selected twice). *)
Theorem pick_optimized_selects_candidates {rng : Type}
    (shuffle : rng → list candidate → list candidate * rng)
    (shuffle_perm : ∀ g l, (shuffle g l).1 ≡ₚ l)
    (g : rng) (candidates : list candidate) (target : Z) (strict_150 : bool) :
  NoDup candidates →
  (pick_optimized shuffle g candidates target strict_150).1 ⊆+ candidates.
Proof. by apply pick_optimized_sub. Qed.

Lemma pick_optimized_selects_candidates_witness :
  let shuffle := λ (g : unit) (l : list candidate), (reverse l, g) in
  let candidates := [Candidate "1 MAIN ST" "JANE DOE" "95835" [];
                     Candidate "7 OAK AVE" "MARY JANE" "95630" [];
                     Candidate "9 ELM ST" "JOHN ROE" "95835" []] in
  (pick_optimized shuffle () candidates 2 true).1 ⊆+ candidates.
Proof.
  intros shuffle candidates.
  apply (pick_optimized_selects_candidates shuffle (λ g l, reverse_Permutation l)).
  apply (bool_decide_unpack _). vm_compute. exact I.
Defined.

(** ** The bin planner and the postage estimator *)

Lemma plan_step_tray_sized tt i z st :
  Forall tray_sized (bins st) ∧ open_z3_count st < 150 →
  Forall tray_sized (bins (plan_step tt i z st))
  ∧ open_z3_count (plan_step tt i z st) < 150.
Proof.
  intros [Hb Hc]. unfold plan_step. cbv zeta.
  assert (Forall tray_sized (bins (close_changed_zip3 i (zip3 z) st))
          ∧ open_z3_count (close_changed_zip3 i (zip3 z) st) < 150) as [Hb1 Hc1].
  { unfold close_changed_zip3. destruct (open_z3_group st) as [g|]; [|done].
    destruct (bool_decide (0 < open_z3_count st)) eqn:E; cbn [andb]; [|done].
    apply bool_decide_eq_true in E.
    destruct (bool_decide (zip3 z ≠ g)); [|done]. cbn. split; [|lia].
    apply Forall_app. split; [done|]. apply Forall_singleton. unfold tray_sized. cbn. lia. }
  set (st1 := close_changed_zip3 i (zip3 z) st) in *.
  destruct (bool_decide (_ < _)).
  - unfold assign_5digit. cbv zeta. destruct (bool_decide (_ = 150)); cbn; [|done].
    split; [|done]. apply Forall_app. split; [done|]. by apply Forall_singleton.
  - unfold assign_leftover. cbv zeta. case_bool_decide as E; cbn.
    + split; [|lia]. apply Forall_app. split; [done|]. by apply Forall_singleton.
    + split; [done|lia].
Qed.

Lemma plan_loop_tray_sized tt zips : ∀ i st,
  Forall tray_sized (bins st) ∧ open_z3_count st < 150 →
  Forall tray_sized (bins (plan_loop tt i zips st))
  ∧ open_z3_count (plan_loop tt i zips st) < 150.
Proof.
  induction zips as [|z zips IH]; intros i st Hst; [done|].
  cbn [plan_loop]. by apply IH, plan_step_tray_sized.
Qed.

Lemma Forall_imap_keep {A} (P : A → Prop) (f : nat → A → A) (l : list A) :
  (∀ i x, P x → P (f i x)) → Forall P l → Forall P (imap f l).
Proof.
  intros Hf Hl. revert f Hf. induction Hl as [|x l Hx Hl IH]; intros f Hf; [constructor|].
  cbn. constructor; [by apply Hf|]. apply IH. intros i y. apply Hf.
Qed.

(** X11. For any list of ZIP5s, in any order, every bin of the plan has
    the size of its type: a "5digit" or "3digit" bin is a full tray of
    exactly 150 pieces, an "aadc" bin holds between 1 and 149. *)
Theorem plan_bins_are_tray_sized (zips : list string) :
  Forall tray_sized (plan_bins_by_order zips).
Proof.
  unfold plan_bins_by_order. cbv zeta.
  destruct (plan_loop_tray_sized (trays_total_of zips) zips 1 plan_init) as [Hb Hc].
  { split; [constructor|cbn; lia]. }
  apply Forall_imap_keep; [by intros i [] ?|].
  unfold close_final. set (st := plan_loop _ 1 zips plan_init) in *.
  destruct (open_z3_group st) as [g|]; [|done].
  case_bool_decide as E; [|done].
  apply Forall_app. split; [done|]. apply Forall_singleton. unfold tray_sized. cbn. lia.
Qed.



Lemma estimate_zip5_loop_trays (d : list (string * nat)) five lo :
  (150 | five) → (150 | (foldl estimate_zip5_step (five, lo) d).1).
Proof.
  revert five lo. induction d as [|[z5 c] d IH]; intros five lo Hf; [done|].
  cbn [foldl estimate_zip5_step]. apply IH.
  apply Nat.divide_add_r; [done|]. apply Nat.divide_mul_r, Nat.divide_refl.
Qed.

Lemma estimate_zip3_loop_trays (d : list (string * nat)) three a :
  (150 | three) → (150 | (foldl estimate_zip3_step (three, a) d).1).
Proof.
  revert three a. induction d as [|[z3 c] d IH]; intros three a Hf; [done|].
  cbn [foldl estimate_zip3_step]. apply IH.
  apply Nat.divide_add_r; [done|]. apply Nat.divide_mul_r, Nat.divide_refl.
Qed.

(** X13. The estimator only prices whole trays at the 5-digit and 3-digit
    rates: both tier counts are multiples of 150, whatever the selection. *)
Theorem estimate_counts_whole_trays (chosen : list candidate) :
  (150 | five_digit (estimate_postage chosen))
  ∧ (150 | three_digit (estimate_postage chosen)).
Proof.
  unfold estimate_postage, estimate_tiers. cbv zeta.
  pose proof (estimate_zip5_loop_trays (Counter (c_ZIP5 <$> chosen)) 0 []
                (Nat.divide_0_r 150)) as H5.
  destruct (foldl estimate_zip5_step (0, []) (Counter (c_ZIP5 <$> chosen)))
    as [five lo].
  pose proof (estimate_zip3_loop_trays lo 0 0 (Nat.divide_0_r 150)) as H3.
  destruct (foldl estimate_zip3_step (0, 0) lo) as [three a]. done.
Qed.

(** ** Edge cases of finalize, and the folder name the builder writes *)



Lemma span_digits_app num rest :
  all_digits num → span_digits (num +:+ String "_" rest) = (num, String "_" rest).
Proof.
  induction num as [|a num IH]; [done|].
  cbn [all_digits str_all]. intros [Ha Hn]%andb_prop_elim.
  change (String a num +:+ ?s) with (String a (num +:+ s)).
  cbn [span_digits]. destruct (is_digit a); [|done]. by rewrite (IH Hn).
Qed.

Lemma num_here_app num rest :
  num ≠ "" → all_digits num →
  num_here (String "_" (num +:+ String "_" rest)) = Some num.
Proof.
  intros Hne Hd. cbn [num_here]. rewrite (span_digits_app num rest Hd).
  by destruct num.
Qed.

Lemma num_here_other a s : a ≠ "_"%char → num_here (String a s) = None.
Proof. destruct a as [[] [] [] [] [] [] [] []]; done. Qed.

Lemma infer_scan_folder name num rest a :
  str_all (λ c, negb (bool_decide (c ∈ ["_"; "/"; "010"]%char))) (String a name) →
  num ≠ "" → all_digits num →
  infer_scan (String a name +:+ String "_" (num +:+ String "_" rest))
  = Some (String a name, num).
Proof.
  intros Hp Hne Hd. revert a Hp. induction name as [|b name IH]; intros a Hp.
  - cbn [str_all] in Hp. apply andb_prop_elim in Hp as [Ha _].
    apply negb_prop_elim in Ha. rewrite bool_decide_spec in Ha.
    change (infer_scan (String a (String "_" (num +:+ String "_" rest)))
            = Some (String a "", num)).
    cbn [infer_scan]. rewrite bool_decide_false.
    + by rewrite num_here_app.
    + intros ->. apply Ha. by repeat first [left|right].
  - cbn [str_all] in Hp. apply andb_prop_elim in Hp as [Ha Hp].
    specialize (IH b Hp).
    apply negb_prop_elim in Ha. rewrite bool_decide_spec in Ha.
    cbn [str_all] in Hp. apply andb_prop_elim in Hp as [Hb _].
    apply negb_prop_elim in Hb. rewrite bool_decide_spec in Hb.
    change (String a (String b name) +:+ ?s) with (String a (String b name +:+ s)).
    cbn [infer_scan]. rewrite bool_decide_false.
    + change (String b name +:+ ?s) with (String b (name +:+ s)).
      rewrite num_here_other.
      * change (String b (name +:+ ?s)) with (String b name +:+ s). by rewrite IH.
      * intros ->. apply Hb. by repeat first [left|right].
    + intros ->. apply Ha. by repeat first [left|right].
Qed.

Lemma split_on_nonempty sep s : split_on sep s ≠ [].
Proof.
  destruct s as [|a s]; [done|]. rewrite split_on_cons.
  destruct (bool_decide _); [done|]. by destruct (split_on sep s).
Qed.

Lemma split_on_behind sep x y :
  ∃ p ps, split_on sep (x +:+ String sep y) = p :: ps ++ split_on sep y.
Proof.
  induction x as [|a x (p & ps & IH)].
  - exists "", []. change (split_on sep (String sep y) = "" :: split_on sep y).
    rewrite split_on_cons. by rewrite bool_decide_true.
  - change (String a x +:+ ?s) with (String a (x +:+ s)). rewrite split_on_cons, IH.
    destruct (bool_decide _).
    + by exists "", (p :: ps).
    + by exists (String a p), ps.
Qed.

Lemma basename_path_join parent base :
  str_all (λ a, negb (bool_decide (a = "/"%char))) base →
  basename (path_join parent base) = base ∧ basename base = base.
Proof.
  intros Hb. unfold basename, path_join.
  change ("/" +:+ base) with (String "/" base).
  destruct (split_on_behind "/" parent base) as (p & ps & ->).
  rewrite (split_on_no_sep _ _ Hb). split; [|done].
  change (p :: ps ++ [base]) with ((p :: ps) ++ [base]). by rewrite last_snoc.
Qed.

Lemma pretty_Z_digits (n : Z) : (0 ≤ n)%Z → pretty n ≠ "" ∧ all_digits (pretty n).
Proof.
  destruct n as [|p|p]; [done| |lia]. intros _.
  apply (pretty_N_digits (N.pos p)).
Qed.

(** X15. The folder name the builder gives a campaign is read back by
    finalize: for a name without underscore, slash or newline and a campaign
    number that is not negative, [infer_campaign_from_dir] finds the name
    and the number in [name_number_MonYear], alone or behind a parent path,
    so a finalize run there needs neither [--campaign-name] nor
    [--campaign-number]. *)
Theorem finalize_reads_builder_folder (parent name mo_yr : string) (n : Z)
    (args : ledger_args) :
  name ≠ "" →
  str_all (λ c, negb (bool_decide (c ∈ ["_"; "/"; "010"]%char))) name →
  (0 ≤ n)%Z →
  str_all (λ c, negb (bool_decide (c = "/"%char))) mo_yr →
  fa_campaign_dir args = campaign_folder name n mo_yr
  ∨ fa_campaign_dir args = path_join parent (campaign_folder name n mo_yr) →
  infer_campaign_from_dir (fa_campaign_dir args) = (name, Some (pretty n))
  ∧ (fa_campaign_name args = "" → campaign_name_of args = name)
  ∧ (fa_campaign_number args = "" → campaign_number_of args = pretty n).
Proof.
  intros Hne Hp Hn Hm Hdir.
  destruct (pretty_Z_digits n Hn) as [Hpn Hpd].
  assert (infer_campaign_from_dir (fa_campaign_dir args) = (name, Some (pretty n))) as Hi.
  { unfold infer_campaign_from_dir.
    assert (basename (fa_campaign_dir args) = campaign_folder name n mo_yr) as ->.
    { assert (str_all (λ a, negb (bool_decide (a = "/"%char)))
                (campaign_folder name n mo_yr)) as Hb.
      { unfold campaign_folder. rewrite !str_all_app.
        assert (str_all (λ a, negb (bool_decide (a = "/"%char))) name) as H1.
        { eapply str_all_impl; [|exact Hp]. intros a Ha.
          apply negb_prop_elim in Ha. rewrite bool_decide_spec in Ha.
          apply negb_prop_intro. rewrite bool_decide_spec. intros ->.
          apply Ha. by repeat first [left|right]. }
        assert (str_all (λ a, negb (bool_decide (a = "/"%char))) (pretty n)) as H2.
        { eapply str_all_impl; [|exact Hpd]. intros a Ha.
          apply negb_prop_intro. rewrite bool_decide_spec. by intros ->. }
        apply Is_true_true in H1, H2, Hm. by rewrite H1, H2, Hm. }
      destruct (basename_path_join parent _ Hb) as [H1 H2].
      by destruct Hdir as [->| ->]. }
    unfold campaign_folder. destruct name as [|a name]; [done|].
    pose proof (infer_scan_folder name (pretty n) mo_yr a Hp Hpn Hpd) as Hs.
    replace (String a name +:+ "_" +:+ pretty n +:+ "_" +:+ mo_yr)
      with (String a name +:+ String "_" (pretty n +:+ String "_" mo_yr))
      by reflexivity.
    by rewrite Hs. }
  split; [done|]. unfold campaign_name_of, campaign_number_of. rewrite Hi.
  split; by intros ->.
Qed.

Lemma finalize_reads_builder_folder_witness :
  let args := LedgerArgs "Root/Fall Mailer_7_Aug2025" "" "" "" false false false false
                false "marker" false in
  infer_campaign_from_dir (fa_campaign_dir args) = ("Fall Mailer", Some "7")
  ∧ (fa_campaign_name args = "" → campaign_name_of args = "Fall Mailer")
  ∧ (fa_campaign_number args = "" → campaign_number_of args = "7").
Proof.
  intros args.
  apply (finalize_reads_builder_folder "Root" "Fall Mailer" "Aug2025" 7 args);
    [done | vm_compute; exact I | lia | vm_compute; exact I | right; reflexivity].
Defined.

(** ** The order of strings, and sorting by an order *)

Lemma str_ltb_lt a b : String.ltb a b = true ↔ OrderedTypeEx.String_as_OT.lt a b.
Proof.
  rewrite <- OrderedTypeEx.String_as_OT.cmp_lt.
  unfold String.ltb, OrderedTypeEx.String_as_OT.cmp.
  by destruct (String.compare a b).
Qed.

Lemma str_ltb_trans a b c :
  String.ltb a b = true → String.ltb b c = true → String.ltb a c = true.
Proof. rewrite !str_ltb_lt. apply OrderedTypeEx.String_as_OT.lt_trans. Qed.

Lemma str_ltb_irrefl a : String.ltb a a = false.
Proof.
  unfold String.ltb.
  pose proof (proj2 (OrderedTypeEx.String_as_OT.cmp_eq a a) eq_refl) as He.
  unfold OrderedTypeEx.String_as_OT.cmp in He. by rewrite He.
Qed.

Lemma str_ltb_total a b : String.ltb a b = false → String.ltb b a = false → a = b.
Proof.
  unfold String.ltb. pose proof (OrderedTypeEx.String_as_OT.cmp_antisym a b) as Ha.
  pose proof (OrderedTypeEx.String_as_OT.cmp_eq a b) as He.
  unfold OrderedTypeEx.String_as_OT.cmp in *.
  destruct (String.compare a b), (String.compare b a); try done; intros _ _; by apply He.
Qed.

Lemma str_ltb_asym a b : String.ltb a b = true → String.ltb b a = false.
Proof.
  intros Hab. destruct (String.ltb b a) eqn:Hba; [|done].
  pose proof (str_ltb_trans _ _ _ Hab Hba). by rewrite str_ltb_irrefl in *.
Qed.

Lemma str_le_trans a b c : str_le a b → str_le b c → str_le a c.
Proof.
  unfold str_le. intros Hab Hbc.
  destruct (String.ltb c a) eqn:Hca; [|done].
  destruct (String.ltb a b) eqn:E.
  - by rewrite (str_ltb_trans _ _ _ Hca E) in Hbc.
  - rewrite <- (str_ltb_total _ _ E Hab) in Hbc. congruence.
Qed.

Lemma str_le_antisym a b : str_le a b → str_le b a → a = b.
Proof. unfold str_le. intros ??. by apply str_ltb_total. Qed.

Section sorted_by_order.
Context {A : Type} (before : A → A → bool) (le : A → A → Prop).
Hypothesis le_trans : ∀ a b c, le a b → le b c → le a c.
Hypothesis before_le : ∀ a b, before a b = true → le a b.
Hypothesis not_before_le : ∀ a b, before a b = false → le b a.

Lemma insert_sorted_by_order x l :
  StronglySorted le l → StronglySorted le (insert_sorted before x l).
Proof.
  induction 1 as [|y l Hl IH Hy]; simpl.
  - repeat constructor.
  - destruct (before x y) eqn:E.
    + apply before_le in E. constructor; [by constructor|].
      constructor; [done|]. eapply Forall_impl; [exact Hy|]. intros z ?. by eapply le_trans.
    + apply not_before_le in E.
      constructor; [done|]. rewrite insert_sorted_perm. by constructor.
Qed.

Lemma py_sorted_by_order l : StronglySorted le (py_sorted before l).
Proof.
  unfold py_sorted. generalize (SSorted_nil le).
  generalize (@nil A). induction l as [|x l IH]; intros acc Hacc; [done|].
  simpl. by apply IH, insert_sorted_by_order.
Qed.
End sorted_by_order.

Lemma py_sorted_strings l : StronglySorted str_le (py_sorted String.ltb l).
Proof.
  apply py_sorted_by_order.
  - apply str_le_trans.
  - intros a b. apply str_ltb_asym.
  - by intros a b.
Qed.

Lemma sorted_NoDup_strict (l : list string) :
  StronglySorted str_le l → NoDup l → StronglySorted (λ a b, String.ltb a b = true) l.
Proof.
  induction 1 as [|x l Hl IH Hx]; intros Hnd; [constructor|].
  apply NoDup_cons in Hnd as [Hni Hnd]. constructor; [by apply IH|].
  rewrite Forall_forall in Hx |- *. intros y Hy.
  destruct (String.ltb x y) eqn:E; [done|].
  specialize (Hx y Hy). unfold str_le in Hx.
  destruct Hni. by rewrite (str_ltb_total _ _ E Hx).
Qed.

Lemma Counter_keys_NoDup {K} `{EqDecision K} (l : list K) : NoDup (Counter l).*1.
Proof.
  unfold Counter. generalize (NoDup_nil_2 (A:=K)).
  change (@nil K) with ((@nil (K * nat)).*1).
  generalize (@nil (K * nat)). induction l as [|x l IH]; intros c Hc; [done|].
  simpl. apply IH. unfold counter_add. by apply dict_set_NoDup.
Qed.

Lemma occ_filter_fmap {A} (f : A → string) (z : string) (l : list A) :
  z ≠ "" →
  occ z (filter (λ x, x ≠ "") (f <$> l)) = length (filter (λ r, f r = z) l).
Proof.
  intros Hz. unfold occ. induction l as [|r l IH]; [done|].
  rewrite fmap_cons, !filter_cons.
  destruct (decide (f r = z)) as [E|E].
  - rewrite decide_True by congruence. rewrite filter_cons, decide_True by done.
    simpl. by rewrite IH.
  - destruct (decide (f r ≠ "")); [|done].
    rewrite filter_cons, decide_False by done. done.
Qed.

(** X16. [rebuild_zip5_tally] always writes the tally: one row for each
    non-empty ZIP5 found in some executed log under the root, in strictly
    ascending order of the ZIP5, with the number of log rows that carry this
    ZIP5 as its count. *)
Theorem zip5_tally_counts_log_rows (w : ledger_world) :
  let pieces z :=
    length (filter (λ r, strip (row_get r "ZIP5") = z) (all_log_rows w)) in
  ∃ zs,
    lw_tally (rebuild_zip5_tally w)
    = Some ((λ z, [("ZIP5", z); ("Count", pretty (pieces z))]) <$> zs)
    ∧ StronglySorted (λ a b, String.ltb a b = true) zs
    ∧ ∀ z, z ∈ zs ↔ z ≠ "" ∧ 0 < pieces z.
Proof.
  intros pieces. unfold rebuild_zip5_tally. cbn [lw_tally].
  change (lw_folders w ≫= λ df, strip_rows (default [] (f_log df.2)))
    with (all_log_rows w).
  set (zips := filter (λ z, z ≠ "") ((λ r, strip (row_get r "ZIP5")) <$> all_log_rows w)).
  assert (∀ z, z ∈ zips ↔ z ≠ "" ∧ 0 < pieces z) as Hin.
  { intros z. unfold zips. rewrite list_elem_of_filter, <- occ_pos. split.
    - intros [Hz Ho]. split; [done|]. unfold pieces.
      rewrite <- (occ_filter_fmap (λ r, strip (row_get r "ZIP5")) z _ Hz).
      apply occ_pos. apply list_elem_of_filter. split; [done|]. by apply occ_pos.
    - intros [Hz Hp]. split; [done|]. unfold pieces in Hp.
      rewrite <- (occ_filter_fmap (λ r, strip (row_get r "ZIP5")) z _ Hz) in Hp.
      apply occ_pos in Hp. apply list_elem_of_filter in Hp as [_ Hp]. by apply occ_pos. }
  exists (py_sorted String.ltb (Counter zips).*1). split; [|split].
  - f_equal. apply list_fmap_ext. intros i z Hz. do 3 f_equal.
    rewrite counter_get_Counter. f_equal.
    apply (occ_filter_fmap (λ r, strip (row_get r "ZIP5"))).
    apply list_elem_of_lookup_2 in Hz. rewrite py_sorted_perm, Counter_keys in Hz.
    by apply Hin in Hz as [? _].
  - apply sorted_NoDup_strict; [apply py_sorted_strings|].
    rewrite py_sorted_perm. apply Counter_keys_NoDup.
  - intros z. by rewrite py_sorted_perm, Counter_keys.
Qed.

(** ** The size of the selection *)

Section selector_size.
Context {rng : Type} (shuffle : rng → list candidate → list candidate * rng).
Hypothesis shuffle_perm : ∀ g l, (shuffle g l).1 ≡ₚ l.

Lemma fill_pass_length target bs : ∀ g chosen,
  target `min` (length chosen + length (mjoin bs.*2))
  ≤ length (fill_pass shuffle target bs (g, chosen)).2.
Proof.
  induction bs as [|[z b] bs IH]; intros g chosen; cbn [fill_pass].
  - csimpl. lia.
  - case_bool_decide; [cbn [snd]; lia|].
    pose proof (shuffle_perm g b) as Hp. apply Permutation_length in Hp.
    destruct (shuffle g b) as [b' g']. cbn [fst] in Hp.
    etrans; [|apply IH]. csimpl. rewrite !length_app, length_take. lia.
Qed.

Lemma pick_optimized_fills g candidates target strict_150 :
  NoDup candidates →
  Z.to_nat target `min` length candidates
  ≤ length (pick_optimized shuffle g candidates target strict_150).1.
Proof.
  intros Hnd. unfold pick_optimized. case_bool_decide; [cbn [fst length]; lia|].
  set (t := Z.to_nat target).
  destruct (if strict_150 then _ else _) as [g1 chosen1].
  case_bool_decide.
  - match goal with |- context [fill_pass shuffle t ?bs ?st] =>
      pose proof (fill_pass_length t bs g1 chosen1) as H2;
      destruct (fill_pass shuffle t bs st) as [g2 chosen2] end.
    cbn [fst snd] in *. rewrite length_take.
    rewrite (Permutation_length (join_values_perm _ _ (py_sorted_perm _ _))) in H2.
    rewrite (Permutation_length (group_by_perm _ _)) in H2.
    assert (candidates ⊆+ chosen1 ++ filter (λ r, r ∉ chosen1) candidates) as Hs.
    { apply NoDup_submseteq; [done|]. intros x Hx. apply elem_of_app.
      destruct (decide (x ∈ chosen1)); [by left|right].
      by apply list_elem_of_filter. }
    apply submseteq_length in Hs. rewrite length_app in Hs. lia.
  - cbn [fst]. rewrite length_take. lia.
Qed.
End selector_size.

(** X17. For distinct candidates (and any shuffle that permutes its
    argument) the selection of [pick_optimized] has exactly
    [min(max(target, 0), number of candidates)] rows, in strict mode or not:
    the target is reached whenever there are enough candidates, and every
    candidate is selected when there are fewer. *)
Theorem pick_optimized_reaches_target {rng : Type}
    (shuffle : rng → list candidate → list candidate * rng)
    (g : rng) (candidates : list candidate) (target : Z) (strict_150 : bool) :
  (∀ g l, (shuffle g l).1 ≡ₚ l) → NoDup candidates →
  length (pick_optimized shuffle g candidates target strict_150).1
  = Z.to_nat target `min` length candidates.
Proof.
  intros Hperm Hnd.
  pose proof (pick_optimized_fills shuffle Hperm g candidates target strict_150 Hnd) as Hlo.
  pose proof (pick_optimized_sub shuffle Hperm g candidates target strict_150 Hnd) as Hsub.
  apply submseteq_length in Hsub.
  assert (length (pick_optimized shuffle g candidates target strict_150).1
          ≤ Z.to_nat target) as Hup.
  { unfold pick_optimized. case_bool_decide; cbn [fst length]; [lia|].
    repeat match goal with |- context [let '(_, _) := ?x in _] => destruct x end.
    cbn [fst]. rewrite length_take. lia. }
  lia.
Qed.

Lemma pick_optimized_reaches_target_witness :
  let shuffle := λ (g : unit) (l : list candidate), (reverse l, g) in
  let c1 := Candidate "1 MAIN ST" "JANE DOE" "95835" [("MAIL ZIP", "95835")] in
  let c2 := Candidate "7 OAK AVE" "MARY JANE" "95630" [("Owner ZIP", "95630")] in
  let c3 := Candidate "9 ELM CT" "JOHN ROE" "" [] in
  length (pick_optimized shuffle () [c1; c2; c3] 2 true).1 = Z.to_nat 2 `min` 3.
Proof.
  intros shuffle c1 c2 c3.
  apply (pick_optimized_reaches_target shuffle () [c1; c2; c3] 2 true).
  - intros g l. apply reverse_Permutation.
  - apply (bool_decide_unpack _). vm_compute. exact I.
Defined.

(** ** The order of the campaign master *)

Lemma get_zip5_from_row_shape r addr : zip5_shaped (get_zip5_from_row r addr).
Proof.
  unfold get_zip5_from_row.
  repeat (destruct (truthy _);
          [apply zip_from_columns_shape, get_zip5_from_text_shape|]).
  apply get_zip5_from_text_shape.
Qed.

Lemma process_row_shaped tracker pol b st r :
  Forall (λ c, zip5_shaped (c_ZIP5 c)) (all_candidates st) →
  Forall (λ c, zip5_shaped (c_ZIP5 c)) (all_candidates (process_row tracker pol b st r)).
Proof.
  intros Hs. unfold process_row.
  destruct (detect_addr_owner_from_source_row r) as [addr own].
  repeat case_match;
    match goal with |- context [bump ?b ?f ?s] =>
      destruct (bump_fields b f s) as [_ ->] end; try done.
  cbn [all_candidates]. apply Forall_app. split; [done|].
  constructor; [|constructor]. apply get_zip5_from_row_shape.
Qed.

Lemma process_rows_shaped tracker pol rows b st :
  Forall (λ c, zip5_shaped (c_ZIP5 c)) (all_candidates st) →
  Forall (λ c, zip5_shaped (c_ZIP5 c)) (all_candidates (process_rows tracker pol rows b st)).
Proof.
  unfold process_rows. revert st. induction rows as [|r rows IH]; intros st Hs; [done|].
  csimpl. apply IH. by apply process_row_shaped.
Qed.

Lemma ingest_files_preserves (P : ingest_state → Prop) tracker pol w b paths :
  (∀ rows st, P st → P (process_rows tracker pol rows b st)) →
  ∀ st st', P st → ingest_files tracker pol w b paths st = Some st' → P st'.
Proof.
  intros HP. induction paths as [|p paths IH]; intros st st' Hst; cbn [ingest_files].
  - by intros [= <-].
  - destruct (read_csv_rows w p) as [rows|]; [|done]. apply IH. by apply HP.
Qed.

Lemma str_take_le n : ∀ a b, str_le a b → str_le (str_take n a) (str_take n b).
Proof.
  unfold str_le, String.ltb.
  induction n as [|n IH]; intros [|ca a] [|cb b]; simpl; try done.
  destruct (Ascii.compare cb ca); try done. apply IH.
Qed.

Lemma sorted_contiguous {A B} `{EqDecision B} (f : A → B) (k : A → string) (l : list A) :
  StronglySorted (λ x y, str_le (k x) (k y)) l →
  (∀ x y, x ∈ l → y ∈ l → (k x = k y ↔ f x = f y)) →
  contiguous (f <$> l) = true.
Proof.
  induction 1 as [|x l Hl IH Hx]; intros Hkf; [done|].
  rewrite fmap_cons. cbn [contiguous]. apply andb_true_iff. split.
  - destruct l as [|y l]; [done|]. rewrite fmap_cons.
    destruct (decide (f x = f y)) as [E|E].
    { by rewrite (bool_decide_eq_true_2 _ E). }
    rewrite orb_true_iff. right. apply bool_decide_eq_true_2.
    rewrite <- fmap_cons. intros (z & Ez & Hz)%list_elem_of_fmap.
    apply E. apply Hkf; [left|right; left|].
    assert (k x = k z) as Exz.
    { apply Hkf; [left|by right|done]. }
    apply str_le_antisym.
    + apply Forall_cons in Hx as [Hxy _]. done.
    + rewrite Exz. apply elem_of_cons in Hz as [->|Hz]; [by apply str_ltb_irrefl|].
      apply StronglySorted_inv in Hl as [_ Hy]. rewrite Forall_forall in Hy.
      by apply Hy.
  - apply IH. intros y z Hy Hz. apply Hkf; by right.
Qed.

Lemma StronglySorted_weaken {A} (R S : A → A → Prop) (l : list A) :
  (∀ x y, R x y → S x y) → StronglySorted R l → StronglySorted S l.
Proof.
  intros HRS. induction 1 as [|x l Hl IH Hx]; constructor; [done|].
  eapply Forall_impl; [exact Hx|]. intros y. apply HRS.
Qed.

Lemma zip_sort_key_cases c :
  zip5_shaped (c_ZIP5 c) →
  (c_ZIP5 c = "" ∧ zip_sort_key c = "ZZZZZ")
  ∨ ∃ a b d s, c_ZIP5 c = String a (String b (String d s)) ∧ is_digit a
               ∧ zip_sort_key c = c_ZIP5 c.
Proof.
  unfold zip_sort_key. intros [->|[Hlen Hd]]; [by left|right].
  destruct (c_ZIP5 c) as [|a [|b [|d s]]]; try done.
  exists a, b, d, s. split; [done|]. split; [|done].
  cbn [all_digits str_all] in Hd. by apply andb_prop_elim in Hd as [? _].
Qed.

Lemma chosen_sorted_by_zip l :
  StronglySorted (λ x y, str_le (zip_sort_key x) (zip_sort_key y))
    (py_sorted chosen_before l).
Proof.
  apply py_sorted_by_order.
  - intros a b c. apply str_le_trans.
  - intros a b. unfold chosen_before. fold (zip_sort_key a) (zip_sort_key b).
    intros [H|[H _]%andb_true_iff]%orb_true_iff.
    + by apply str_ltb_asym.
    + apply bool_decide_eq_true in H. unfold str_le. rewrite H. apply str_ltb_irrefl.
  - intros a b. unfold chosen_before. fold (zip_sort_key a) (zip_sort_key b).
    by intros [H _]%orb_false_iff.
Qed.

Lemma zip_sorted_contiguous (l : list candidate) :
  Forall (λ c, zip5_shaped (c_ZIP5 c)) l →
  StronglySorted (λ x y, str_le (zip_sort_key x) (zip_sort_key y)) l →
  contiguous (c_ZIP5 <$> l) = true ∧ contiguous (zip3 <$> (c_ZIP5 <$> l)) = true.
Proof.
  intros Hs Hl. rewrite Forall_forall in Hs. split.
  - apply (sorted_contiguous c_ZIP5 zip_sort_key l Hl).
    intros x y Hx Hy.
    destruct (zip_sort_key_cases x (Hs x Hx)) as [[E1 K1]|(a1 & b1 & d1 & s1 & E1 & D1 & K1)],
      (zip_sort_key_cases y (Hs y Hy)) as [[E2 K2]|(a2 & b2 & d2 & s2 & E2 & D2 & K2)];
      rewrite K1, K2, ?E1, ?E2; split; try done.
    + intros [= <- _]. done.
    + intros [= -> _]. done.
  - rewrite <- list_fmap_compose.
    apply (sorted_contiguous (zip3 ∘ c_ZIP5) (λ c, str_take 3 (zip_sort_key c)) l).
    + eapply StronglySorted_weaken; [|exact Hl]. intros x y. apply str_take_le.
    + intros x y Hx Hy. unfold compose, zip3.
      destruct (zip_sort_key_cases x (Hs x Hx)) as [[E1 K1]|(a1 & b1 & d1 & s1 & E1 & D1 & K1)],
        (zip_sort_key_cases y (Hs y Hy)) as [[E2 K2]|(a2 & b2 & d2 & s2 & E2 & D2 & K2)];
        rewrite K1, K2, ?E1, ?E2; split; try done.
      * intros [= <- _]. done.
      * intros [= -> _]. done.
Qed.

Lemma main_selection_inv {rng : Type}
    (shuffle : rng → list candidate → list candidate * rng)
    (g : rng) (args : build_args) (w : build_world) (P : ingest_state → Prop) :
  (∀ g l, (shuffle g l).1 ≡ₚ l) →
  P ingest_init →
  (∀ tracker pol rows b st, P st → P (process_rows tracker pol rows b st)) →
  r_selection (main shuffle g args w) = []
  ∨ ∃ st chosen, P st ∧ ingest_inv st ∧ chosen ⊆+ all_candidates st
      ∧ r_selection (main shuffle g args w) = py_sorted chosen_before chosen.
Proof.
  intros Hperm H0 HP. unfold main.
  repeat (case_bool_decide; [by left|]).
  set (pol := Policy _ _ _ _).
  destruct (ingest_files _ pol w MAND _ _) as [st1|] eqn:E1; [|by left].
  case_bool_decide; [by left|].
  destruct (ingest_files _ pol w POOL _ _) as [st2|] eqn:E2; [|by left].
  assert (ingest_inv st2 ∧ P st2) as [Hinv HP2].
  { eapply (ingest_files_preserves (λ st, ingest_inv st ∧ P st)); [| |exact E2].
    - intros rows st [??]. split; [by apply process_rows_inv|by apply HP].
    - eapply (ingest_files_preserves (λ st, ingest_inv st ∧ P st)); [| |exact E1].
      + intros rows st [??]. split; [by apply process_rows_inv|by apply HP].
      + split; [apply ingest_init_inv|done]. }
  pose proof (pick_optimized_sub shuffle Hperm g (all_candidates st2)
                (a_target_size args) (a_strict_150 args)
                (NoDup_fmap_1 _ _ (proj1 Hinv))) as Hsub.
  destruct (pick_optimized shuffle g _ _ _) as [chosen g']. cbn [fst r_selection] in *.
  right. by exists st2, chosen.
Qed.

(** X18. Whatever a build reads, the selection it ends with is in mailing
    order: sorted by ZIP5 with the rows without ZIP5 last, so rows of the
    same ZIP5 are adjacent and rows of the same ZIP3 prefix are adjacent,
    the shape on which the tray planner and the postage estimate agree. *)
Theorem main_selection_in_zip_order {rng : Type}
    (shuffle : rng → list candidate → list candidate * rng)
    (g : rng) (args : build_args) (w : build_world) :
  (∀ g l, (shuffle g l).1 ≡ₚ l) →
  let sel := r_selection (main shuffle g args w) in
  StronglySorted (λ x y, str_le (zip_sort_key x) (zip_sort_key y)) sel
  ∧ contiguous (c_ZIP5 <$> sel) = true
  ∧ contiguous (zip3 <$> (c_ZIP5 <$> sel)) = true.
Proof.
  intros Hperm sel.
  assert (Forall (λ c, zip5_shaped (c_ZIP5 c)) sel
          ∧ StronglySorted (λ x y, str_le (zip_sort_key x) (zip_sort_key y)) sel)
    as [Hs Hl]; [|split; [done|by apply zip_sorted_contiguous]].
  destruct (main_selection_inv shuffle g args w
              (λ st, Forall (λ c, zip5_shaped (c_ZIP5 c)) (all_candidates st)) Hperm)
    as [E|(st & chosen & Hsh & _ & Hsub & E)]; unfold sel; try rewrite E.
  - constructor.
  - intros. by apply process_rows_shaped.
  - split; constructor.
  - split; [|apply chosen_sorted_by_zip].
    rewrite py_sorted_perm. rewrite Forall_forall in Hsh |- *.
    intros c Hc. apply Hsh. by eapply elem_of_submseteq.
Qed.

Lemma main_selection_in_zip_order_witness :
  let shuffle := λ (g : unit) (l : list candidate), (reverse l, g) in
  let args := BuildArgs "Fall" 7 3 ["a.csv"] ["b.csv"] None None 0 false in
  let w := BuildWorld
             [("a.csv", [[("Property Address", "1 Main St"); ("Primary Name", "Jane Doe");
                          ("MAIL ZIP", "95835")];
                         [("Property Address", "9 Elm Ct"); ("Primary Name", "John Roe")]]);
              ("b.csv", [[("Property Address", "7 Oak Ave"); ("Primary Name", "Mary Jane");
                          ("Owner ZIP", "95630-1234")]])]
             None "Aug2025" in
  let sel := r_selection (main shuffle () args w) in
  StronglySorted (λ x y, str_le (zip_sort_key x) (zip_sort_key y)) sel
  ∧ contiguous (c_ZIP5 <$> sel) = true
  ∧ contiguous (zip3 <$> (c_ZIP5 <$> sel)) = true.
Proof.
  intros shuffle args w.
  apply (main_selection_in_zip_order shuffle () args w).
  intros g l. apply reverse_Permutation.
Defined.

(** ** What the builder reads from the ledger *)

Lemma digit_value_digit a :
  is_digit a → digit_value a = Some (Z.of_nat (nat_of_ascii a - 48)).
Proof. unfold digit_value. by destruct (is_digit a). Qed.

Lemma parse_digits_digits s : ∀ after acc,
  all_digits s → s ≠ "" ∨ after = true →
  parse_digits after (Z.of_N acc) s = Some (Z.of_N (digits_to_N acc s)).
Proof.
  induction s as [|a s IH]; intros after acc Hd Hne.
  - destruct Hne as [?| ->]; done.
  - cbn [all_digits str_all] in Hd. apply andb_prop_elim in Hd as [Ha Hs].
    cbn [parse_digits digits_to_N]. rewrite (digit_value_digit a Ha).
    apply Is_true_true in Ha. rewrite Ha.
    replace (10 * Z.of_N acc + Z.of_nat (nat_of_ascii a - 48))%Z
      with (Z.of_N (10 * acc + N.of_nat (nat_of_ascii a - 48))) by lia.
    apply IH; [done|by right].
Qed.

Lemma py_int_unsigned a r :
  is_digit a → strip (String a r) = String a r →
  py_int (String a r) = parse_digits false 0 (String a r).
Proof.
  intros Hd Hs. unfold py_int. rewrite Hs.
  destruct a as [[] [] [] [] [] [] [] []]; try reflexivity; exfalso; exact Hd.
Qed.

Lemma py_int_digits s :
  s ≠ "" → all_digits s → py_int s = Some (Z.of_N (campaign_int s)).
Proof.
  intros Hne Hd. destruct s as [|a r]; [done|].
  rewrite py_int_unsigned.
  - apply (parse_digits_digits _ false 0%N Hd). by left.
  - cbn [all_digits str_all] in Hd. by apply andb_prop_elim in Hd as [? _].
  - by apply strip_all_digits.
Qed.

Lemma pretty_N_char_value d :
  (d < 10)%N →
  is_digit (pretty_N_char d) ∧ N.of_nat (nat_of_ascii (pretty_N_char d) - 48) = d.
Proof.
  intros Hd.
  assert (d = 0 ∨ d = 1 ∨ d = 2 ∨ d = 3 ∨ d = 4 ∨ d = 5 ∨ d = 6 ∨ d = 7 ∨ d = 8 ∨ d = 9)%N
    as H by lia.
  repeat (destruct H as [->|H]; [by vm_compute|]). subst. by vm_compute.
Qed.

Lemma digits_to_N_pretty_go x : ∀ s acc,
  ∃ m, digits_to_N acc (pretty_N_go x s) = digits_to_N (acc * m + x)%N s.
Proof.
  induction (N.lt_wf_0 x) as [x _ IH]. intros s acc.
  assert (x = 0 ∨ 0 < x)%N as [->|Hx] by lia.
  - exists 1%N. rewrite pretty_N_go_0. f_equal. lia.
  - rewrite pretty_N_go_step by done.
    destruct (IH (x `div` 10)%N (N.div_lt x 10 Hx eq_refl)
                (String (pretty_N_char (x `mod` 10)) s) acc) as [m ->].
    destruct (pretty_N_char_value (x `mod` 10)) as [Hc Hv].
    { apply N.mod_lt. lia. }
    exists (10 * m)%N. cbn [digits_to_N]. apply Is_true_true in Hc. rewrite Hc, Hv.
    f_equal. pose proof (N.div_mod x 10). lia.
Qed.

Lemma campaign_int_pretty (n : N) : campaign_int (pretty n) = n.
Proof.
  unfold pretty, pretty_N, campaign_int. case_decide as Hn; [by subst|].
  destruct (digits_to_N_pretty_go n "" 0) as [m ->]. simpl. lia.
Qed.

Lemma py_int_pretty (n : nat) : py_int (pretty n) = Some (Z.of_nat n).
Proof.
  destruct (pretty_nat_digits n) as [Hne Hd].
  rewrite (py_int_digits _ Hne Hd). unfold pretty, pretty_nat.
  rewrite campaign_int_pretty. f_equal. lia.
Qed.

Lemma str_app_nil_r s : s +:+ "" = s.
Proof.
  induction s as [|a s IH]; [done|].
  change (String a (s +:+ "") = String a s). by rewrite IH.
Qed.

Lemma rev_app_rev_app x : ∀ y z,
  String.rev_app (String.rev_app x y) z = String.rev_app y (x +:+ z).
Proof.
  induction x as [|a x IH]; intros y z; [done|].
  change (String.rev_app (String.rev_app x (String a y)) z
          = String.rev_app (String a y) (x +:+ z)).
  apply IH.
Qed.

Lemma is_digit_not_comma a : is_digit a → a ≠ ","%char.
Proof. intros Hd ->. exact Hd. Qed.

Lemma split_bar_comma_digits x : ∀ sk cur rest,
  all_digits x →
  split_bar_comma sk cur (x +:+ rest)
  = split_bar_comma (sk && bool_decide (x = "")) (String.rev_app x cur) rest.
Proof.
  induction x as [|a x IH]; intros sk cur rest Hd.
  - by rewrite andb_true_r.
  - cbn [all_digits str_all] in Hd. apply andb_prop_elim in Hd as [Ha Hx].
    change (String a x +:+ rest) with (String a (x +:+ rest)).
    cbn [split_bar_comma].
    pose proof (is_digit_not_space a Ha) as Hs. apply negb_prop_elim in Hs.
    destruct (is_space a); [done|]. rewrite andb_false_r.
    pose proof (is_digit_not_bar a Ha) as Hb. apply negb_prop_elim in Hb.
    destruct (bool_decide (a = "|"%char)); [done|].
    rewrite (bool_decide_eq_false_2 _ (is_digit_not_comma a Ha)).
    cbn [orb]. rewrite IH by done. by rewrite andb_false_r.
Qed.

Lemma split_bar_comma_join l : ∀ sk,
  l ≠ [] → Forall (λ x, x ≠ "" ∧ all_digits x) l →
  split_bar_comma sk "" (str_join "|" l) = l.
Proof.
  induction l as [|x l IH]; intros sk Hne Hl; [done|].
  apply Forall_cons in Hl as [[Hx Hd] Hl]. cbn [str_join].
  destruct l as [|y l].
  - rewrite <- (str_app_nil_r x) at 1. rewrite split_bar_comma_digits by done.
    cbn [split_bar_comma]. unfold String.rev. by rewrite rev_app_rev_app, str_app_nil_r.
  - change ("|" +:+ ?s) with (String "|" s).
    rewrite split_bar_comma_digits by done. cbn [split_bar_comma].
    rewrite andb_false_r. cbn [orb bool_decide decide_rel]. 
    rewrite (IH true) by done.
    unfold String.rev. by rewrite rev_app_rev_app, str_app_nil_r.
Qed.

Lemma campaign_ints_join l :
  l ≠ [] → Forall (λ x, x ≠ "" ∧ all_digits x) l →
  campaign_ints (str_join "|" l) = (λ c, Z.of_N (campaign_int c)) <$> l.
Proof.
  intros Hne Hl. unfold campaign_ints. rewrite split_bar_comma_join by done.
  clear Hne. induction Hl as [|x l [Hx Hd] Hl IH]; [done|].
  csimpl. rewrite (py_int_digits x Hx Hd). csimpl. by rewrite IH.
Qed.

Lemma str_join_nonempty l :
  l ≠ [] → Forall (λ x, x ≠ "" ∧ all_digits x) l → str_join "|" l ≠ "".
Proof.
  intros Hne Hl. destruct Hl as [|x l [Hx _] _]; [done|].
  cbn [str_join]. destruct l; [done|]. by destruct x.
Qed.

Lemma sorted_last_is_max {A} (R : A → A → Prop) (l : list A) (m : A) :
  StronglySorted R l → last l = Some m → ∀ x, x ∈ l → x = m ∨ R x m.
Proof.
  induction 1 as [|y l Hl IH Hy]; intros Hm x Hx; [done|].
  destruct l as [|z l].
  - apply list_elem_of_singleton in Hx. injection Hm as <-. by left.
  - change (last (y :: z :: l)) with (last (z :: l)) in Hm.
    apply elem_of_cons in Hx as [->|Hx]; [|by apply IH].
    right. rewrite Forall_forall in Hy. apply Hy.
    by apply last_Some_elem_of.
Qed.

Lemma sorted_strict_NoDup (l : list string) : StronglySorted cn_lt l → NoDup l.
Proof.
  induction 1 as [|x l Hl IH Hx]; constructor; [|done].
  intros Hin. rewrite Forall_forall in Hx. specialize (Hx x Hin). unfold cn_lt in Hx. lia.
Qed.

Lemma read_tracker_ledger_record (bw : build_world) (w : ledger_world) k :
  w_tracker bw = lw_tracker w → dict_get (read_tracker bw) k = ledger_record w k.
Proof.
  unfold read_tracker, ledger_record, read_ledger. intros ->.
  by destruct (lw_tracker w).
Qed.

Lemma builder_parses_record (info : row) (l : list string) :
  l ≠ [] → Forall (λ x, x ≠ "" ∧ all_digits x) l → StronglySorted cn_lt l →
  row_get info "CampaignNumbers" = str_join "|" l →
  row_get info "CampaignCount" = pretty (length l) →
  parse_campaign_count info = Z.of_nat (length l)
  ∧ (∃ c, c ∈ l ∧ parse_last_campaign_number info = Z.of_N (campaign_int c))
  ∧ ∀ c, c ∈ l → (Z.of_N (campaign_int c) ≤ parse_last_campaign_number info)%Z.
Proof.
  intros Hne Hl Hs Hn Hc.
  assert (parse_campaign_count info = Z.of_nat (length l)) as Hcount.
  { unfold parse_campaign_count. rewrite Hc.
    destruct (pretty_nat_digits (length l)) as [Hp Hd].
    unfold str_or. rewrite (proj2 (truthy_ne _) Hp), (strip_all_digits _ Hd).
    by rewrite (proj2 (truthy_ne _) Hp), py_int_pretty. }
  destruct (last l) as [m|] eqn:Hlast; [|by apply last_None in Hlast].
  assert (parse_last_campaign_number info = Z.of_N (campaign_int m)) as Hm.
  { unfold parse_last_campaign_number. rewrite Hn, str_or_empty.
    assert (strip (str_join "|" l) = str_join "|" l) as ->.
    { apply strip_no_space, str_join_digits_no_space.
      eapply Forall_impl; [exact Hl|]. by intros x [_ ?]. }
    rewrite (proj2 (truthy_ne _) (str_join_nonempty l Hne Hl)).
    by rewrite campaign_ints_join, fmap_last, Hlast. }
  split; [done|]. split.
  - exists m. split; [|done]. apply last_Some_elem_of. done.
  - intros c Hin. rewrite Hm.
    destruct (sorted_last_is_max _ _ _ Hs Hlast c Hin) as [->|Hlt]; [done|].
    unfold cn_lt in Hlt. lia.
Qed.

(** X19. The builder's history filter reads from the tracker what the
    ledger scripts logged. After any runs of finalize and rebuild from an
    empty ledger (complete mappings, canonical campaign numbers, no
    [--marker-required]), for every record the builder's [read_tracker]
    finds, [CampaignCount] parses to the number of different campaign
    numbers logged for the key, and [parse_last_campaign_number] is the
    largest of them. *)
Theorem builder_sees_logged_campaigns (try_parse_date : string → option date)
    (runs : list (string * ledger_args)) (w w' : ledger_world) (bw : build_world)
    (k : string * string) (info : row) :
  fresh_world w →
  Forall (λ run : string * ledger_args, plain_run run.2) runs →
  run_all try_parse_date runs w = Some w' →
  w_tracker bw = lw_tracker w' →
  dict_get (read_tracker bw) k = Some info →
  ∃ l, l ≠ [] ∧ NoDup l ∧ (∀ c, c ∈ l ↔ logged_number w' k c)
    ∧ parse_campaign_count info = Z.of_nat (length l)
    ∧ (∃ c, c ∈ l ∧ parse_last_campaign_number info = Z.of_N (campaign_int c))
    ∧ ∀ c, c ∈ l → (Z.of_N (campaign_int c) ≤ parse_last_campaign_number info)%Z.
Proof.
  intros Hw Hruns Hrun Htr Hget.
  destruct (run_all_in_step try_parse_date runs w w' Hruns
              (fresh_world_in_step w Hw) Hrun) as (Hentry & Hfollow & _).
  rewrite (read_tracker_ledger_record bw w' k Htr) in Hget.
  specialize (Hfollow k). rewrite Hget in Hfollow.
  destruct Hfollow as [(c0 & Hc0) (l & Hn & Hc & Hs & Hl)].
  assert (Forall (λ x, x ≠ "" ∧ all_digits x) l) as Hd.
  { apply (lists_numbers_canonical (logged_number w' k)); [|done].
    intros c (x & Hx & _ & <-). by destruct (Hentry x Hx) as (_ & _ & ?). }
  assert (l ≠ []) as Hne.
  { intros ->. apply Hl in Hc0. by apply elem_of_nil in Hc0. }
  exists l. split; [done|]. split; [by apply sorted_strict_NoDup|]. split; [done|].
  by apply builder_parses_record.
Qed.

Lemma builder_sees_logged_campaigns_witness :
  let mapping3 := [[("owner", "Jane Doe"); ("property_address", "1 Main St");
                    ("ref_code", "R-001"); ("template_ref", "T1"); ("ZIP5", "95835")];
                   [("owner", "Mary Jane"); ("property_address", "7 Oak Ave");
                    ("ref_code", "R-002"); ("template_ref", "T2"); ("ZIP5", "95630")]] in
  let mapping12 := [[("owner", "JANE DOE"); ("property_address", "1 Main St");
                     ("ref_code", "R-101"); ("template_ref", "T1"); ("ZIP5", "95835")]] in
  let w := LedgerWorld
             [("out/Campaign_3_Nov2026", Folder (Some mapping3) None None None []);
              ("out/Campaign_12_Dec2026", Folder None (Some mapping12) None None [])]
             [] None None in
  let finalize dir := LedgerArgs dir "" "" "" false false false false false
                        "CAMPAIGN.TAG" false in
  let runs := [("12/1/2026", finalize "out/Campaign_12_Dec2026");
               ("11/4/2026", finalize "out/Campaign_3_Nov2026")] in
  let w' := default w (run_all (λ _, None) runs w) in
  let bw := BuildWorld [] (lw_tracker w') "Jan2027" in
  let k := ("1 MAIN ST", "JANE DOE") in
  let info := default [] (dict_get (read_tracker bw) k) in
  (parse_campaign_count info = 2%Z ∧ parse_last_campaign_number info = 12%Z)
  ∧ ∃ l, l ≠ [] ∧ NoDup l ∧ (∀ c, c ∈ l ↔ logged_number w' k c)
      ∧ parse_campaign_count info = Z.of_nat (length l)
      ∧ (∃ c, c ∈ l ∧ parse_last_campaign_number info = Z.of_N (campaign_int c))
      ∧ ∀ c, c ∈ l → (Z.of_N (campaign_int c) ≤ parse_last_campaign_number info)%Z.
Proof.
  intros mapping3 mapping12 w finalize runs w' bw k info.
  split; [by vm_compute|].
  apply (builder_sees_logged_campaigns (λ _, None) runs w w' bw k info).
  - split; [reflexivity|]. split.
    + repeat constructor; vm_compute; discriminate.
    + constructor.
  - repeat constructor; vm_compute; try reflexivity; discriminate.
  - vm_compute. reflexivity.
  - reflexivity.
  - vm_compute. reflexivity.
Defined.

(** ** Dedup keys are stable *)

Lemma collapse_spaces_idem u :
  collapse_spaces false (collapse_spaces true u) = collapse_spaces true u
  ∧ collapse_spaces false (collapse_spaces false u) = collapse_spaces false u
  ∧ collapse_spaces true (collapse_spaces true u) = collapse_spaces true u.
Proof.
  induction u as [|a u (IHa & IHb & IHc)]; [done|].
  cbn [collapse_spaces]. destruct (is_space a) eqn:Ea.
  - split; [done|]. split; [|done].
    cbn [collapse_spaces]. change (is_space " ") with true. cbv iota. by rewrite IHc.
  - cbn [collapse_spaces]. rewrite Ea, IHb. done.
Qed.

Lemma collapse_spaces_nonempty u b : rstrip u ≠ "" → collapse_spaces b u ≠ "".
Proof.
  revert b. induction u as [|a u IH]; intros b; [done|].
  rewrite rstrip_cons. cbn [collapse_spaces]. destruct (is_space a) eqn:Ea; [|done].
  destruct (rstrip u) eqn:Er; [done|]. intros _. destruct b; [by apply IH|done].
Qed.

Lemma collapse_keeps_rstrip u :
  rstrip u = u → ∀ b, rstrip (collapse_spaces b u) = collapse_spaces b u.
Proof.
  induction u as [|a u IH]; intros Hu b; [done|].
  rewrite rstrip_cons in Hu.
  assert (rstrip u = u ∧ (is_space a = true → rstrip u ≠ "")) as [Hr Hs].
  { destruct (rstrip u) eqn:Er.
    - destruct (is_space a); [done|]. injection Hu as <-. done.
    - injection Hu as <-. done. }
  specialize (IH Hr). cbn [collapse_spaces]. destruct (is_space a) eqn:Ea.
  - destruct b; [apply IH|]. rewrite rstrip_cons, (IH true).
    pose proof (collapse_spaces_nonempty u true (Hs eq_refl)).
    by destruct (collapse_spaces true u).
  - rewrite rstrip_cons, (IH false). destruct (collapse_spaces false u); [|done].
    by rewrite Ea.
Qed.

Lemma collapse_keeps_lstrip u :
  lstrip u = u → lstrip (collapse_spaces false u) = collapse_spaces false u.
Proof.
  intros Hu. destruct (lstrip_head u) as [E|(a & t & E & Ha)]; rewrite Hu in E; subst u.
  - done.
  - cbn [collapse_spaces]. rewrite Ha. cbn [lstrip]. by rewrite Ha.
Qed.

Lemma norm_space_idem s : norm_space (norm_space s) = norm_space s.
Proof.
  unfold norm_space.
  assert (strip (collapse_spaces false (strip s)) = collapse_spaces false (strip s)) as ->.
  { unfold strip at 1. rewrite collapse_keeps_lstrip.
    - apply collapse_keeps_rstrip. apply rstrip_idem.
    - apply lstrip_rstrip_lstrip. }
  apply collapse_spaces_idem.
Qed.

Lemma is_space_upper a : is_space (upper_char a) = is_space a.
Proof. destruct a as [[] [] [] [] [] [] [] []]; reflexivity. Qed.

Lemma upper_char_idem a : upper_char (upper_char a) = upper_char a.
Proof. destruct a as [[] [] [] [] [] [] [] []]; reflexivity. Qed.

Lemma str_upper_idem s : str_upper (str_upper s) = str_upper s.
Proof.
  unfold str_upper. induction s as [|a s IH]; [done|].
  cbn [str_map]. by rewrite upper_char_idem, IH.
Qed.

Lemma lstrip_upper s : lstrip (str_upper s) = str_upper (lstrip s).
Proof.
  unfold str_upper. induction s as [|a s IH]; [done|].
  cbn [str_map lstrip]. rewrite is_space_upper. by destruct (is_space a).
Qed.

Lemma rstrip_upper s : rstrip (str_upper s) = str_upper (rstrip s).
Proof.
  unfold str_upper. induction s as [|a s IH]; [done|].
  cbn [str_map]. rewrite !rstrip_cons, IH, is_space_upper.
  destruct (rstrip s); [by destruct (is_space a)|done].
Qed.

Lemma collapse_spaces_upper s : ∀ b,
  collapse_spaces b (str_upper s) = str_upper (collapse_spaces b s).
Proof.
  unfold str_upper. induction s as [|a s IH]; intros b; [done|].
  cbn [str_map collapse_spaces]. rewrite is_space_upper.
  destruct (is_space a); [destruct b|]; cbn [str_map]; by rewrite IH.
Qed.

Lemma norm_space_upper s : norm_space (str_upper s) = str_upper (norm_space s).
Proof.
  unfold norm_space, strip. by rewrite lstrip_upper, rstrip_upper, collapse_spaces_upper.
Qed.

(** X20. Dedup keys are stable under normalisation: [norm_space] is
    idempotent, the key of an address and an owner that went through
    [norm_space] (as the builder stores them in the master) is the key of the
    raw values, and taking the key of a key's own components gives the key
    again. *)
Theorem norm_key_is_stable (addr owner : string) :
  norm_space (norm_space addr) = norm_space addr
  ∧ norm_key (norm_space addr) (norm_space owner) = norm_key addr owner
  ∧ norm_key (norm_key addr owner).1 (norm_key addr owner).2 = norm_key addr owner.
Proof.
  split; [apply norm_space_idem|]. unfold norm_key. split.
  - by rewrite !norm_space_idem.
  - cbn [fst snd]. by rewrite !norm_space_upper, !norm_space_idem, !str_upper_idem.
Qed.

Lemma process_row_keyed tracker pol b st r :
  Forall (λ c, norm_key (c_PropertyAddress c) (c_OwnerName c) = cand_key c)
    (all_candidates st) →
  Forall (λ c, norm_key (c_PropertyAddress c) (c_OwnerName c) = cand_key c)
    (all_candidates (process_row tracker pol b st r)).
Proof.
  intros Hs. unfold process_row.
  destruct (detect_addr_owner_from_source_row r) as [addr own] eqn:Ed.
  repeat case_match;
    match goal with |- context [bump ?b ?f ?s] =>
      destruct (bump_fields b f s) as [_ ->] end; try done.
  cbn [all_candidates]. apply Forall_app. split; [done|].
  constructor; [|constructor]. unfold cand_key. cbn [c_PropertyAddress c_OwnerName c_src_row].
  rewrite Ed. unfold norm_key. by rewrite !norm_space_idem.
Qed.

Lemma process_rows_keyed tracker pol rows b st :
  Forall (λ c, norm_key (c_PropertyAddress c) (c_OwnerName c) = cand_key c)
    (all_candidates st) →
  Forall (λ c, norm_key (c_PropertyAddress c) (c_OwnerName c) = cand_key c)
    (all_candidates (process_rows tracker pol rows b st)).
Proof.
  unfold process_rows. revert st. induction rows as [|r rows IH]; intros st Hs; [done|].
  csimpl. apply IH. by apply process_row_keyed.
Qed.

(** X21. The campaign master never lists a lead twice: in the selection a
    build ends with, the key [main] recomputes from a row's stored address
    and owner is the dedup key under which [process_rows] kept the row, and
    these keys are pairwise different. *)
Theorem main_selection_keys_distinct {rng : Type}
    (shuffle : rng → list candidate → list candidate * rng)
    (g : rng) (args : build_args) (w : build_world) :
  (∀ g l, (shuffle g l).1 ≡ₚ l) →
  let sel := r_selection (main shuffle g args w) in
  Forall (λ c, norm_key (c_PropertyAddress c) (c_OwnerName c) = cand_key c) sel
  ∧ NoDup ((λ c, norm_key (c_PropertyAddress c) (c_OwnerName c)) <$> sel).
Proof.
  intros Hperm sel.
  assert (Forall (λ c, norm_key (c_PropertyAddress c) (c_OwnerName c) = cand_key c) sel
          ∧ NoDup (cand_key <$> sel)) as [Hk Hnd].
  { destruct (main_selection_inv shuffle g args w
                (λ st, Forall (λ c, norm_key (c_PropertyAddress c) (c_OwnerName c)
                                    = cand_key c) (all_candidates st)) Hperm)
      as [E|(st & chosen & Hkey & [Hnd _] & Hsub & E)]; unfold sel; try rewrite E.
    - constructor.
    - intros. by apply process_rows_keyed.
    - split; constructor.
    - split.
      + rewrite py_sorted_perm. rewrite Forall_forall in Hkey |- *.
        intros c Hc. apply Hkey. by eapply elem_of_submseteq.
      + rewrite py_sorted_perm. by eapply submseteq_NoDup_fmap. }
  split; [done|].
  rewrite (Forall_fmap_ext_1 _ cand_key sel Hk). done.
Qed.

Lemma main_selection_keys_distinct_witness :
  let shuffle := λ (g : unit) (l : list candidate), (reverse l, g) in
  let args := BuildArgs "Fall" 7 3 ["a.csv"] ["b.csv"] None None 0 false in
  let w := BuildWorld
             [("a.csv", [[("Property Address", "1  Main St"); ("Primary Name", "Jane Doe");
                          ("MAIL ZIP", "95835")];
                         [("Property Address", "9 Elm Ct"); ("Primary Name", "John Roe")]]);
              ("b.csv", [[("Property Address", "1 MAIN ST"); ("Primary Name", "jane  doe");
                          ("Owner ZIP", "95630-1234")]])]
             None "Aug2025" in
  let sel := r_selection (main shuffle () args w) in
  Forall (λ c, norm_key (c_PropertyAddress c) (c_OwnerName c) = cand_key c) sel
  ∧ NoDup ((λ c, norm_key (c_PropertyAddress c) (c_OwnerName c)) <$> sel).
Proof.
  intros shuffle args w.
  apply (main_selection_keys_distinct shuffle () args w).
  intros g l. apply reverse_Permutation.
Defined.

(** ** Finalize does not fail on a regular tracker file *)








(** ** The marker file *)

Lemma write_marker_discoverable w dir m :
  is_Some (f_log (folder_at (write_marker w dir m) dir)) →
  dir ∈ discover_campaign_folders (write_marker w dir m) true m.
Proof.
  unfold write_marker, folder_at.
  destruct (dict_get (lw_folders w) dir) as [f|] eqn:Ef.
  - cbn [lw_folders]. rewrite dict_get_set, decide_True by done. cbn [default f_log].
    intros Hlog. unfold discover_campaign_folders. cbn [lw_folders].
    rewrite py_sorted_perm. apply list_elem_of_fmap.
    eexists (dir, _). split; [done|]. apply list_elem_of_filter. split.
    + cbn [snd f_log f_markers]. split; [done|]. intros _.
      case_bool_decide; [done|]. apply elem_of_app. right. left.
    + apply dict_get_Some_elem. by rewrite dict_get_set, decide_True.
  - rewrite Ef. cbn. by intros [? [=]].
Qed.

(** X23. A finalize run with [--write-marker] that gets past its checks
    (mapping with rows, campaign number known, no dry run) and ends normally
    leaves its campaign folder visible to a rebuild with
    [--marker-required], provided the folder holds an executed log
    afterwards. *)
Theorem finalize_marker_makes_folder_discoverable (today : string) (args : ledger_args)
    (w w' : ledger_world) (mapping : list row) :
  find_mapping args w = Some mapping → strip_rows mapping ≠ [] →
  campaign_number_of args ≠ "" → fa_dry_run args = false →
  fa_write_marker args = true →
  append_executed_and_update_tracker today args w = Some w' →
  is_Some (f_log (folder_at w' (fa_campaign_dir args))) →
  fa_campaign_dir args
  ∈ discover_campaign_folders w' true (fa_marker_name args).
Proof.
  intros Hm Hrows Hcn Hdry Hmark. unfold append_executed_and_update_tracker.
  rewrite Hm, (proj2 (truthy_ne _) Hcn), Hdry. cbn [negb].
  destruct (strip_rows mapping) as [|m0 ms]; [done|].
  unfold commit_run. rewrite Hmark.
  destruct (match to_add_of today args w (m0 :: ms) with [] => _ | _ => _ end)
    as [w1|]; [|done].
  cbn [mbind option_bind].
  destruct (write_csv _ _) as [t|]; [|done]. cbn [mbind option_bind].
  intros [= <-]. apply write_marker_discoverable.
Qed.

Lemma finalize_marker_makes_folder_discoverable_witness :
  let mapping := [[("owner", "Ann Lee"); ("property_address", "1 Elm St")]] in
  let args := LedgerArgs "Root/Fall_7_Aug2025" "" "" "" false false true false true
                "CAMPAIGN.TAG" false in
  let w := LedgerWorld [("Root/Fall_7_Aug2025", Folder None (Some mapping) None None [])]
             [] None None in
  let w' := default w (append_executed_and_update_tracker "08/01/2025" args w) in
  discover_campaign_folders w true "CAMPAIGN.TAG" = []
  ∧ "Root/Fall_7_Aug2025" ∈ discover_campaign_folders w' true "CAMPAIGN.TAG".
Proof.
  intros mapping args w w'. split; [reflexivity|].
  apply (finalize_marker_makes_folder_discoverable "08/01/2025" args w w' mapping).
  - reflexivity.
  - vm_compute. discriminate.
  - vm_compute. discriminate.
  - reflexivity.
  - reflexivity.
  - vm_compute. reflexivity.
  - vm_compute. by eexists.
Defined.

(** ** Where the planner's bins lie *)

Lemma bin_placed_mono n m b : n ≤ m → bin_placed n b → bin_placed m b.
Proof. intros Hnm (s & ? & ? & ? & ? & ?). exists s. split_and!; [done..|lia|done]. Qed.

Lemma sorted_ends_snoc (bs : list bin) (b : bin) n :
  Forall (bin_placed n) bs → n ≤ b_end b →
  StronglySorted le (b_end <$> bs) → StronglySorted le (b_end <$> (bs ++ [b])).
Proof.
  intros Hbs Hn. rewrite fmap_app. induction bs as [|a bs IH]; cbn.
  - intros _. repeat constructor.
  - apply Forall_cons in Hbs as [Ha Hbs].
    intros [Hs Hle]%StronglySorted_inv. constructor; [by apply IH|].
    apply Forall_app. split; [done|]. apply Forall_singleton.
    destruct Ha as (s & _ & _ & _ & He & _). lia.
Qed.

Lemma close_changed_zip3_positions i z3 st :
  1 ≤ i → plan_positions i st → plan_positions i (close_changed_zip3 i z3 st).
Proof.
  intros Hi (Hb & Hs & Hz & H5). unfold close_changed_zip3.
  destruct (open_z3_group st) as [g|]; [|done].
  destruct (bool_decide (0 < open_z3_count st)) eqn:E; cbn [andb]; [|done].
  apply bool_decide_eq_true in E.
  destruct (bool_decide (z3 ≠ g)); [|done].
  destruct (Hz E) as (s & Es & Hs1 & Hs2).
  split_and!; cbn [bins open_z3_count current_5_start current_5_z5
                                    piece_in_current_tray].
  - apply Forall_app. split; [done|]. apply Forall_singleton.
    exists s. cbn. split_and!; [done|done|lia|lia|lia].
  - eapply sorted_ends_snoc; [exact Hb|cbn; lia|done].
  - lia.
  - done.
Qed.

Lemma plan_step_positions tt i z st :
  1 ≤ i → plan_positions i st → plan_positions (S i) (plan_step tt i z st).
Proof.
  intros Hi Hst. unfold plan_step. cbv zeta.
  destruct (close_changed_zip3_positions i (zip3 z) st Hi Hst) as (Hb & Hs & Hz & H5).
  set (st1 := close_changed_zip3 i (zip3 z) st) in *.
  assert (Forall (bin_placed (S i - 1)) (bins st1)) as Hb'.
  { eapply Forall_impl; [exact Hb|]. intros b. apply bin_placed_mono. lia. }
  destruct (bool_decide (_ < _)).
  - unfold assign_5digit. cbv zeta.
    set (restart := bool_decide (current_5_start st1 = None)
                    || bool_decide (current_5_z5 st1 ≠ Some z)).
    assert (∃ s, (if restart then Some i else current_5_start st1) = Some s
                 ∧ 1 ≤ s
                 ∧ s + ((if restart then 0
                         else default 0 (piece_in_current_tray st1 !! z)) + 1) ≤ S i)
      as (s & Es & Hs1 & Hs2).
    { destruct restart eqn:Er.
      - exists i. split; [done|]. lia.
      - unfold restart in Er. apply orb_false_iff in Er as [E1 E2].
        apply bool_decide_eq_false in E1, E2.
        destruct (current_5_start st1) as [s|] eqn:Ec; [|done].
        assert (current_5_z5 st1 = Some z) as Ez.
        { destruct (decide (current_5_z5 st1 = Some z)); [done|by destruct E2]. }
        exists s. split; [done|]. destruct (H5 s z eq_refl Ez). lia. }
    rewrite Es. case_bool_decide as Ep.
    + split_and!; cbn [bins open_z3_count open_z3_start current_5_start current_5_z5
                        piece_in_current_tray].
      * apply Forall_app. split; [done|]. apply Forall_singleton.
        exists s. cbn. split_and!; [done|done|lia|lia|lia].
      * eapply sorted_ends_snoc; [exact Hb|cbn; lia|done].
      * intros Hc. destruct (Hz Hc) as (s' & ? & ? & ?). exists s'. split_and!; [done..|lia].
      * done.
    + split_and!; cbn [bins open_z3_count open_z3_start current_5_start current_5_z5
                        piece_in_current_tray].
      * done.
      * done.
      * intros Hc. destruct (Hz Hc) as (s' & ? & ? & ?). exists s'. split_and!; [done..|lia].
      * intros s' z' [= <-] [= <-]. rewrite lookup_insert_eq. cbn [default from_option id]. lia.
  - unfold assign_leftover. cbv zeta.
    assert (∃ s, (if bool_decide (open_z3_count st1 = 0) then Some i
                  else open_z3_start st1) = Some s
                 ∧ 1 ≤ s ∧ s + (open_z3_count st1 + 1) ≤ S i) as (s & Es & Hs1 & Hs2).
    { case_bool_decide as E0.
      - exists i. split; [done|]. lia.
      - destruct (Hz ltac:(lia)) as (s & ? & ? & ?). exists s. split; [done|]. lia. }
    rewrite Es.
    assert (∀ s' z', current_5_start st1 = Some s' → current_5_z5 st1 = Some z' →
              1 ≤ s' ∧ s' + default 0 (piece_in_current_tray st1 !! z') ≤ S i) as H5'.
    { intros s' z' ??. destruct (H5 s' z'); [done..|]. lia. }
    destruct (bool_decide (open_z3_count st1 + 1 = 150)) eqn:Ec.
    + split_and!; cbn [bins open_z3_count open_z3_start current_5_start current_5_z5
                        piece_in_current_tray].
      * apply Forall_app. split; [done|]. apply Forall_singleton.
        apply bool_decide_eq_true in Ec.
        exists s. cbn. split_and!; [done|done|lia|lia|lia].
      * eapply sorted_ends_snoc; [exact Hb|cbn; lia|done].
      * lia.
      * done.
    + split_and!; cbn [bins open_z3_count open_z3_start current_5_start current_5_z5
                        piece_in_current_tray].
      * done.
      * done.
      * intros _. by exists s.
      * done.
Qed.

Lemma plan_loop_positions tt zips : ∀ i st,
  1 ≤ i → plan_positions i st →
  plan_positions (i + length zips) (plan_loop tt i zips st).
Proof.
  induction zips as [|z zips IH]; intros i st Hi Hst.
  - by rewrite Nat.add_0_r.
  - cbn [plan_loop length]. replace (i + S (length zips)) with (S i + length zips) by lia.
    apply IH; [lia|]. by apply plan_step_positions.
Qed.

Lemma imap_ends (f : nat → bin → bin) (bs : list bin) :
  (∀ i b, b_end (f i b) = b_end b) → b_end <$> imap f bs = b_end <$> bs.
Proof.
  revert f. induction bs as [|b bs IH]; intros f Hf; [done|].
  cbn. rewrite Hf. f_equal. apply IH. intros i x. apply Hf.
Qed.

Lemma assign_ids_ends bs : b_end <$> assign_ids bs = b_end <$> bs.
Proof. apply imap_ends. by intros i []. Qed.

(** X24. Where the bins of a plan lie, for any list of ZIP5s in any order:
    every bin has a start position (it is never left unset), its span
    [start..end] lies within the pieces 1..n and is at least as long as its
    count, and the bins are listed in non-decreasing order of their end
    positions. *)
Theorem plan_bins_are_placed_in_order (zips : list string) :
  Forall (bin_placed (length zips)) (plan_bins_by_order zips)
  ∧ StronglySorted le (b_end <$> plan_bins_by_order zips).
Proof.
  unfold plan_bins_by_order. cbv zeta. rewrite assign_ids_ends.
  destruct (plan_loop_positions (trays_total_of zips) zips 1 plan_init)
    as (Hb & Hs & Hz & _); [done| |].
  { split_and!; [constructor|constructor|cbn; lia|done]. }
  replace (1 + length zips - 1) with (length zips) in Hb by lia.
  set (st := plan_loop _ 1 zips plan_init) in *.
  assert (Forall (bin_placed (length zips)) (close_final (length zips) st)
          ∧ StronglySorted le (b_end <$> close_final (length zips) st)) as [H1 H2].
  { unfold close_final. destruct (open_z3_group st) as [g|]; [|done].
    case_bool_decide as E; [|done]. destruct (Hz E) as (s & Es & ? & ?). split.
    - apply Forall_app. split; [done|]. apply Forall_singleton.
      exists s. cbn. split_and!; [done|done|lia|lia|lia].
    - eapply sorted_ends_snoc; [exact Hb|cbn; lia|done]. }
  split; [|done]. apply Forall_imap_keep; [|done].
  intros i [] (s & ?). by exists s.
Qed.

(** ** The history filter against the executed logs *)

Section kept_leads.
Variables (w' : ledger_world) (bw : build_world) (pol : policy).
Hypothesis Hstep : ledger_in_step w'.
Hypothesis Htr : w_tracker bw = lw_tracker w'.
Hypothesis Hpol : prior_exact pol = None ∨ prior_max pol = None.

Lemma passes_prior_rules_sound k :
  passes_prior_rules k (read_tracker bw) (prior_exact pol) (prior_max pol)
    (min_gap pol) (campaign_number pol) = true →
  ∃ l, NoDup l ∧ (∀ cn, cn ∈ l ↔ logged_number w' k cn) ∧ history_allows pol l.
Proof.
  destruct Hstep as (Hentry & Hfollow & _). specialize (Hfollow k).
  unfold passes_prior_rules. rewrite (read_tracker_ledger_record bw w' k Htr).
  destruct (ledger_record w' k) as [info|].
  - destruct Hfollow as [(c0 & Hc0) (l & Hn & Hc & Hs & Hl)].
    assert (∀ c, logged_number w' k c → canonical c) as Hcan.
    { intros c (x & Hx & _ & <-). by destruct (Hentry x Hx) as (_ & _ & ?). }
    assert (Forall (λ x, x ≠ "" ∧ all_digits x) l) as Hd.
    { by apply (lists_numbers_canonical (logged_number w' k)). }
    assert (l ≠ []) as Hne.
    { intros ->. apply Hl in Hc0. by apply elem_of_nil in Hc0. }
    destruct (builder_parses_record info l Hne Hd Hs Hn Hc)
      as (Hcount & (m & Hm & Hlast) & Hmax).
    assert (0 < parse_last_campaign_number info)%Z as Hpos.
    { rewrite Hlast. destruct (Hcan m (proj1 (Hl m) Hm)) as [_ H0]. lia. }
    destruct info as [|kv info].
    { destruct (pretty_nat_digits (length l)) as [Hp _]. by rewrite <- Hc in Hp. }
    set (cnt := parse_campaign_count (kv :: info)) in *.
    set (lst := parse_last_campaign_number (kv :: info)) in *.
    intros Hpass. exists l. split; [by apply sorted_strict_NoDup|]. split; [done|].
    unfold history_allows. rewrite <- Hcount. split_and!.
    + intros e He. rewrite He in Hpass. case_bool_decide as E; [done|].
      destruct (decide (cnt = e)); [done|by destruct E].
    + intros m0 Hm0. rewrite Hm0 in Hpass.
      destruct (match prior_exact pol with Some e => _ | None => false end); [done|].
      case_bool_decide; [done|lia].
    + intros Hgap cn Hcn.
      destruct (match prior_exact pol with Some e => _ | None => false end); [done|].
      destruct (match prior_max pol with Some e => _ | None => false end); [done|].
      rewrite (bool_decide_eq_true_2 _ Hgap), (bool_decide_eq_true_2 _ Hpos) in Hpass.
      cbn [andb] in Hpass. case_bool_decide as E; [done|].
      specialize (Hmax cn Hcn). lia.
  - intros Hpass. exists []. split; [constructor|]. split.
    { intros cn. split; [by intros ?%elem_of_nil|]. intros Hcn. by destruct (Hfollow cn). }
    unfold history_allows. cbn [length]. split_and!.
    + intros e He. rewrite He in Hpass. apply bool_decide_eq_true in Hpass. lia.
    + intros m Hm. destruct Hpol as [He|Hm']; [|congruence].
      rewrite He, Hm in Hpass. apply bool_decide_eq_true in Hpass. lia.
    + intros _ cn Hcn. by apply elem_of_nil in Hcn.
Qed.

Lemma process_row_policy b st r :
  Forall (λ c, ∃ l, NoDup l ∧ (∀ cn, cn ∈ l ↔ logged_number w' (cand_key c) cn)
                    ∧ history_allows pol l) (all_candidates st) →
  Forall (λ c, ∃ l, NoDup l ∧ (∀ cn, cn ∈ l ↔ logged_number w' (cand_key c) cn)
                    ∧ history_allows pol l)
    (all_candidates (process_row (read_tracker bw) pol b st r)).
Proof.
  intros Hs. unfold process_row.
  destruct (detect_addr_owner_from_source_row r) as [addr own] eqn:Ed.
  destruct (negb (truthy addr)); [|destruct (negb (truthy own));
    [|destruct (bool_decide _);
      [|destruct (passes_prior_rules _ _ _ _ _ _) eqn:Hpass; cbn [negb]]]];
    match goal with |- context [bump ?b ?f ?s] =>
      destruct (bump_fields b f s) as [_ ->] end; try done.
  cbn [all_candidates]. apply Forall_app. split; [done|].
  constructor; [|constructor]. unfold cand_key. cbn [c_src_row]. rewrite Ed.
  by apply passes_prior_rules_sound.
Qed.

Lemma process_rows_policy rows b st :
  Forall (λ c, ∃ l, NoDup l ∧ (∀ cn, cn ∈ l ↔ logged_number w' (cand_key c) cn)
                    ∧ history_allows pol l) (all_candidates st) →
  Forall (λ c, ∃ l, NoDup l ∧ (∀ cn, cn ∈ l ↔ logged_number w' (cand_key c) cn)
                    ∧ history_allows pol l)
    (all_candidates (process_rows (read_tracker bw) pol rows b st)).
Proof.
  unfold process_rows. revert st. induction rows as [|r rows IH]; intros st Hs; [done|].
  csimpl. apply IH. by apply process_row_policy.
Qed.
End kept_leads.

(** X25. The history filter holds against the executed logs. After any runs
    of finalize and rebuild from an empty ledger (complete mappings,
    canonical campaign numbers, no [--marker-required]), every lead
    [process_rows] keeps satisfies the prior-contact policy with respect to
    the campaigns actually logged for its key: their number equals
    [--prior-exact], is at most [--prior-max], and with a positive
    [--min-gap] each of them lies at least the gap before the current
    campaign. The two count options are not both set, as [main] demands. *)
Theorem kept_leads_satisfy_policy (try_parse_date : string → option date)
    (runs : list (string * ledger_args)) (w w' : ledger_world) (bw : build_world)
    (pol : policy) (sources : list (list row * bucket_name)) (c : candidate) :
  fresh_world w →
  Forall (λ run : string * ledger_args, plain_run run.2) runs →
  run_all try_parse_date runs w = Some w' →
  w_tracker bw = lw_tracker w' →
  prior_exact pol = None ∨ prior_max pol = None →
  c ∈ all_candidates
        (foldl (λ st src, process_rows (read_tracker bw) pol src.1 src.2 st)
           ingest_init sources) →
  ∃ l, NoDup l ∧ (∀ cn, cn ∈ l ↔ logged_number w' (cand_key c) cn)
       ∧ history_allows pol l.
Proof.
  intros Hw Hruns Hrun Htr Hpol.
  pose proof (run_all_in_step try_parse_date runs w w' Hruns
                (fresh_world_in_step w Hw) Hrun) as Hstep.
  assert (Forall (λ c, ∃ l, NoDup l
                        ∧ (∀ cn, cn ∈ l ↔ logged_number w' (cand_key c) cn)
                        ∧ history_allows pol l)
            (all_candidates
               (foldl (λ st src, process_rows (read_tracker bw) pol src.1 src.2 st)
                  ingest_init sources))) as Hall.
  { generalize (Forall_nil_2 (λ c, ∃ l, NoDup l
                        ∧ (∀ cn, cn ∈ l ↔ logged_number w' (cand_key c) cn)
                        ∧ history_allows pol l)).
    change (@nil candidate) with (all_candidates ingest_init).
    generalize ingest_init.
    induction sources as [|[rows b] sources IH]; intros st0 H0; [done|].
    cbn [foldl]. apply IH. by apply process_rows_policy. }
  rewrite Forall_forall in Hall. apply Hall.
Qed.

Lemma kept_leads_satisfy_policy_witness :
  let mapping3 := [[("owner", "Jane Doe"); ("property_address", "1 Main St");
                    ("ref_code", "R-001"); ("template_ref", "T1"); ("ZIP5", "95835")];
                   [("owner", "Mary Jane"); ("property_address", "7 Oak Ave");
                    ("ref_code", "R-002"); ("template_ref", "T2"); ("ZIP5", "95630")]] in
  let mapping12 := [[("owner", "JANE DOE"); ("property_address", "1 Main St");
                     ("ref_code", "R-101"); ("template_ref", "T1"); ("ZIP5", "95835")]] in
  let w := LedgerWorld
             [("out/Campaign_3_Nov2026", Folder (Some mapping3) None None None []);
              ("out/Campaign_12_Dec2026", Folder None (Some mapping12) None None [])]
             [] None None in
  let finalize dir := LedgerArgs dir "" "" "" false false false false false
                        "CAMPAIGN.TAG" false in
  let runs := [("12/1/2026", finalize "out/Campaign_12_Dec2026");
               ("11/4/2026", finalize "out/Campaign_3_Nov2026")] in
  let w' := default w (run_all (λ _, None) runs w) in
  let bw := BuildWorld [] (lw_tracker w') "Jan2027" in
  let pol := Policy None (Some 1%Z) 5 13 in
  let source := [[("Property Address", "1 Main St"); ("Primary Name", "Jane Doe")];
                 [("Property Address", "7 Oak Ave"); ("Primary Name", "Mary Jane")];
                 [("Property Address", "9 Elm Ct"); ("Primary Name", "John Roe")]] in
  let st := foldl (λ st src, process_rows (read_tracker bw) pol src.1 src.2 st)
              ingest_init [(source, MAND)] in
  let c := default (Candidate "" "" "" []) (head (all_candidates st)) in
  (cand_key <$> all_candidates st = [("7 OAK AVE", "MARY JANE"); ("9 ELM CT", "JOHN ROE")])
  ∧ ∃ l, NoDup l ∧ (∀ cn, cn ∈ l ↔ logged_number w' (cand_key c) cn)
         ∧ history_allows pol l.
Proof.
  intros mapping3 mapping12 w finalize runs w' bw pol source st c.
  split; [by vm_compute|].
  apply (kept_leads_satisfy_policy (λ _, None) runs w w' bw pol [(source, MAND)] c).
  - split; [reflexivity|]. split.
    + repeat constructor; vm_compute; discriminate.
    + constructor.
  - repeat constructor; vm_compute; try reflexivity; discriminate.
  - vm_compute. reflexivity.
  - reflexivity.
  - left. reflexivity.
  - vm_compute. left.
Defined.
